(** * NeuroTech control engine: MEMS pointer controllers and EMG click classifier

    A shallow embedding of [mems_mouse_mode.py] and [muscle_click.py].

    Python [float] is IEEE 754 binary64, which is the kernel's primitive
    [float]: every arithmetic operation and comparison below is the one the
    interpreter performs, NaN and the infinities included.  Python [int] is
    [Z].  The wall clock [time.time()] is an argument [now] of every entry
    point that reads it; the calls to [pyautogui] are the value an entry point
    returns next to the new state. *)

From Stdlib Require Import ZArith List Bool Lia.
From Stdlib Require Import Floats.
Import ListNotations.

Set Warnings "-inexact-float".

Local Open Scope float_scope.

(** ** Python built-ins *)

(** [max(iterable)] over a non-empty iterable: the first item is kept until a
    later one compares greater ([item > best]). *)
Definition py_max (first : float) (rest : list float) : float :=
  fold_left (fun best item => if best <? item then item else best) rest first.

(** [max(a, b)] with two arguments: [b] replaces [a] only when [b > a]. *)
Definition py_max2 (a b : float) : float := if a <? b then b else a.

(** [float(n)] for an [int]: the nearest binary64, ties to even. *)
Definition float_of_int (n : Z) : float :=
  SF2Prim (binary_normalize prec emax n 0%Z false).

(** [math.isfinite]. *)
Definition isfinite (x : float) : bool := is_finite x.

(** [x == 0.0]: true of both signed zeros. *)
Definition is_zero (x : float) : bool := x =? 0.

(** Left-to-right accumulation [acc += x] over a list of samples. *)
Definition fsum (xs : list float) : float := fold_left add xs 0.

(** ** muscle_click.py *)

Module MuscleClick.

Record MuscleClickConfig := mkConfig {
  left_threshold : float;
  right_threshold : float;
  hold_threshold : float;
  right_double_max_gap_sec : float;
  cooldown_sec : float;
  use_separate_muscles : bool;
  second_muscle_threshold : float;
  hold_threshold_sec : float;
  use_duration_detection : bool
}.

(** The dataclass defaults. *)
Definition default_config : MuscleClickConfig := {|
  left_threshold := 150.0;
  right_threshold := 250.0;
  hold_threshold := 225.0;
  right_double_max_gap_sec := 1.5;
  cooldown_sec := 0.5;
  use_separate_muscles := false;
  second_muscle_threshold := 200.0;
  hold_threshold_sec := 0.3;
  use_duration_detection := true
|}.

(** The SDK records, reduced to the fields the detector reads. *)
Record CallibriEnvelopeData := mkEnvelope { Sample : float }.
Record CallibriSignalData := mkSignal { Samples : list float }.

(** The attributes of a [MuscleClickDetector] other than [config], which the
    detector never assigns. *)
Record MuscleClickDetector := mkDetector {
  last_click_ts : float;
  debug_printed_env : bool;
  debug_printed_sig : bool;
  last_right_peak_ts : option float;
  contraction_start_time : option float;
  is_holding : bool;
  is_dragging : bool;
  muscle_buffer : list float;
  buffer_max_size : Z
}.

(** [__init__]. *)
Definition init : MuscleClickDetector := {|
  last_click_ts := 0.0;
  debug_printed_env := false;
  debug_printed_sig := false;
  last_right_peak_ts := None;
  contraction_start_time := None;
  is_holding := false;
  is_dragging := false;
  muscle_buffer := [];
  buffer_max_size := 10
|}.

(** The [pyautogui] calls: [click(button="left")], [click(button="right")],
    [mouseDown(button="left")] and [mouseUp(button="left")]. *)
Inductive GestureEvent := LeftClick | RightClick | DragStart | DragEnd.

Definition set_last_click_ts (st : MuscleClickDetector) (t : float) :=
  {| last_click_ts := t;
     debug_printed_env := debug_printed_env st;
     debug_printed_sig := debug_printed_sig st;
     last_right_peak_ts := last_right_peak_ts st;
     contraction_start_time := contraction_start_time st;
     is_holding := is_holding st;
     is_dragging := is_dragging st;
     muscle_buffer := muscle_buffer st;
     buffer_max_size := buffer_max_size st |}.

Definition set_debug_printed_env (st : MuscleClickDetector) (b : bool) :=
  {| last_click_ts := last_click_ts st;
     debug_printed_env := b;
     debug_printed_sig := debug_printed_sig st;
     last_right_peak_ts := last_right_peak_ts st;
     contraction_start_time := contraction_start_time st;
     is_holding := is_holding st;
     is_dragging := is_dragging st;
     muscle_buffer := muscle_buffer st;
     buffer_max_size := buffer_max_size st |}.

Definition set_debug_printed_sig (st : MuscleClickDetector) (b : bool) :=
  {| last_click_ts := last_click_ts st;
     debug_printed_env := debug_printed_env st;
     debug_printed_sig := b;
     last_right_peak_ts := last_right_peak_ts st;
     contraction_start_time := contraction_start_time st;
     is_holding := is_holding st;
     is_dragging := is_dragging st;
     muscle_buffer := muscle_buffer st;
     buffer_max_size := buffer_max_size st |}.

Definition set_is_dragging (st : MuscleClickDetector) (b : bool) :=
  {| last_click_ts := last_click_ts st;
     debug_printed_env := debug_printed_env st;
     debug_printed_sig := debug_printed_sig st;
     last_right_peak_ts := last_right_peak_ts st;
     contraction_start_time := contraction_start_time st;
     is_holding := is_holding st;
     is_dragging := b;
     muscle_buffer := muscle_buffer st;
     buffer_max_size := buffer_max_size st |}.

Definition set_muscle_buffer (st : MuscleClickDetector) (l : list float) :=
  {| last_click_ts := last_click_ts st;
     debug_printed_env := debug_printed_env st;
     debug_printed_sig := debug_printed_sig st;
     last_right_peak_ts := last_right_peak_ts st;
     contraction_start_time := contraction_start_time st;
     is_holding := is_holding st;
     is_dragging := is_dragging st;
     muscle_buffer := l;
     buffer_max_size := buffer_max_size st |}.

(** [value = max(abs(d.Sample) * 1e6 for d in data)], for non-empty [data]. *)
Definition envelope_value (d : CallibriEnvelopeData)
  (ds : list CallibriEnvelopeData) : float :=
  py_max (abs (Sample d) * 1e6) (map (fun d' => abs (Sample d') * 1e6) ds).

(** [update_from_envelope].  [now] is what [time.time()] returns when the
    threshold test lets the call reach it. *)
Definition update_from_envelope (cfg : MuscleClickConfig)
  (st : MuscleClickDetector) (data : list CallibriEnvelopeData) (now : float)
  : MuscleClickDetector * option GestureEvent :=
  match data with
  | [] => (st, None)
  | d :: ds =>
    let value := envelope_value d ds in
    let st := if debug_printed_env st then st else set_debug_printed_env st true in
    if value <? left_threshold cfg then (st, None)
    else if now - last_click_ts st <? cooldown_sec cfg then (st, None)
    else (set_last_click_ts st now, Some LeftClick)
  end.

(** The loop of [update_from_signal] over the packets: empty packets are
    skipped, and a packet's maximum replaces [max_sample] when greater. *)
Definition signal_max (data : list CallibriSignalData) : float :=
  fold_left
    (fun max_sample pack =>
       match Samples pack with
       | [] => max_sample
       | s :: ss =>
         let local_max := py_max (abs s * 1e6) (map (fun s' => abs s' * 1e6) ss) in
         if max_sample <? local_max then local_max else max_sample
       end)
    data 0.0.

(** [self._muscle_buffer.append(x)], then [pop(0)] when over capacity. *)
Definition push_buffer (st : MuscleClickDetector) (x : float) : MuscleClickDetector :=
  let buf := muscle_buffer st ++ [x] in
  set_muscle_buffer st
    (if (buffer_max_size st <? Z.of_nat (length buf))%Z then tl buf else buf).

(** [_handle_duration_based_click]. *)
Definition handle_duration_based_click (cfg : MuscleClickConfig)
  (st : MuscleClickDetector) (max_sample now : float)
  : MuscleClickDetector * option GestureEvent :=
  if hold_threshold cfg <=? max_sample then
    if cooldown_sec cfg <=? now - last_click_ts st then
      let st := set_last_click_ts st now in
      if negb (is_dragging st) then (set_is_dragging st true, Some DragStart)
      else (set_is_dragging st false, Some DragEnd)
    else (st, None)
  else if right_threshold cfg <=? max_sample then
    if cooldown_sec cfg <=? now - last_click_ts st then
      (set_last_click_ts st now, Some RightClick)
    else (st, None)
  else if left_threshold cfg <=? max_sample then
    if cooldown_sec cfg <=? now - last_click_ts st then
      (set_last_click_ts st now, Some LeftClick)
    else (st, None)
  else (st, None).

(** [_handle_simple_click]. *)
Definition handle_simple_click (cfg : MuscleClickConfig)
  (st : MuscleClickDetector) (max_sample now : float)
  : MuscleClickDetector * option GestureEvent :=
  if right_threshold cfg <=? max_sample then
    if cooldown_sec cfg <=? now - last_click_ts st then
      (set_last_click_ts st now, Some RightClick)
    else (st, None)
  else if left_threshold cfg <=? max_sample then
    if cooldown_sec cfg <=? now - last_click_ts st then
      (set_last_click_ts st now, Some LeftClick)
    else (st, None)
  else (st, None).

(** [update_from_signal]. *)
Definition update_from_signal (cfg : MuscleClickConfig)
  (st : MuscleClickDetector) (data : list CallibriSignalData) (now : float)
  : MuscleClickDetector * option GestureEvent :=
  match data with
  | [] => (st, None)
  | _ :: _ =>
    let max_sample := signal_max data in
    let st := push_buffer st max_sample in
    let st := if debug_printed_sig st then st else set_debug_printed_sig st true in
    if use_duration_detection cfg
    then handle_duration_based_click cfg st max_sample now
    else handle_simple_click cfg st max_sample now
  end.

(** One delivery of the SDK callback, with the clock reading it will see. *)
Inductive call :=
| Envelope (data : list CallibriEnvelopeData) (now : float)
| Signal (data : list CallibriSignalData) (now : float).

Definition call_time (c : call) : float :=
  match c with Envelope _ t => t | Signal _ t => t end.

Definition step (cfg : MuscleClickConfig) (st : MuscleClickDetector) (c : call)
  : MuscleClickDetector * option GestureEvent :=
  match c with
  | Envelope data now => update_from_envelope cfg st data now
  | Signal data now => update_from_signal cfg st data now
  end.

(** A run of the detector: the final state and the actions emitted, oldest
    first, each with the clock reading of the call that emitted it. *)
Fixpoint run (cfg : MuscleClickConfig) (st : MuscleClickDetector)
  (calls : list call) : MuscleClickDetector * list (GestureEvent * float) :=
  match calls with
  | [] => (st, [])
  | c :: rest =>
    let '(st1, ev) := step cfg st c in
    let '(st2, evs) := run cfg st1 rest in
    (st2, match ev with
          | Some e => (e, call_time c) :: evs
          | None => evs
          end)
  end.

Definition is_drag (e : GestureEvent) : bool :=
  match e with DragStart | DragEnd => true | _ => false end.

(** The drag actions among the emitted actions, in order. *)
Definition drag_events (evs : list (GestureEvent * float)) : list GestureEvent :=
  filter is_drag (map fst evs).

(** A sequence of drag actions that alternates, starting with [DragStart]
    when not [dragging] and with [DragEnd] when [dragging]. *)
Fixpoint alternates (dragging : bool) (l : list GestureEvent) : bool :=
  match l with
  | [] => true
  | DragStart :: r => negb dragging && alternates true r
  | DragEnd :: r => dragging && alternates false r
  | _ :: _ => false
  end.

End MuscleClick.

(** ** mems_mouse_mode.py *)

(** [MEMSData] of the SDK.  [None] for a sensor stands for an object without
    that attribute, on which the access raises [AttributeError]. *)
Record Point3D := mkPoint3D { pt_X : float; pt_Y : float; pt_Z : float }.
Record MEMSData := mkMEMSData {
  Accelerometer : option Point3D;
  Gyroscope : option Point3D
}.

(** What one call of [update_mems] does besides changing the controller:
    nothing, the one-time print of the calibration lock,
    [pyautogui.moveRel(dx, dy, duration=0)], or an [OverflowError] leaving
    the [**] of the response curve. *)
Inductive output :=
| Silent
| NeutralCaptured
| MoveRel (dx_px dy_px : float)
| Overflow.

(** The clamp every variant ends with:
    [if v > max_step: v = max_step elif v < -max_step: v = -max_step]. *)
Definition clamp_step (max_step v : float) : float :=
  if max_step <? v then max_step
  else if v <? - max_step then - max_step
  else v.

(** [if dx_px != 0.0 or dy_px != 0.0: pyautogui.moveRel(...)]. *)
Definition emit_move (dx_px dy_px : float) : output :=
  if negb (dx_px =? 0) || negb (dy_px =? 0) then MoveRel dx_px dy_px else Silent.

(** A controller fed a sequence of packets, each with the clock reading of
    its call: the final state and what each call did, oldest first. *)
Fixpoint run_mems {S : Type}
  (update : S -> list MEMSData -> float -> S * output)
  (st : S) (packets : list (list MEMSData * float)) : S * list output :=
  match packets with
  | [] => (st, [])
  | (data, now) :: rest =>
    let '(st1, o) := update st data now in
    let '(st2, os) := run_mems update st1 rest in
    (st2, o :: os)
  end.

(** The samples of the packets a controller accepts, in order. *)
Definition accepted_samples (accepted : list MEMSData -> option Point3D)
  (packets : list (list MEMSData * float)) : list Point3D :=
  flat_map (fun p => match accepted (fst p) with
                     | Some s => [s]
                     | None => []
                     end) packets.

Definition is_lock_report (o : output) : bool :=
  match o with NeutralCaptured => true | _ => false end.

(** How many times a run reported the calibration lock. *)
Definition lock_reports (outs : list output) : nat :=
  length (filter is_lock_report outs).

(** The smoothing step as the design document words it:
    [velocity = (1 - alpha) * velocity + alpha * curved]. *)
Definition spec_velocity (alpha velocity curved : float) : float :=
  (1.0 - alpha) * velocity + alpha * curved.

Module MemsMouseMode.

Record MemsMouseConfig := mkConfig {
  sensitivity_x : float;
  sensitivity_y : float;
  deadzone_g : float;
  neutral_samples : Z;
  update_interval_sec : float;
  max_step_px : float;
  smooth_alpha : float;
  center_window_g : float;
  recenter_alpha : float;
  still_eps_g : float;
  gyro_neutral_eps : float;
  invert_x : bool;
  invert_y : bool;
  swap_axes : bool
}.

Definition default_config : MemsMouseConfig := {|
  sensitivity_x := 900.0;
  sensitivity_y := 900.0;
  deadzone_g := 0.06;
  neutral_samples := 100;
  update_interval_sec := 0.005;
  max_step_px := 40.0;
  smooth_alpha := 0.25;
  center_window_g := 0.02;
  recenter_alpha := 0.002;
  still_eps_g := 0.004;
  gyro_neutral_eps := 6.0;
  invert_x := false;
  invert_y := false;
  swap_axes := false
|}.

Record state := mkState {
  neutral_x : float;
  neutral_y : float;
  neutral_z : float;
  accum_x : float;
  accum_y : float;
  accum_z : float;
  accum_count : Z;
  vx_g : float;
  vy_g : float;
  last_ax : float;
  last_ay : float;
  neutral_gx : option float;
  neutral_gy : option float;
  neutral_gz : option float;
  last_update_ts : float
}.

(** [__init__]. *)
Definition init : state := {|
  neutral_x := 0.0; neutral_y := 0.0; neutral_z := 0.0;
  accum_x := 0.0; accum_y := 0.0; accum_z := 0.0;
  accum_count := 0;
  vx_g := 0.0; vy_g := 0.0;
  last_ax := 0.0; last_ay := 0.0;
  neutral_gx := None; neutral_gy := None; neutral_gz := None;
  last_update_ts := 0.0
|}.

Definition set_accum (st : state) (sx sy sz : float) (n : Z) : state :=
  {| neutral_x := neutral_x st; neutral_y := neutral_y st; neutral_z := neutral_z st;
     accum_x := sx; accum_y := sy; accum_z := sz; accum_count := n;
     vx_g := vx_g st; vy_g := vy_g st;
     last_ax := last_ax st; last_ay := last_ay st;
     neutral_gx := neutral_gx st; neutral_gy := neutral_gy st;
     neutral_gz := neutral_gz st;
     last_update_ts := last_update_ts st |}.

Definition set_neutral (st : state) (nx ny nz : float) : state :=
  {| neutral_x := nx; neutral_y := ny; neutral_z := nz;
     accum_x := accum_x st; accum_y := accum_y st; accum_z := accum_z st;
     accum_count := accum_count st;
     vx_g := vx_g st; vy_g := vy_g st;
     last_ax := last_ax st; last_ay := last_ay st;
     neutral_gx := neutral_gx st; neutral_gy := neutral_gy st;
     neutral_gz := neutral_gz st;
     last_update_ts := last_update_ts st |}.

Definition set_neutral_gyro (st : state) (gx gy gz : float) : state :=
  {| neutral_x := neutral_x st; neutral_y := neutral_y st; neutral_z := neutral_z st;
     accum_x := accum_x st; accum_y := accum_y st; accum_z := accum_z st;
     accum_count := accum_count st;
     vx_g := vx_g st; vy_g := vy_g st;
     last_ax := last_ax st; last_ay := last_ay st;
     neutral_gx := Some gx; neutral_gy := Some gy; neutral_gz := Some gz;
     last_update_ts := last_update_ts st |}.

Definition set_velocity (st : state) (vx vy : float) : state :=
  {| neutral_x := neutral_x st; neutral_y := neutral_y st; neutral_z := neutral_z st;
     accum_x := accum_x st; accum_y := accum_y st; accum_z := accum_z st;
     accum_count := accum_count st;
     vx_g := vx; vy_g := vy;
     last_ax := last_ax st; last_ay := last_ay st;
     neutral_gx := neutral_gx st; neutral_gy := neutral_gy st;
     neutral_gz := neutral_gz st;
     last_update_ts := last_update_ts st |}.

Definition set_last_accel (st : state) (ax ay : float) : state :=
  {| neutral_x := neutral_x st; neutral_y := neutral_y st; neutral_z := neutral_z st;
     accum_x := accum_x st; accum_y := accum_y st; accum_z := accum_z st;
     accum_count := accum_count st;
     vx_g := vx_g st; vy_g := vy_g st;
     last_ax := ax; last_ay := ay;
     neutral_gx := neutral_gx st; neutral_gy := neutral_gy st;
     neutral_gz := neutral_gz st;
     last_update_ts := last_update_ts st |}.

Definition set_last_update_ts (st : state) (t : float) : state :=
  {| neutral_x := neutral_x st; neutral_y := neutral_y st; neutral_z := neutral_z st;
     accum_x := accum_x st; accum_y := accum_y st; accum_z := accum_z st;
     accum_count := accum_count st;
     vx_g := vx_g st; vy_g := vy_g st;
     last_ax := last_ax st; last_ay := last_ay st;
     neutral_gx := neutral_gx st; neutral_gy := neutral_gy st;
     neutral_gz := neutral_gz st;
     last_update_ts := t |}.

Section Shaping.

(** Python's [x ** y] on floats: [None] when it raises [OverflowError]. *)
Variable fpow : float -> float -> option float.

(** The nested [_joystick_curve], closed over the dead zone [dz]. *)
Definition joystick_curve (dz val : float) : option float :=
  if val =? 0 then Some 0.0
  else
    let sign := if 0 <? val then 1.0 else -1.0 in
    let mag := abs val in
    let mag_eff := py_max2 0.0 (mag - dz) in
    match fpow mag_eff 1.5 with
    | Some p => Some (sign * p)
    | None => None
    end.

(** The dead zone on one axis. *)
Definition deadzone (dz raw : float) : float :=
  if abs raw <? dz then 0.0 else raw.

(** From the dominance test to the end of [update_mems]: axis dominance,
    bookkeeping of the last sample, projection on the screen, clamp, move. *)
Definition project (cfg : MemsMouseConfig) (st : state) (ax ay : float)
  : state * output :=
  let dx_g := vx_g st in
  let dy_g := vy_g st in
  let dom_ratio := 1.5 in
  let '(dx_g, dy_g) :=
    if dom_ratio * abs dy_g <? abs dx_g then (dx_g, 0.0)
    else if dom_ratio * abs dx_g <? abs dy_g then (0.0, dy_g)
    else (dx_g, dy_g) in
  let st := set_last_accel st ax ay in
  let '(sx, sy) := if swap_axes cfg then (dy_g, dx_g) else (dx_g, dy_g) in
  let sx := if invert_x cfg then - sx else sx in
  let sy := if invert_y cfg then - sy else sy in
  let dx_px := sx * sensitivity_x cfg in
  let dy_px := - sy * sensitivity_y cfg in
  let dx_px := clamp_step (max_step_px cfg) dx_px in
  let dy_px := clamp_step (max_step_px cfg) dy_px in
  (st, emit_move dx_px dy_px).

(** The slow re-centring: when both offsets to the neutral are inside
    [center_window_g], the neutral is pulled towards the sample. *)
Definition recenter (cfg : MemsMouseConfig) (st : state) (ax ay : float) : state :=
  let raw_dx_g := ax - neutral_x st in
  let raw_dy_g := ay - neutral_y st in
  if (abs raw_dx_g <? center_window_g cfg) && (abs raw_dy_g <? center_window_g cfg)
  then
    let r := recenter_alpha cfg in
    set_neutral st ((1.0 - r) * neutral_x st + r * ax)
                   ((1.0 - r) * neutral_y st + r * ay)
                   (neutral_z st)
  else st.

(** From the dead zone to the end: dead zone on the offsets to the (possibly
    re-centred) neutral, response curve, exponential smoothing, [project]. *)
Definition smooth (cfg : MemsMouseConfig) (st : state) (ax ay : float)
  : state * output :=
  let raw_dx_g := ax - neutral_x st in
  let raw_dy_g := ay - neutral_y st in
  let dz := deadzone_g cfg in
  let raw_dx_g := deadzone dz raw_dx_g in
  let raw_dy_g := deadzone dz raw_dy_g in
  match joystick_curve dz raw_dx_g with
  | None => (st, Overflow)
  | Some curved_dx =>
    match joystick_curve dz raw_dy_g with
    | None => (st, Overflow)
    | Some curved_dy =>
      let a := smooth_alpha cfg in
      let st := set_velocity st ((1.0 - a) * vx_g st + a * curved_dx)
                                ((1.0 - a) * vy_g st + a * curved_dy) in
      project cfg st ax ay
    end
  end.

(** Re-centring, then the shaping proper. *)
Definition shape (cfg : MemsMouseConfig) (st : state) (ax ay : float)
  : state * output :=
  smooth cfg (recenter cfg st ax ay) ax ay.

(** The stillness test against the previous sample, then [shape]. *)
Definition still_then_shape (cfg : MemsMouseConfig) (st : state) (ax ay : float)
  : state * output :=
  if (abs (ax - last_ax st) <? still_eps_g cfg)
     && (abs (ay - last_ay st) <? still_eps_g cfg)
  then
    let vx := vx_g st * 0.3 in
    let vy := vy_g st * 0.3 in
    let vx := if abs vx <? deadzone_g cfg * 0.5 then 0.0 else vx in
    let vy := if abs vy <? deadzone_g cfg * 0.5 then 0.0 else vy in
    let st := set_velocity st vx vy in
    if (vx =? 0) && (vy =? 0) then (set_last_accel st ax ay, Silent)
    else shape cfg st ax ay
  else shape cfg st ax ay.

(** Whether the gyroscope reads within [gyro_neutral_eps] of the rate stored
    at the calibration lock. *)
Definition near_gyro_neutral (cfg : MemsMouseConfig) (st : state)
  (gx gy gz : float) : bool :=
  match neutral_gx st, neutral_gy st, neutral_gz st with
  | Some ngx, Some ngy, Some ngz =>
    let dgx := gx - ngx in
    let dgy := gy - ngy in
    let dgz := gz - ngz in
    let dist_g := sqrt (dgx * dgx + dgy * dgy + dgz * dgz) in
    dist_g <? gyro_neutral_eps cfg
  | _, _, _ => false
  end.

(** [MemsMouseMode.update_mems]. *)
Definition update_mems (cfg : MemsMouseConfig) (st : state)
  (data : list MEMSData) (now : float) : state * output :=
  match data with
  | [] => (st, Silent)
  | d0 :: rest =>
    let m := last rest d0 in
    match Accelerometer m with
    | None => (st, Silent)
    | Some acc =>
      let ax := pt_X acc in
      let ay := pt_Y acc in
      let az := pt_Z acc in
      let '(gx, gy, gz) :=
        match Gyroscope m with
        | Some gyr => (pt_X gyr, pt_Y gyr, pt_Z gyr)
        | None => (0.0, 0.0, 0.0)
        end in
      if negb (isfinite ax && isfinite ay && isfinite az) then (st, Silent)
      else if (accum_count st <? neutral_samples cfg)%Z then
        let st := set_accum st (accum_x st + ax) (accum_y st + ay)
                            (accum_z st + az) (accum_count st + 1)%Z in
        if (accum_count st =? neutral_samples cfg)%Z then
          let n := float_of_int (accum_count st) in
          let st := set_neutral st (accum_x st / n) (accum_y st / n)
                                (accum_z st / n) in
          (set_neutral_gyro st gx gy gz, NeutralCaptured)
        else (st, Silent)
      else if now - last_update_ts st <? update_interval_sec cfg then (st, Silent)
      else
        let st := set_last_update_ts st now in
        if near_gyro_neutral cfg st gx gy gz then
          (set_last_accel (set_velocity st 0.0 0.0) ax ay, Silent)
        else still_then_shape cfg st ax ay
    end
  end.

End Shaping.

(** The sample of a packet, [data[-1]], when the packet passes the guards at
    the top of [update_mems]: not empty, with an accelerometer, all three
    accelerations finite. *)
Definition accepted (data : list MEMSData) : option Point3D :=
  match data with
  | [] => None
  | d0 :: rest =>
    match Accelerometer (last rest d0) with
    | Some acc =>
      if isfinite (pt_X acc) && isfinite (pt_Y acc) && isfinite (pt_Z acc)
      then Some acc else None
    | None => None
    end
  end.

End MemsMouseMode.

Module GyroMouseOnlineMode.

Record GyroMouseOnlineConfig := mkConfig {
  sensitivity_x : float;
  sensitivity_y : float;
  neutral_samples : Z;
  update_interval_sec : float;
  deadzone_deg : float;
  max_step_px : float;
  smooth_alpha : float;
  center_eps_deg : float;
  recenter_alpha : float;
  still_eps_deg : float;
  still_timeout_sec : float;
  emg_threshold : float;
  emg_smooth_alpha : float
}.

Definition default_config : GyroMouseOnlineConfig := {|
  sensitivity_x := 8.0;
  sensitivity_y := 8.0;
  neutral_samples := 50;
  update_interval_sec := 0.004;
  deadzone_deg := 2.0;
  max_step_px := 50.0;
  smooth_alpha := 0.8;
  center_eps_deg := 1.0;
  recenter_alpha := 0.002;
  still_eps_deg := 0.5;
  still_timeout_sec := 0.1;
  emg_threshold := 5.0;
  emg_smooth_alpha := 0.4
|}.

Record state := mkState {
  neutral_gx : float;
  neutral_gz : float;
  accum_gx : float;
  accum_gz : float;
  accum_count : Z;
  vx : float;
  vy : float;
  last_update_ts : float;
  last_gx : float;
  last_gz : float;
  still_since : float;
  last_gyro_time : float;
  emg_smooth : float;
  emg_active : bool
}.

(** [__init__]. *)
Definition init : state := {|
  neutral_gx := 0.0; neutral_gz := 0.0;
  accum_gx := 0.0; accum_gz := 0.0; accum_count := 0;
  vx := 0.0; vy := 0.0;
  last_update_ts := 0.0;
  last_gx := 0.0; last_gz := 0.0;
  still_since := 0.0;
  last_gyro_time := 0.0;
  emg_smooth := 0.0; emg_active := false
|}.

Definition set_accum (st : state) (sx sz : float) (n : Z) : state :=
  {| neutral_gx := neutral_gx st; neutral_gz := neutral_gz st;
     accum_gx := sx; accum_gz := sz; accum_count := n;
     vx := vx st; vy := vy st; last_update_ts := last_update_ts st;
     last_gx := last_gx st; last_gz := last_gz st;
     still_since := still_since st; last_gyro_time := last_gyro_time st;
     emg_smooth := emg_smooth st; emg_active := emg_active st |}.

Definition set_neutral (st : state) (nx nz : float) : state :=
  {| neutral_gx := nx; neutral_gz := nz;
     accum_gx := accum_gx st; accum_gz := accum_gz st;
     accum_count := accum_count st;
     vx := vx st; vy := vy st; last_update_ts := last_update_ts st;
     last_gx := last_gx st; last_gz := last_gz st;
     still_since := still_since st; last_gyro_time := last_gyro_time st;
     emg_smooth := emg_smooth st; emg_active := emg_active st |}.

Definition set_velocity (st : state) (v_x v_y : float) : state :=
  {| neutral_gx := neutral_gx st; neutral_gz := neutral_gz st;
     accum_gx := accum_gx st; accum_gz := accum_gz st;
     accum_count := accum_count st;
     vx := v_x; vy := v_y; last_update_ts := last_update_ts st;
     last_gx := last_gx st; last_gz := last_gz st;
     still_since := still_since st; last_gyro_time := last_gyro_time st;
     emg_smooth := emg_smooth st; emg_active := emg_active st |}.

Definition set_last_update_ts (st : state) (t : float) : state :=
  {| neutral_gx := neutral_gx st; neutral_gz := neutral_gz st;
     accum_gx := accum_gx st; accum_gz := accum_gz st;
     accum_count := accum_count st;
     vx := vx st; vy := vy st; last_update_ts := t;
     last_gx := last_gx st; last_gz := last_gz st;
     still_since := still_since st; last_gyro_time := last_gyro_time st;
     emg_smooth := emg_smooth st; emg_active := emg_active st |}.

Definition set_last_gyro (st : state) (gx gz : float) : state :=
  {| neutral_gx := neutral_gx st; neutral_gz := neutral_gz st;
     accum_gx := accum_gx st; accum_gz := accum_gz st;
     accum_count := accum_count st;
     vx := vx st; vy := vy st; last_update_ts := last_update_ts st;
     last_gx := gx; last_gz := gz;
     still_since := still_since st; last_gyro_time := last_gyro_time st;
     emg_smooth := emg_smooth st; emg_active := emg_active st |}.

Definition set_still_since (st : state) (t : float) : state :=
  {| neutral_gx := neutral_gx st; neutral_gz := neutral_gz st;
     accum_gx := accum_gx st; accum_gz := accum_gz st;
     accum_count := accum_count st;
     vx := vx st; vy := vy st; last_update_ts := last_update_ts st;
     last_gx := last_gx st; last_gz := last_gz st;
     still_since := t; last_gyro_time := last_gyro_time st;
     emg_smooth := emg_smooth st; emg_active := emg_active st |}.

Definition set_last_gyro_time (st : state) (t : float) : state :=
  {| neutral_gx := neutral_gx st; neutral_gz := neutral_gz st;
     accum_gx := accum_gx st; accum_gz := accum_gz st;
     accum_count := accum_count st;
     vx := vx st; vy := vy st; last_update_ts := last_update_ts st;
     last_gx := last_gx st; last_gz := last_gz st;
     still_since := still_since st; last_gyro_time := t;
     emg_smooth := emg_smooth st; emg_active := emg_active st |}.

Definition set_emg (st : state) (s : float) (b : bool) : state :=
  {| neutral_gx := neutral_gx st; neutral_gz := neutral_gz st;
     accum_gx := accum_gx st; accum_gz := accum_gz st;
     accum_count := accum_count st;
     vx := vx st; vy := vy st; last_update_ts := last_update_ts st;
     last_gx := last_gx st; last_gz := last_gz st;
     still_since := still_since st; last_gyro_time := last_gyro_time st;
     emg_smooth := s; emg_active := b |}.

(** [update_emg]. *)
Definition update_emg (cfg : GyroMouseOnlineConfig) (st : state)
  (envelope_value : float) : state :=
  let a := emg_smooth_alpha cfg in
  let s := (1.0 - a) * emg_smooth st + a * envelope_value in
  set_emg st s (emg_threshold cfg <=? s).

(** The dead zone on one axis. *)
Definition deadzone (dz dev : float) : float :=
  if abs dev <? dz then 0.0 else dev.

(** From the dead zone to the end of [update_mems]: dead zone, smoothing,
    the extra damping by 0.95, direct projection without a curve, clamp,
    move. *)
Definition shape (cfg : GyroMouseOnlineConfig) (st : state)
  (dx_deg dy_deg : float) : state * output :=
  let dx_deg := deadzone (deadzone_deg cfg) dx_deg in
  let dy_deg := deadzone (deadzone_deg cfg) dy_deg in
  let a := smooth_alpha cfg in
  let st := set_velocity st ((1.0 - a) * vx st + a * dx_deg)
                            ((1.0 - a) * vy st + a * dy_deg) in
  let st := set_velocity st (vx st * 0.95) (vy st * 0.95) in
  let dx_px := - vx st * sensitivity_x cfg in
  let dy_px := - vy st * sensitivity_y cfg in
  let dx_px := clamp_step (max_step_px cfg) dx_px in
  let dy_px := clamp_step (max_step_px cfg) dy_px in
  (st, emit_move dx_px dy_px).

(** The centre test: near the neutral the velocity is damped and nothing
    moves; elsewhere the sample is shaped. *)
Definition center_then_shape (cfg : GyroMouseOnlineConfig) (st : state)
  (dx_deg dy_deg : float) : state * output :=
  if (abs dx_deg <? center_eps_deg cfg) && (abs dy_deg <? center_eps_deg cfg)
  then
    let v_x := vx st * 0.02 in
    let v_y := vy st * 0.02 in
    let v_x := if abs v_x <? 0.01 then 0.0 else v_x in
    let v_y := if abs v_y <? 0.01 then 0.0 else v_y in
    (set_velocity st v_x v_y, Silent)
  else shape cfg st dx_deg dy_deg.

(** The stillness test against the previous sample, then the centre test. *)
Definition still_then_center (cfg : GyroMouseOnlineConfig) (st : state)
  (gx gz now : float) : state * output :=
  let dx_deg := gz - neutral_gz st in
  let dy_deg := gx - neutral_gx st in
  let continue (st : state) :=
    center_then_shape cfg (set_last_gyro st gx gz) dx_deg dy_deg in
  if (abs (gx - last_gx st) <? still_eps_deg cfg)
     && (abs (gz - last_gz st) <? still_eps_deg cfg)
  then
    if still_since st =? 0 then continue (set_still_since st now)
    else if still_timeout_sec cfg <=? now - still_since st then
      let v_x := vx st * 0.05 in
      let v_y := vy st * 0.05 in
      let v_x := if abs v_x <? 0.01 then 0.0 else v_x in
      let v_y := if abs v_y <? 0.01 then 0.0 else v_y in
      (set_last_gyro (set_velocity st v_x v_y) gx gz, Silent)
    else continue st
  else continue (set_still_since st 0.0).

(** The filter of abrupt changes between two packets less than 10 ms apart,
    then the stillness test. *)
Definition jitter_then_still (cfg : GyroMouseOnlineConfig) (st : state)
  (gx gz now : float) : state * output :=
  if (0 <? last_gyro_time st)
     && (now - last_gyro_time st <? 0.01)
     && ((5.0 <? abs (gx - last_gx st)) || (5.0 <? abs (gz - last_gz st)))
  then (set_last_gyro_time st now, Silent)
  else still_then_center cfg (set_last_gyro_time st now) gx gz now.

(** [GyroMouseOnlineMode.update_mems]. *)
Definition update_mems (cfg : GyroMouseOnlineConfig) (st : state)
  (data : list MEMSData) (now : float) : state * output :=
  match data with
  | [] => (st, Silent)
  | d0 :: rest =>
    let m := last rest d0 in
    match Gyroscope m with
    | None => (st, Silent)
    | Some gyr =>
      let gx := pt_X gyr in
      let gz := pt_Z gyr in
      if negb (isfinite gx && isfinite gz) then (st, Silent)
      else if (accum_count st <? neutral_samples cfg)%Z then
        let st := set_accum st (accum_gx st + gx) (accum_gz st + gz)
                            (accum_count st + 1)%Z in
        if (accum_count st =? neutral_samples cfg)%Z then
          let n := float_of_int (accum_count st) in
          (set_neutral st (accum_gx st / n) (accum_gz st / n), NeutralCaptured)
        else (st, Silent)
      else if now - last_update_ts st <? update_interval_sec cfg then (st, Silent)
      else jitter_then_still cfg (set_last_update_ts st now) gx gz now
    end
  end.

(** The sample of a packet, [data[-1]], when the packet passes the guards at
    the top of [update_mems]: not empty, with a gyroscope, X and Z rates
    finite. *)
Definition accepted (data : list MEMSData) : option Point3D :=
  match data with
  | [] => None
  | d0 :: rest =>
    match Gyroscope (last rest d0) with
    | Some gyr =>
      if isfinite (pt_X gyr) && isfinite (pt_Z gyr) then Some gyr else None
    | None => None
    end
  end.

End GyroMouseOnlineMode.

Module GyroMouseMode.

(** Modelled from the spec: the dataclass [GyroMouseConfig] is named by
    [GyroMouseMode.__init__] but declared nowhere in the source.  The record
    has the attributes [GyroMouseMode] reads from [self.config]; the spec
    gives the variants the same parameters with different time constants and
    states no default values, so none is given here. *)
Record GyroMouseConfig := mkConfig {
  sensitivity_x : float;
  sensitivity_y : float;
  neutral_samples : Z;
  update_interval_sec : float;
  deadzone_deg : float;
  max_step_px : float;
  smooth_alpha : float;
  center_eps_deg : float;
  recenter_alpha : float;
  still_eps_deg : float;
  still_timeout_sec : float;
  emg_threshold : float;
  emg_smooth_alpha : float
}.

Record state := mkState {
  neutral_gx : float;
  neutral_gz : float;
  accum_gx : float;
  accum_gz : float;
  accum_count : Z;
  vx : float;
  vy : float;
  last_update_ts : float;
  last_gx : float;
  last_gz : float;
  still_since : float;
  emg_smooth : float;
  emg_active : bool
}.

(** [__init__]. *)
Definition init : state := {|
  neutral_gx := 0.0; neutral_gz := 0.0;
  accum_gx := 0.0; accum_gz := 0.0; accum_count := 0;
  vx := 0.0; vy := 0.0;
  last_update_ts := 0.0;
  last_gx := 0.0; last_gz := 0.0;
  still_since := 0.0;
  emg_smooth := 0.0; emg_active := false
|}.

Definition set_accum (st : state) (sx sz : float) (n : Z) : state :=
  {| neutral_gx := neutral_gx st; neutral_gz := neutral_gz st;
     accum_gx := sx; accum_gz := sz; accum_count := n;
     vx := vx st; vy := vy st; last_update_ts := last_update_ts st;
     last_gx := last_gx st; last_gz := last_gz st;
     still_since := still_since st;
     emg_smooth := emg_smooth st; emg_active := emg_active st |}.

Definition set_neutral (st : state) (nx nz : float) : state :=
  {| neutral_gx := nx; neutral_gz := nz;
     accum_gx := accum_gx st; accum_gz := accum_gz st;
     accum_count := accum_count st;
     vx := vx st; vy := vy st; last_update_ts := last_update_ts st;
     last_gx := last_gx st; last_gz := last_gz st;
     still_since := still_since st;
     emg_smooth := emg_smooth st; emg_active := emg_active st |}.

Definition set_velocity (st : state) (v_x v_y : float) : state :=
  {| neutral_gx := neutral_gx st; neutral_gz := neutral_gz st;
     accum_gx := accum_gx st; accum_gz := accum_gz st;
     accum_count := accum_count st;
     vx := v_x; vy := v_y; last_update_ts := last_update_ts st;
     last_gx := last_gx st; last_gz := last_gz st;
     still_since := still_since st;
     emg_smooth := emg_smooth st; emg_active := emg_active st |}.

Definition set_last_update_ts (st : state) (t : float) : state :=
  {| neutral_gx := neutral_gx st; neutral_gz := neutral_gz st;
     accum_gx := accum_gx st; accum_gz := accum_gz st;
     accum_count := accum_count st;
     vx := vx st; vy := vy st; last_update_ts := t;
     last_gx := last_gx st; last_gz := last_gz st;
     still_since := still_since st;
     emg_smooth := emg_smooth st; emg_active := emg_active st |}.

Definition set_last_gyro (st : state) (gx gz : float) : state :=
  {| neutral_gx := neutral_gx st; neutral_gz := neutral_gz st;
     accum_gx := accum_gx st; accum_gz := accum_gz st;
     accum_count := accum_count st;
     vx := vx st; vy := vy st; last_update_ts := last_update_ts st;
     last_gx := gx; last_gz := gz;
     still_since := still_since st;
     emg_smooth := emg_smooth st; emg_active := emg_active st |}.

Definition set_still_since (st : state) (t : float) : state :=
  {| neutral_gx := neutral_gx st; neutral_gz := neutral_gz st;
     accum_gx := accum_gx st; accum_gz := accum_gz st;
     accum_count := accum_count st;
     vx := vx st; vy := vy st; last_update_ts := last_update_ts st;
     last_gx := last_gx st; last_gz := last_gz st;
     still_since := t;
     emg_smooth := emg_smooth st; emg_active := emg_active st |}.

Definition set_emg (st : state) (s : float) (b : bool) : state :=
  {| neutral_gx := neutral_gx st; neutral_gz := neutral_gz st;
     accum_gx := accum_gx st; accum_gz := accum_gz st;
     accum_count := accum_count st;
     vx := vx st; vy := vy st; last_update_ts := last_update_ts st;
     last_gx := last_gx st; last_gz := last_gz st;
     still_since := still_since st;
     emg_smooth := s; emg_active := b |}.

(** [update_emg]. *)
Definition update_emg (cfg : GyroMouseConfig) (st : state)
  (envelope_value : float) : state :=
  let a := emg_smooth_alpha cfg in
  let s := (1.0 - a) * emg_smooth st + a * envelope_value in
  set_emg st s (emg_threshold cfg <=? s).

(** The dead zone on one axis. *)
Definition deadzone (dz dev : float) : float :=
  if abs dev <? dz then 0.0 else dev.

Section Shaping.

(** Python's [x ** y] on floats: [None] when it raises [OverflowError]. *)
Variable fpow : float -> float -> option float.

(** The nested [_joystick_curve]. *)
Definition joystick_curve (val : float) : option float :=
  if val =? 0 then Some 0.0
  else
    let sign := if 0 <? val then 1.0 else -1.0 in
    let mag := abs val in
    match fpow mag 1.6 with
    | Some p => Some (sign * p)
    | None => None
    end.

(** From the dead zone to the end of [update_mems]: dead zone, smoothing of
    the deviation into the velocity, response curve on the smoothed velocity,
    projection, clamp, move. *)
Definition shape (cfg : GyroMouseConfig) (st : state)
  (dx_deg dy_deg : float) : state * output :=
  let dx_deg := deadzone (deadzone_deg cfg) dx_deg in
  let dy_deg := deadzone (deadzone_deg cfg) dy_deg in
  let a := smooth_alpha cfg in
  let st := set_velocity st ((1.0 - a) * vx st + a * dx_deg)
                            ((1.0 - a) * vy st + a * dy_deg) in
  match joystick_curve (vx st) with
  | None => (st, Overflow)
  | Some curved_dx =>
    match joystick_curve (vy st) with
    | None => (st, Overflow)
    | Some curved_dy =>
      let dx_px := - curved_dx * sensitivity_x cfg in
      let dy_px := - curved_dy * sensitivity_y cfg in
      let dx_px := clamp_step (max_step_px cfg) dx_px in
      let dy_px := clamp_step (max_step_px cfg) dy_px in
      (st, emit_move dx_px dy_px)
    end
  end.

(** The centre test: near the neutral the velocity is damped; once it is
    zero the neutral is re-centred and nothing moves. *)
Definition center_then_shape (cfg : GyroMouseConfig) (st : state)
  (gx gz dx_deg dy_deg : float) : state * output :=
  if (abs dx_deg <? center_eps_deg cfg) && (abs dy_deg <? center_eps_deg cfg)
  then
    let v_x := vx st * 0.2 in
    let v_y := vy st * 0.2 in
    let v_x := if abs v_x <? 0.1 then 0.0 else v_x in
    let v_y := if abs v_y <? 0.1 then 0.0 else v_y in
    let st := set_velocity st v_x v_y in
    if (v_x =? 0) && (v_y =? 0) then
      let r := recenter_alpha cfg in
      (set_neutral st ((1.0 - r) * neutral_gx st + r * gx)
                      ((1.0 - r) * neutral_gz st + r * gz), Silent)
    else shape cfg st dx_deg dy_deg
  else shape cfg st dx_deg dy_deg.

(** The stillness test against the previous sample, then the centre test. *)
Definition still_then_center (cfg : GyroMouseConfig) (st : state)
  (gx gz now : float) : state * output :=
  let dx_deg := gz - neutral_gz st in
  let dy_deg := gx - neutral_gx st in
  let continue (st : state) :=
    center_then_shape cfg (set_last_gyro st gx gz) gx gz dx_deg dy_deg in
  if (abs (gx - last_gx st) <? still_eps_deg cfg)
     && (abs (gz - last_gz st) <? still_eps_deg cfg)
  then
    if still_since st =? 0 then continue (set_still_since st now)
    else if still_timeout_sec cfg <=? now - still_since st then
      let v_x := vx st * 0.2 in
      let v_y := vy st * 0.2 in
      let v_x := if abs v_x <? 0.1 then 0.0 else v_x in
      let v_y := if abs v_y <? 0.1 then 0.0 else v_y in
      (set_last_gyro (set_velocity st v_x v_y) gx gz, Silent)
    else continue st
  else continue (set_still_since st 0.0).

(** [GyroMouseMode.update_mems]. *)
Definition update_mems (cfg : GyroMouseConfig) (st : state)
  (data : list MEMSData) (now : float) : state * output :=
  match data with
  | [] => (st, Silent)
  | d0 :: rest =>
    let m := last rest d0 in
    match Gyroscope m with
    | None => (st, Silent)
    | Some gyr =>
      let gx := pt_X gyr in
      let gz := pt_Z gyr in
      if negb (isfinite gx && isfinite gz) then (st, Silent)
      else if (accum_count st <? neutral_samples cfg)%Z then
        let st := set_accum st (accum_gx st + gx) (accum_gz st + gz)
                            (accum_count st + 1)%Z in
        if (accum_count st =? neutral_samples cfg)%Z then
          let n := float_of_int (accum_count st) in
          (set_neutral st (accum_gx st / n) (accum_gz st / n), NeutralCaptured)
        else (st, Silent)
      else if now - last_update_ts st <? update_interval_sec cfg then (st, Silent)
      else still_then_center cfg (set_last_update_ts st now) gx gz now
    end
  end.

End Shaping.

(** The sample of a packet, [data[-1]], when the packet passes the guards at
    the top of [update_mems]: not empty, with a gyroscope, X and Z rates
    finite. *)
Definition accepted (data : list MEMSData) : option Point3D :=
  match data with
  | [] => None
  | d0 :: rest =>
    match Gyroscope (last rest d0) with
    | Some gyr =>
      if isfinite (pt_X gyr) && isfinite (pt_Z gyr) then Some gyr else None
    | None => None
    end
  end.

End GyroMouseMode.

(** ** callibri_dashboard.py

    The callers of the controller and of the classifier.  The Qt widgets,
    the sensor stream and the file holding the saved thresholds are outside
    the embedding; what is embedded is what the callbacks do to the
    controller, to the classifier and to the queues behind the plots. *)

(** [deque(maxlen=n).append(x)]: the oldest item leaves when the queue is
    full. *)
Definition deque_append (maxlen : nat) (q : list float) (x : float) : list float :=
  let q := q ++ [x] in skipn (length q - maxlen) q.

(** The [n] most recent items of a history, oldest first. *)
Definition lastn {A : Type} (n : nat) (l : list A) : list A :=
  skipn (length l - n) l.

Module ThresholdDialog.

Record ThresholdDialog := mkDialog {
  left_threshold : float;
  right_threshold : float;
  hold_threshold : float;
  max_points : nat;
  emg_data : list float;
  time_data : list float;
  start_time : float;
  max_emg : float;
  avg_emg : float;
  samples_count : Z
}.

(** [__init__], for the attributes above; the defaults of the two arguments
    are 150.0 and 250.0. *)
Definition init (initial_left initial_right : float) : ThresholdDialog := {|
  left_threshold := initial_left;
  right_threshold := initial_right;
  hold_threshold := if is_zero initial_left then 225.0 else initial_left * 1.5;
  max_points := 500;
  emg_data := [];
  time_data := [];
  start_time := 0.0;
  max_emg := 0.0;
  avg_emg := 0.0;
  samples_count := 0
|}.

Definition update_left_threshold (dlg : ThresholdDialog) (value : float) :=
  {| left_threshold := value;
     right_threshold := right_threshold dlg;
     hold_threshold := hold_threshold dlg;
     max_points := max_points dlg;
     emg_data := emg_data dlg; time_data := time_data dlg;
     start_time := start_time dlg;
     max_emg := max_emg dlg; avg_emg := avg_emg dlg;
     samples_count := samples_count dlg |}.

Definition update_right_threshold (dlg : ThresholdDialog) (value : float) :=
  {| left_threshold := left_threshold dlg;
     right_threshold := value;
     hold_threshold := hold_threshold dlg;
     max_points := max_points dlg;
     emg_data := emg_data dlg; time_data := time_data dlg;
     start_time := start_time dlg;
     max_emg := max_emg dlg; avg_emg := avg_emg dlg;
     samples_count := samples_count dlg |}.

Definition update_hold_threshold (dlg : ThresholdDialog) (value : float) :=
  {| left_threshold := left_threshold dlg;
     right_threshold := right_threshold dlg;
     hold_threshold := value;
     max_points := max_points dlg;
     emg_data := emg_data dlg; time_data := time_data dlg;
     start_time := start_time dlg;
     max_emg := max_emg dlg; avg_emg := avg_emg dlg;
     samples_count := samples_count dlg |}.

(** [reset_data]. *)
Definition reset_data (dlg : ThresholdDialog) : ThresholdDialog :=
  {| left_threshold := left_threshold dlg;
     right_threshold := right_threshold dlg;
     hold_threshold := hold_threshold dlg;
     max_points := max_points dlg;
     emg_data := []; time_data := [];
     start_time := start_time dlg;
     max_emg := 0.0; avg_emg := 0.0;
     samples_count := 0 |}.

(** [_on_signal].  The amplitude is computed by the loop [update_from_signal]
    has, [MuscleClick.signal_max].  [clock_first] and [clock] are the two
    readings of the Qt clock, in seconds: the first is taken only while
    [start_time] is 0. *)
Definition on_signal (dlg : ThresholdDialog)
  (data : list MuscleClick.CallibriSignalData) (clock_first clock : float)
  : ThresholdDialog :=
  match data with
  | [] => dlg
  | _ :: _ =>
    let max_sample := MuscleClick.signal_max data in
    let start := if start_time dlg =? 0 then clock_first else start_time dlg in
    let current_time := clock - start in
    let count := (samples_count dlg + 1)%Z in
    {| left_threshold := left_threshold dlg;
       right_threshold := right_threshold dlg;
       hold_threshold := hold_threshold dlg;
       max_points := max_points dlg;
       emg_data := deque_append (max_points dlg) (emg_data dlg) max_sample;
       time_data := deque_append (max_points dlg) (time_data dlg) current_time;
       start_time := start;
       max_emg := py_max2 (max_emg dlg) max_sample;
       avg_emg := (avg_emg dlg * float_of_int (count - 1) + max_sample)
                  / float_of_int count;
       samples_count := count |}
  end.

(** [get_thresholds]. *)
Definition get_thresholds (dlg : ThresholdDialog) : float * float * float :=
  (left_threshold dlg, right_threshold dlg, hold_threshold dlg).

(** A test session: the deliveries of the signal callback, each with its two
    clock readings, after [reset_data]. *)
Definition session (dlg : ThresholdDialog)
  (deliveries : list (list MuscleClick.CallibriSignalData * float * float))
  : ThresholdDialog :=
  fold_left (fun d p => on_signal d (fst (fst p)) (snd (fst p)) (snd p))
            deliveries (reset_data dlg).

End ThresholdDialog.

Module CallibriDashboard.

(** The controller configuration [__init__] builds: the named arguments, and
    the dataclass defaults for the others. *)
Definition mouse_config : GyroMouseOnlineMode.GyroMouseOnlineConfig := {|
  GyroMouseOnlineMode.sensitivity_x := 3.2;
  GyroMouseOnlineMode.sensitivity_y := 3.2;
  GyroMouseOnlineMode.neutral_samples := 100;
  GyroMouseOnlineMode.update_interval_sec := 0.000142857;
  GyroMouseOnlineMode.deadzone_deg := 1.0;
  GyroMouseOnlineMode.max_step_px := 40.0;
  GyroMouseOnlineMode.smooth_alpha := 0.88;
  GyroMouseOnlineMode.center_eps_deg := 1.2;
  GyroMouseOnlineMode.recenter_alpha := 0.002;
  GyroMouseOnlineMode.still_eps_deg := 0.9;
  GyroMouseOnlineMode.still_timeout_sec := 0.1;
  GyroMouseOnlineMode.emg_threshold := 5.0;
  GyroMouseOnlineMode.emg_smooth_alpha := 0.4
|}.

(** The classifier configuration [__init__] builds from the thresholds
    [_load_saved_thresholds] returned. *)
Definition click_config (saved_left saved_right saved_hold : float)
  : MuscleClick.MuscleClickConfig := {|
  MuscleClick.left_threshold := saved_left;
  MuscleClick.right_threshold := saved_right;
  MuscleClick.hold_threshold := saved_hold;
  MuscleClick.right_double_max_gap_sec := 1.5;
  MuscleClick.cooldown_sec := 0.5;
  MuscleClick.use_separate_muscles := false;
  MuscleClick.second_muscle_threshold := 200.0;
  MuscleClick.hold_threshold_sec := 0.3;
  MuscleClick.use_duration_detection := true
|}.

(** What [_load_saved_thresholds] returns when there is no configuration
    file, or when reading it raises: left, right, hold. *)
Definition fallback_thresholds : float * float * float := (550.0, 220.0, 825.0).

(** The controller, the classifier with its configuration (which
    [_update_thresholds] assigns), and the queues behind the plots. *)
Record state := mkState {
  mems_mouse : GyroMouseOnlineMode.state;
  muscle_click : MuscleClick.MuscleClickDetector;
  muscle_click_config : MuscleClick.MuscleClickConfig;
  emg_env : list float;
  emg_sig : list float;
  acc_x : list float;
  acc_y : list float;
  acc_z : list float;
  gyr_x : list float;
  gyr_y : list float;
  gyr_z : list float
}.

Definition max_points : nat := 1000.

(** [__init__], given the thresholds read at start-up. *)
Definition init (saved : float * float * float) : state :=
  let '(saved_left, saved_right, saved_hold) := saved in
  {| mems_mouse := GyroMouseOnlineMode.init;
     muscle_click := MuscleClick.init;
     muscle_click_config := click_config saved_left saved_right saved_hold;
     emg_env := []; emg_sig := [];
     acc_x := []; acc_y := []; acc_z := [];
     gyr_x := []; gyr_y := []; gyr_z := [] |}.

(** [_on_mems]: the last sample must have both sensors; then the controller
    is updated and the sample joins the plots ([_gyr_y] is never appended
    to). *)
Definition on_mems (st : state) (data : list MEMSData) (now : float)
  : state * output :=
  match data with
  | [] => (st, Silent)
  | d0 :: rest =>
    let m := last rest d0 in
    match Accelerometer m, Gyroscope m with
    | Some acc, Some gyr =>
      let r := GyroMouseOnlineMode.update_mems mouse_config (mems_mouse st) data now in
      ({| mems_mouse := fst r;
          muscle_click := muscle_click st;
          muscle_click_config := muscle_click_config st;
          emg_env := emg_env st; emg_sig := emg_sig st;
          acc_x := deque_append max_points (acc_x st) (pt_X acc);
          acc_y := deque_append max_points (acc_y st) (pt_Y acc);
          acc_z := deque_append max_points (acc_z st) (pt_Z acc);
          gyr_x := deque_append max_points (gyr_x st) (pt_X gyr);
          gyr_y := gyr_y st;
          gyr_z := deque_append max_points (gyr_z st) (pt_Z gyr) |},
       snd r)
    | _, _ => (st, Silent)
    end
  end.

(** [_on_envelope]: the last sample, as it is, joins the plot and goes to
    [update_emg]. *)
Definition on_envelope (st : state) (data : list MuscleClick.CallibriEnvelopeData)
  : state :=
  match data with
  | [] => st
  | d0 :: rest =>
    let v := MuscleClick.Sample (last rest d0) in
    {| mems_mouse := GyroMouseOnlineMode.update_emg mouse_config (mems_mouse st) v;
       muscle_click := muscle_click st;
       muscle_click_config := muscle_click_config st;
       emg_env := deque_append max_points (emg_env st) v;
       emg_sig := emg_sig st;
       acc_x := acc_x st; acc_y := acc_y st; acc_z := acc_z st;
       gyr_x := gyr_x st; gyr_y := gyr_y st; gyr_z := gyr_z st |}
  end.

(** [_on_signal]: the last packet must carry samples; then the classifier
    sees the whole delivery and the largest magnitude of the last packet
    joins the plot. *)
Definition on_signal (st : state) (data : list MuscleClick.CallibriSignalData)
  (now : float) : state * option MuscleClick.GestureEvent :=
  match data with
  | [] => (st, None)
  | d0 :: rest =>
    match MuscleClick.Samples (last rest d0) with
    | [] => (st, None)
    | s :: ss =>
      let vmax := py_max (abs s) (map abs ss) in
      let r := MuscleClick.update_from_signal (muscle_click_config st)
                 (muscle_click st) data now in
      ({| mems_mouse := mems_mouse st;
          muscle_click := fst r;
          muscle_click_config := muscle_click_config st;
          emg_env := emg_env st;
          emg_sig := deque_append max_points (emg_sig st) vmax;
          acc_x := acc_x st; acc_y := acc_y st; acc_z := acc_z st;
          gyr_x := gyr_x st; gyr_y := gyr_y st; gyr_z := gyr_z st |},
       snd r)
    end
  end.

(** [_update_thresholds], for the classifier: the three thresholds of the
    live configuration are assigned. *)
Definition update_thresholds (st : state)
  (left_threshold right_threshold hold_threshold : float) : state :=
  let cfg := muscle_click_config st in
  {| mems_mouse := mems_mouse st;
     muscle_click := muscle_click st;
     muscle_click_config :=
       {| MuscleClick.left_threshold := left_threshold;
          MuscleClick.right_threshold := right_threshold;
          MuscleClick.hold_threshold := hold_threshold;
          MuscleClick.right_double_max_gap_sec :=
            MuscleClick.right_double_max_gap_sec cfg;
          MuscleClick.cooldown_sec := MuscleClick.cooldown_sec cfg;
          MuscleClick.use_separate_muscles := MuscleClick.use_separate_muscles cfg;
          MuscleClick.second_muscle_threshold :=
            MuscleClick.second_muscle_threshold cfg;
          MuscleClick.hold_threshold_sec := MuscleClick.hold_threshold_sec cfg;
          MuscleClick.use_duration_detection :=
            MuscleClick.use_duration_detection cfg |};
     emg_env := emg_env st; emg_sig := emg_sig st;
     acc_x := acc_x st; acc_y := acc_y st; acc_z := acc_z st;
     gyr_x := gyr_x st; gyr_y := gyr_y st; gyr_z := gyr_z st |}.

(** What reaches the dashboard: the four stream callbacks, each with the
    clock reading its handler will see, and the thresholds dialog being
    accepted. *)
Inductive callback :=
| OnMems (data : list MEMSData) (now : float)
| OnQuat
| OnEnvelope (data : list MuscleClick.CallibriEnvelopeData)
| OnSignal (data : list MuscleClick.CallibriSignalData) (now : float)
| ThresholdsAccepted (left_threshold right_threshold hold_threshold : float).

(** What the user's desktop sees of a callback. *)
Inductive effect :=
| Pointer (dx_px dy_px : float)
| Gesture (e : MuscleClick.GestureEvent).

Definition step (st : state) (c : callback) : state * option effect :=
  match c with
  | OnMems data now =>
    let r := on_mems st data now in
    (fst r, match snd r with
            | MoveRel dx dy => Some (Pointer dx dy)
            | _ => None
            end)
  | OnQuat => (st, None)
  | OnEnvelope data => (on_envelope st data, None)
  | OnSignal data now =>
    let r := on_signal st data now in
    (fst r, option_map Gesture (snd r))
  | ThresholdsAccepted l r h => (update_thresholds st l r h, None)
  end.

Fixpoint run (st : state) (cs : list callback) : state * list effect :=
  match cs with
  | [] => (st, [])
  | c :: rest =>
    let r := step st c in
    let r' := run (fst r) rest in
    (fst r', match snd r with
             | Some e => e :: snd r'
             | None => snd r'
             end)
  end.


(** Whether [_on_mems] hands a delivery to the controller: the delivery is
    not empty and its last sample has both sensors. *)
Definition forwarded (data : list MEMSData) : bool :=
  match data with
  | [] => false
  | d0 :: rest =>
    match Accelerometer (last rest d0), Gyroscope (last rest d0) with
    | Some _, Some _ => true
    | _, _ => false
    end
  end.

(** The sample of a delivery the dashboard hands to the controller and the
    controller accepts: both sensors present, the two rates finite. *)
Definition accepted (data : list MEMSData) : option Point3D :=
  if forwarded data then GyroMouseOnlineMode.accepted data else None.

(** The classifier calls a run of callbacks leads to: one for each signal
    callback whose last packet carries samples. *)
Definition classified (cs : list callback) : list MuscleClick.call :=
  flat_map (fun c => match c with
                     | OnSignal (d0 :: rest) now =>
                       match MuscleClick.Samples (last rest d0) with
                       | [] => []
                       | _ :: _ => [MuscleClick.Signal (d0 :: rest) now]
                       end
                     | _ => []
                     end) cs.

(** The gestures among the effects of a run, in order. *)
Definition gestures (es : list effect) : list MuscleClick.GestureEvent :=
  flat_map (fun e => match e with
                     | Gesture g => [g]
                     | Pointer _ _ => []
                     end) es.

Definition is_thresholds (c : callback) : bool :=
  match c with ThresholdsAccepted _ _ _ => true | _ => false end.

End CallibriDashboard.

(** ** Histories

    The loop of [MuscleClick.signal_max], entered with any running maximum. *)
Definition signal_scan (max_sample : float)
  (data : list MuscleClick.CallibriSignalData) : float :=
  fold_left
    (fun max_sample pack =>
       match MuscleClick.Samples pack with
       | [] => max_sample
       | s :: ss =>
         let local_max := py_max (abs s * 1e6) (map (fun s' => abs s' * 1e6) ss) in
         if max_sample <? local_max then local_max else max_sample
       end)
    data max_sample.

(** The amplitudes computed over a run of the classifier, oldest first: one
    for each signal call whose delivery is not empty. *)
Definition signal_amplitudes (calls : list MuscleClick.call) : list float :=
  flat_map (fun c => match c with
                     | MuscleClick.Signal (d :: ds) _ =>
                       [MuscleClick.signal_max (d :: ds)]
                     | _ => []
                     end) calls.

(** The amplitudes computed over a session of the thresholds dialog. *)
Definition session_amplitudes
  (deliveries : list (list MuscleClick.CallibriSignalData * float * float))
  : list float :=
  flat_map (fun p => match fst (fst p) with
                     | d :: ds => [MuscleClick.signal_max (d :: ds)]
                     | [] => []
                     end) deliveries.

(** ** Patterns of deliveries

    A burst for [GyroMouseOnlineMode]: every delivery passes the guards,
    comes after the one before (at a positive clock [t_prev]) by less than
    10 ms but not by less than the update interval, and reads more than
    5 deg/s away, about X or about Z, from the rates [gx0], [gz0]. *)
Fixpoint burst (cfg : GyroMouseOnlineMode.GyroMouseOnlineConfig)
  (gx0 gz0 t_prev : float) (packets : list (list MEMSData * float)) : bool :=
  match packets with
  | [] => true
  | (data, now) :: rest =>
    match GyroMouseOnlineMode.accepted data with
    | Some s =>
      (0 <? t_prev) && (now - t_prev <? 0.01)
      && negb (now - t_prev <? GyroMouseOnlineMode.update_interval_sec cfg)
      && ((5.0 <? abs (pt_X s - gx0)) || (5.0 <? abs (pt_Z s - gz0)))
      && burst cfg gx0 gz0 now rest
    | None => false
    end
  end.

(** The gyroscope rates [MemsMouseMode.update_mems] reads in a delivery. *)
Definition gyro_reading (data : list MEMSData) : float * float * float :=
  match data with
  | [] => (0.0, 0.0, 0.0)
  | d0 :: rest =>
    match Gyroscope (last rest d0) with
    | Some gyr => (pt_X gyr, pt_Y gyr, pt_Z gyr)
    | None => (0.0, 0.0, 0.0)
    end
  end.

(** A slow drift for [MemsMouseMode]: every delivery passes the guards and
    the rate limiter, reads a gyroscope away from the neutral stored in
    [st0], and an acceleration within [still_eps_g] of the delivery before
    on both axes. *)
Fixpoint slow_drift (cfg : MemsMouseMode.MemsMouseConfig)
  (st0 : MemsMouseMode.state) (ax_prev ay_prev t_prev : float)
  (packets : list (list MEMSData * float)) : bool :=
  match packets with
  | [] => true
  | (data, now) :: rest =>
    match MemsMouseMode.accepted data with
    | Some acc =>
      let '(gx, gy, gz) := gyro_reading data in
      negb (now - t_prev <? MemsMouseMode.update_interval_sec cfg)
      && negb (MemsMouseMode.near_gyro_neutral cfg st0 gx gy gz)
      && (abs (pt_X acc - ax_prev) <? MemsMouseMode.still_eps_g cfg)
      && (abs (pt_Y acc - ay_prev) <? MemsMouseMode.still_eps_g cfg)
      && slow_drift cfg st0 (pt_X acc) (pt_Y acc) now rest
    | None => false
    end
  end.

(** A steady reading for [GyroMouseMode], still since the clock [t_still]:
    every delivery passes the guards and the rate limiter, reads rates
    within [still_eps_deg] of the delivery before about X and Z, and comes
    [still_timeout_sec] or more after [t_still]. *)
Fixpoint steady (cfg : GyroMouseMode.GyroMouseConfig)
  (t_still gx_prev gz_prev t_prev : float)
  (packets : list (list MEMSData * float)) : bool :=
  match packets with
  | [] => true
  | (data, now) :: rest =>
    match GyroMouseMode.accepted data with
    | Some s =>
      negb (now - t_prev <? GyroMouseMode.update_interval_sec cfg)
      && (abs (pt_X s - gx_prev) <? GyroMouseMode.still_eps_deg cfg)
      && (abs (pt_Z s - gz_prev) <? GyroMouseMode.still_eps_deg cfg)
      && (GyroMouseMode.still_timeout_sec cfg <=? now - t_still)
      && steady cfg t_still (pt_X s) (pt_Z s) now rest
    | None => false
    end
  end.

(** ** The order of binary64 values

    Every finite binary64 is an integer multiple of [2^-1074]; [SFord] is that
    integer, with the infinities sent beyond every finite value and NaN to
    [None].  Comparisons of floats are comparisons of these integers. *)

Local Open Scope Z_scope.

Definition ord_inf : Z := 2 ^ 2100.

Definition SFord (x : spec_float) : option Z :=
  match x with
  | S754_nan => None
  | S754_zero _ => Some 0
  | S754_infinity s => Some (cond_Zopp s ord_inf)
  | S754_finite s m e => Some (cond_Zopp s (Zpos m * 2 ^ (e + 1074)))
  end.

Definition ford (x : float) : option Z := SFord (Prim2SF x).

Definition ord_compare (a b : option Z) : option comparison :=
  match a, b with
  | Some x, Some y => Some (x ?= y)
  | _, _ => None
  end.

(** The rounding to nearest, ties to even, of a positive integer [D] counted
    in units of [2^-1074]: beyond 53 bits the low [rnd_shift D] bits are
    dropped and the mantissa is rounded on them; a result of [2^2098] or more
    overflows to infinity. *)
Definition rnd_shift (D : Z) : Z := Z.max (Z.log2 D + 1 - 53) 0.

Definition rnd_mant (D : Z) : Z :=
  let n := rnd_shift D in
  let q := D / 2 ^ n in
  let r := D mod 2 ^ n in
  if (2 ^ n <? 2 * r) || ((2 * r =? 2 ^ n) && Z.odd q) then q + 1 else q.

Definition rnd_val (D : Z) : Z := rnd_mant D * 2 ^ rnd_shift D.

Definition rnd_pos (D : Z) : Z :=
  if rnd_val D <? 2 ^ 2098 then rnd_val D else ord_inf.

(** The same on all integers, by symmetry. *)
Definition ord_round (D : Z) : Z :=
  match D with
  | 0 => 0
  | Zpos _ => rnd_pos D
  | Zneg p => - rnd_pos (Zpos p)
  end.

(** The largest finite binary64, in units of [2^-1074]. *)
Definition ord_max : Z := (2 ^ 53 - 1) * 2 ^ 2045.

Local Close Scope Z_scope.

(** ** Concrete packets, states and configurations of the examples *)

Module Examples.

(** A packet with one sample that has only a gyroscope. *)
Definition gyro_packet (gx gz : float) : list MEMSData :=
  [mkMEMSData None (Some (mkPoint3D gx 0.0 gz))].

(** A packet with one sample that has only an accelerometer. *)
Definition accel_packet (ax ay az : float) : list MEMSData :=
  [mkMEMSData (Some (mkPoint3D ax ay az)) None].

(** The values CPython returns for [4.0 ** 1.6], [2.0 ** 1.6] and
    [4.0 ** 1.5]; the examples evaluate [**] nowhere else. *)
Definition pow_sample (x y : float) : option float :=
  if (x =? 4.0) && (y =? 1.6) then Some 9.18958683997628
  else if (x =? 2.0) && (y =? 1.6) then Some 3.0314331330207964
  else if (x =? 4.0) && (y =? 1.5) then Some 8.0
  else None.

(** [GyroMouseOnlineMode] after a calibration of 50 samples at rest, with
    a velocity [v] left on the horizontal axis. *)
Definition online_locked (v : float) : GyroMouseOnlineMode.state :=
  {| GyroMouseOnlineMode.neutral_gx := 0.0;
     GyroMouseOnlineMode.neutral_gz := 0.0;
     GyroMouseOnlineMode.accum_gx := 0.0;
     GyroMouseOnlineMode.accum_gz := 0.0;
     GyroMouseOnlineMode.accum_count := 50;
     GyroMouseOnlineMode.vx := v;
     GyroMouseOnlineMode.vy := 0.0;
     GyroMouseOnlineMode.last_update_ts := 0.0;
     GyroMouseOnlineMode.last_gx := 0.0;
     GyroMouseOnlineMode.last_gz := 0.0;
     GyroMouseOnlineMode.still_since := 0.0;
     GyroMouseOnlineMode.last_gyro_time := 0.0;
     GyroMouseOnlineMode.emg_smooth := 0.0;
     GyroMouseOnlineMode.emg_active := false |}.

(** The online defaults with other values of [sensitivity_x],
    [neutral_samples] and [max_step_px]. *)
Definition online_config (sens_x : float) (n : Z) (max_step : float)
  : GyroMouseOnlineMode.GyroMouseOnlineConfig :=
  {| GyroMouseOnlineMode.sensitivity_x := sens_x;
     GyroMouseOnlineMode.sensitivity_y := 8.0;
     GyroMouseOnlineMode.neutral_samples := n;
     GyroMouseOnlineMode.update_interval_sec := 0.004;
     GyroMouseOnlineMode.deadzone_deg := 2.0;
     GyroMouseOnlineMode.max_step_px := max_step;
     GyroMouseOnlineMode.smooth_alpha := 0.8;
     GyroMouseOnlineMode.center_eps_deg := 1.0;
     GyroMouseOnlineMode.recenter_alpha := 0.002;
     GyroMouseOnlineMode.still_eps_deg := 0.5;
     GyroMouseOnlineMode.still_timeout_sec := 0.1;
     GyroMouseOnlineMode.emg_threshold := 5.0;
     GyroMouseOnlineMode.emg_smooth_alpha := 0.4 |}.

(** A configuration for [GyroMouseMode]: the online values with a lower
    smoothing weight. *)
Definition gyro_config (n : Z) : GyroMouseMode.GyroMouseConfig :=
  {| GyroMouseMode.sensitivity_x := 8.0;
     GyroMouseMode.sensitivity_y := 8.0;
     GyroMouseMode.neutral_samples := n;
     GyroMouseMode.update_interval_sec := 0.004;
     GyroMouseMode.deadzone_deg := 2.0;
     GyroMouseMode.max_step_px := 50.0;
     GyroMouseMode.smooth_alpha := 0.5;
     GyroMouseMode.center_eps_deg := 1.0;
     GyroMouseMode.recenter_alpha := 0.002;
     GyroMouseMode.still_eps_deg := 0.5;
     GyroMouseMode.still_timeout_sec := 0.1;
     GyroMouseMode.emg_threshold := 5.0;
     GyroMouseMode.emg_smooth_alpha := 0.4 |}.

(** [GyroMouseMode] after a calibration of 50 samples at rest. *)
Definition gyro_locked : GyroMouseMode.state :=
  {| GyroMouseMode.neutral_gx := 0.0;
     GyroMouseMode.neutral_gz := 0.0;
     GyroMouseMode.accum_gx := 0.0;
     GyroMouseMode.accum_gz := 0.0;
     GyroMouseMode.accum_count := 50;
     GyroMouseMode.vx := 0.0;
     GyroMouseMode.vy := 0.0;
     GyroMouseMode.last_update_ts := 0.0;
     GyroMouseMode.last_gx := 0.0;
     GyroMouseMode.last_gz := 0.0;
     GyroMouseMode.still_since := 0.0;
     GyroMouseMode.emg_smooth := 0.0;
     GyroMouseMode.emg_active := false |}.

(** The defaults of [MemsMouseMode] with other values of [neutral_samples]
    and [deadzone_g]. *)
Definition mems_config (n : Z) (dz : float) : MemsMouseMode.MemsMouseConfig :=
  {| MemsMouseMode.sensitivity_x := 900.0;
     MemsMouseMode.sensitivity_y := 900.0;
     MemsMouseMode.deadzone_g := dz;
     MemsMouseMode.neutral_samples := n;
     MemsMouseMode.update_interval_sec := 0.005;
     MemsMouseMode.max_step_px := 40.0;
     MemsMouseMode.smooth_alpha := 0.25;
     MemsMouseMode.center_window_g := 0.02;
     MemsMouseMode.recenter_alpha := 0.002;
     MemsMouseMode.still_eps_g := 0.004;
     MemsMouseMode.gyro_neutral_eps := 6.0;
     MemsMouseMode.invert_x := false;
     MemsMouseMode.invert_y := false;
     MemsMouseMode.swap_axes := false |}.

(** [MemsMouseMode] after a calibration of 100 samples at rest. *)
Definition mems_locked : MemsMouseMode.state :=
  {| MemsMouseMode.neutral_x := 0.0;
     MemsMouseMode.neutral_y := 0.0;
     MemsMouseMode.neutral_z := 1.0;
     MemsMouseMode.accum_x := 0.0;
     MemsMouseMode.accum_y := 0.0;
     MemsMouseMode.accum_z := 100.0;
     MemsMouseMode.accum_count := 100;
     MemsMouseMode.vx_g := 0.0;
     MemsMouseMode.vy_g := 0.0;
     MemsMouseMode.last_ax := 0.0;
     MemsMouseMode.last_ay := 0.0;
     MemsMouseMode.neutral_gx := Some 0.0;
     MemsMouseMode.neutral_gy := Some 0.0;
     MemsMouseMode.neutral_gz := Some 0.0;
     MemsMouseMode.last_update_ts := 0.0 |}.

End Examples.

(** * Facts *)

(** ** The order of binary64 values *)

Local Open Scope Z_scope.

Lemma digits2_pos_size m : digits2_pos m = Pos.size m.
Proof. induction m; simpl; congruence. Qed.

Lemma digits2_bounds m :
  2 ^ (Zpos (digits2_pos m) - 1) <= Zpos m < 2 ^ Zpos (digits2_pos m).
Proof.
  rewrite digits2_pos_size. split.
  - pose proof (Pos.size_le m) as H.
    assert (H0 : 2 ^ Zpos (Pos.size m) <= 2 * Zpos m).
    { rewrite <- Pos2Z.inj_pow. change (2 * Z.pos m) with (Z.pos m~0).
      apply Pos2Z.pos_le_pos; exact H. }
    replace (Zpos (Pos.size m)) with (Zpos (Pos.size m) - 1 + 1) in H0 by lia.
    rewrite Z.pow_add_r in H0 by lia. change (2 ^ 1) with 2 in H0. lia.
  - pose proof (Pos.size_gt m) as H.
    apply Pos2Z.pos_lt_pos in H. rewrite Pos2Z.inj_pow in H. exact H.
Qed.

Lemma bounded_inv m e :
  bounded prec emax m e = true ->
  -1074 <= e <= 971 /\ Zpos (digits2_pos m) <= 53 /\
  (-1074 < e -> Zpos (digits2_pos m) = 53).
Proof.
  unfold bounded, canonical_mantissa, fexp, emin, prec, emax.
  intro H. apply andb_true_iff in H. destruct H as [H1 H2].
  apply Z.eqb_eq in H1. apply Z.leb_le in H2. lia.
Qed.

Lemma finite_range m e :
  bounded prec emax m e = true -> 0 < Zpos m * 2 ^ (e + 1074) < ord_inf.
Proof.
  intro H. apply bounded_inv in H. destruct H as (He & Hd & _).
  pose proof (digits2_bounds m) as [_ Hm].
  assert (Zpos m < 2 ^ 53).
  { eapply Z.lt_le_trans; [exact Hm|]. apply Z.pow_le_mono_r; lia. }
  assert (0 < 2 ^ (e + 1074)) by (apply Z.pow_pos_nonneg; lia).
  assert (2 ^ (e + 1074) <= 2 ^ 2045) by (apply Z.pow_le_mono_r; lia).
  split; [lia|].
  unfold ord_inf. replace 2100 with (53 + 2 + 2045) by lia.
  rewrite (Z.pow_add_r 2 (53 + 2) 2045), (Z.pow_add_r 2 53 2) by lia.
  assert (0 < 2 ^ 2045) by (apply Z.pow_pos_nonneg; lia).
  change (2 ^ 2) with 4. nia.
Qed.

Lemma compare_finite m1 e1 m2 e2 :
  bounded prec emax m1 e1 = true -> bounded prec emax m2 e2 = true ->
  match e1 ?= e2 with
  | Eq => Pos.compare_cont Eq m1 m2
  | Lt => Lt
  | Gt => Gt
  end = (Zpos m1 * 2 ^ (e1 + 1074) ?= Zpos m2 * 2 ^ (e2 + 1074)).
Proof.
  intros H1 H2. apply bounded_inv in H1, H2.
  destruct H1 as (He1 & Hd1 & Hn1), H2 as (He2 & Hd2 & Hn2).
  pose proof (digits2_bounds m1) as [Hl1 Hu1].
  pose proof (digits2_bounds m2) as [Hl2 Hu2].
  assert (Hp : forall k, 0 <= k -> 0 < 2 ^ k) by (intros; apply Z.pow_pos_nonneg; lia).
  assert (U1 : Zpos m1 < 2 ^ 53).
  { eapply Z.lt_le_trans; [exact Hu1|]. apply Z.pow_le_mono_r; lia. }
  assert (U2 : Zpos m2 < 2 ^ 53).
  { eapply Z.lt_le_trans; [exact Hu2|]. apply Z.pow_le_mono_r; lia. }
  destruct (Z.compare_spec e1 e2) as [E|E|E].
  - subst e2. symmetry.
    change (Pos.compare_cont Eq m1 m2) with (Zpos m1 ?= Zpos m2).
    pose proof (Hp (e1 + 1074) ltac:(lia)).
    destruct (Z.compare_spec (Zpos m1) (Zpos m2)) as [E|E|E].
    + rewrite E. apply Z.compare_refl.
    + apply Z.compare_lt_iff. nia.
    + apply Z.compare_gt_iff. nia.
  - symmetry. apply Z.compare_lt_iff.
    rewrite Hn2 in Hl2 by lia. change (2 ^ (53 - 1)) with (2 ^ 52) in Hl2.
    replace (e2 + 1074) with ((e2 - e1 - 1) + 1 + (e1 + 1074)) by lia.
    rewrite (Z.pow_add_r 2 (e2 - e1 - 1 + 1)), (Z.pow_add_r 2 (e2 - e1 - 1) 1) by lia.
    change (2 ^ 1) with 2.
    pose proof (Hp (e1 + 1074) ltac:(lia)). pose proof (Hp (e2 - e1 - 1) ltac:(lia)).
    change (2 ^ 53) with (2 * 2 ^ 52) in U1.
    assert (0 < 2 ^ 52) by (apply Hp; lia).
    assert (Zpos m1 * 2 ^ (e1 + 1074) < 2 * 2 ^ 52 * 2 ^ (e1 + 1074)) by nia.
    assert (2 * 2 ^ 52 * 2 ^ (e1 + 1074) <= Zpos m2 * 2 * 2 ^ (e1 + 1074)) by nia.
    assert (Zpos m2 * 2 * 2 ^ (e1 + 1074) <= Zpos m2 * (2 ^ (e2 - e1 - 1) * 2 * 2 ^ (e1 + 1074))) by nia.
    lia.
  - symmetry. apply Z.compare_gt_iff.
    rewrite Hn1 in Hl1 by lia. change (2 ^ (53 - 1)) with (2 ^ 52) in Hl1.
    replace (e1 + 1074) with ((e1 - e2 - 1) + 1 + (e2 + 1074)) by lia.
    rewrite (Z.pow_add_r 2 (e1 - e2 - 1 + 1)), (Z.pow_add_r 2 (e1 - e2 - 1) 1) by lia.
    change (2 ^ 1) with 2.
    pose proof (Hp (e2 + 1074) ltac:(lia)). pose proof (Hp (e1 - e2 - 1) ltac:(lia)).
    change (2 ^ 53) with (2 * 2 ^ 52) in U2.
    assert (0 < 2 ^ 52) by (apply Hp; lia).
    assert (Zpos m2 * 2 ^ (e2 + 1074) < 2 * 2 ^ 52 * 2 ^ (e2 + 1074)) by nia.
    assert (2 * 2 ^ 52 * 2 ^ (e2 + 1074) <= Zpos m1 * 2 * 2 ^ (e2 + 1074)) by nia.
    assert (Zpos m1 * 2 * 2 ^ (e2 + 1074) <= Zpos m1 * (2 ^ (e1 - e2 - 1) * 2 * 2 ^ (e2 + 1074))) by nia.
    lia.
Qed.

Lemma SFcompare_ord x y :
  valid_binary x = true -> valid_binary y = true ->
  SFcompare x y = ord_compare (SFord x) (SFord y).
Proof.
  assert (I : 0 < ord_inf) by (unfold ord_inf; apply Z.pow_pos_nonneg; lia).
  destruct x as [sx|sx| |sx mx ex], y as [sy|sy| |sy my ey];
    cbn [SFcompare SFord ord_compare valid_binary]; intros Vx Vy;
    try reflexivity;
    try (pose proof (finite_range _ _ Vx)); try (pose proof (finite_range _ _ Vy)).
  all: try (destruct sx, sy; cbn [cond_Zopp]; f_equal; symmetry;
            first [ apply Z.compare_lt_iff; lia | apply Z.compare_gt_iff; lia
                  | apply Z.compare_eq_iff; lia ]; fail).
  destruct sx, sy; cbn [cond_Zopp]; f_equal.
  - pose proof (compare_finite _ _ _ _ Vx Vy) as C.
    rewrite Z.compare_opp. rewrite <- (compare_finite _ _ _ _ Vy Vx).
    rewrite (Z.compare_antisym ex ey).
    destruct (ex ?= ey); cbn [CompOpp]; try reflexivity.
    rewrite Pos.compare_cont_antisym. reflexivity.
  - symmetry; apply Z.compare_lt_iff; lia.
  - symmetry; apply Z.compare_gt_iff; lia.
  - apply compare_finite; assumption.
Qed.

Local Close Scope Z_scope.

Lemma ltb_ford x y :
  (x <? y) = match ford x, ford y with
             | Some a, Some b => (a <? b)%Z
             | _, _ => false
             end.
Proof.
  rewrite ltb_spec. unfold SFltb, ford.
  rewrite SFcompare_ord by apply Prim2SF_valid.
  destruct (SFord (Prim2SF x)), (SFord (Prim2SF y)); cbn [ord_compare]; try reflexivity.
Qed.

Lemma leb_ford x y :
  (x <=? y) = match ford x, ford y with
              | Some a, Some b => (a <=? b)%Z
              | _, _ => false
              end.
Proof.
  rewrite leb_spec. unfold SFleb, ford.
  rewrite SFcompare_ord by apply Prim2SF_valid.
  destruct (SFord (Prim2SF x)), (SFord (Prim2SF y)); cbn [ord_compare]; try reflexivity.
Qed.

Lemma eqb_ford x y :
  (x =? y) = match ford x, ford y with
             | Some a, Some b => (a =? b)%Z
             | _, _ => false
             end.
Proof.
  rewrite eqb_spec. unfold SFeqb, ford.
  rewrite SFcompare_ord by apply Prim2SF_valid.
  destruct (SFord (Prim2SF x)), (SFord (Prim2SF y)); cbn [ord_compare]; try reflexivity.
  destruct (Z.eqb_spec z z0) as [->|N].
  - rewrite Z.compare_refl. reflexivity.
  - destruct (Z.compare_spec z z0); congruence.
Qed.

Lemma ford_opp x : ford (- x) = option_map Z.opp (ford x).
Proof.
  unfold ford. rewrite opp_spec.
  destruct (Prim2SF x) as [s|s| |s m e]; cbn; try reflexivity;
    destruct s; cbn [negb cond_Zopp]; f_equal; lia.
Qed.

Lemma ford_abs x : ford (abs x) = option_map Z.abs (ford x).
Proof.
  unfold ford. rewrite abs_spec.
  assert (I : (0 < ord_inf)%Z) by (unfold ord_inf; apply Z.pow_pos_nonneg; lia).
  pose proof (Prim2SF_valid x) as V.
  destruct (Prim2SF x) as [s|s| |s m e]; cbn [SFabs SFord option_map cond_Zopp];
    try reflexivity.
  - destruct s; cbn [cond_Zopp]; f_equal; lia.
  - pose proof (finite_range _ _ V). destruct s; cbn [cond_Zopp]; f_equal; lia.
Qed.

Lemma ford_zero : ford 0 = Some 0%Z.
Proof. reflexivity. Qed.

Lemma some_eq {A} (a b : A) : Some a = Some b -> a = b.
Proof. congruence. Qed.

Lemma ford_range x z : ford x = Some z -> (- ord_inf <= z <= ord_inf)%Z.
Proof.
  unfold ford. pose proof (Prim2SF_valid x) as V.
  assert (I : (0 < ord_inf)%Z) by (unfold ord_inf; apply Z.pow_pos_nonneg; lia).
  destruct (Prim2SF x) as [s|s| |s m e]; cbn [SFord]; intro H;
    try discriminate H; apply some_eq in H; subst z.
  - lia.
  - destruct s; cbn [cond_Zopp]; lia.
  - pose proof (finite_range _ _ V). destruct s; cbn [cond_Zopp]; lia.
Qed.

Lemma is_nan_ford x : is_nan x = true <-> ford x = None.
Proof.
  unfold is_nan. rewrite eqb_ford. destruct (ford x); cbn.
  - rewrite Z.eqb_refl. cbn. split; discriminate.
  - split; reflexivity.
Qed.

Lemma is_zero_ford x : is_zero x = true <-> ford x = Some 0%Z.
Proof.
  unfold is_zero. rewrite eqb_ford, ford_zero. destruct (ford x) as [z|].
  - rewrite Z.eqb_eq. split; [intros ->; reflexivity | intro H; inversion H; reflexivity].
  - split; discriminate.
Qed.

Lemma is_finite_ford x :
  is_finite x = true <-> exists z, ford x = Some z /\ (Z.abs z < ord_inf)%Z.
Proof.
  unfold is_finite, is_nan, is_infinity.
  rewrite !eqb_ford, ford_abs.
  change (ford infinity) with (Some ord_inf).
  destruct (ford x) as [z|] eqn:E; cbn [option_map].
  - rewrite Z.eqb_refl. cbn [negb orb]. pose proof (ford_range _ _ E).
    rewrite negb_true_iff, Z.eqb_neq. split.
    + intro. exists z. split; [reflexivity | lia].
    + intros (z' & Hz & Hlt). inversion Hz; subst. lia.
  - cbn. split; [discriminate | intros (z & Hz & _); discriminate].
Qed.

Lemma clamp_step_bound m v :
  (0 <=? m) = true -> is_nan v = false ->
  (abs (clamp_step m v) <=? m) = true.
Proof.
  intros Hm Hv. unfold clamp_step.
  assert (Hv' : ford v <> None) by (rewrite <- is_nan_ford; congruence).
  rewrite leb_ford, ford_zero in Hm.
  destruct (m <? v) eqn:E1; [|destruct (v <? - m) eqn:E2];
    rewrite ?ltb_ford, ?ford_opp in *; rewrite leb_ford, ford_abs, ?ford_opp;
    destruct (ford m) as [zm|]; try discriminate;
    destruct (ford v) as [zv|]; try congruence; cbn [option_map] in *;
    rewrite ?Z.leb_le, ?Z.ltb_lt, ?Z.ltb_ge in *; lia.
Qed.

(** ** Rounding to nearest on the integers *)

Local Open Scope Z_scope.

Lemma pow2_pos k : 0 <= k -> 0 < 2 ^ k.
Proof. intro. apply Z.pow_pos_nonneg; lia. Qed.

Lemma rnd_shift_nonneg D : 0 <= rnd_shift D.
Proof. unfold rnd_shift. lia. Qed.

Lemma log2_bounds D : 0 < D -> 2 ^ Z.log2 D <= D < 2 * 2 ^ Z.log2 D.
Proof.
  intro H. pose proof (Z.log2_spec D H) as [L U].
  rewrite Z.pow_succ_r in U by apply Z.log2_nonneg. lia.
Qed.

(** Euclidean division by the rounding step. *)
Lemma rnd_div_mod D :
  let P := 2 ^ rnd_shift D in
  0 < P /\ D = D / P * P + D mod P /\ 0 <= D mod P < P.
Proof.
  intro P. assert (HP : 0 < P) by (apply pow2_pos, rnd_shift_nonneg).
  split; [exact HP|]. split.
  - pose proof (Z.div_mod D P ltac:(lia)). lia.
  - apply Z.mod_pos_bound. exact HP.
Qed.

(** With a positive shift the quotient has exactly 53 bits. *)
Lemma rnd_quot_range D :
  0 < D -> 0 < rnd_shift D -> 2 ^ 52 <= D / 2 ^ rnd_shift D < 2 ^ 53.
Proof.
  intros HD Hn. pose proof (log2_bounds D HD) as [L U].
  assert (E : Z.log2 D = 52 + rnd_shift D) by (unfold rnd_shift in *; lia).
  rewrite E in L, U. rewrite Z.pow_add_r in L, U by lia.
  pose proof (pow2_pos (rnd_shift D) ltac:(lia)) as HP.
  split.
  - apply Z.div_le_lower_bound; lia.
  - apply Z.div_lt_upper_bound; [lia|]. change (2 ^ 53) with (2 * 2 ^ 52). lia.
Qed.

(** Without a shift the value is exact and below [2^53]. *)
Lemma rnd_val_exact D : 0 < D -> rnd_shift D = 0 -> rnd_val D = D /\ D < 2 ^ 53.
Proof.
  intros HD Hn. unfold rnd_val, rnd_mant. rewrite Hn. cbv zeta.
  change (2 ^ 0) with 1. rewrite Z.div_1_r, Z.mod_1_r. cbn [Z.mul Z.ltb Z.compare orb Z.eqb andb].
  split; [lia|].
  pose proof (log2_bounds D HD) as [L U].
  assert (Z.log2 D <= 52) by (unfold rnd_shift in Hn; lia).
  assert (2 ^ Z.log2 D <= 2 ^ 52) by (apply Z.pow_le_mono_r; lia).
  change (2 ^ 53) with (2 * 2 ^ 52). lia.
Qed.

Lemma rnd_mant_choice D :
  rnd_mant D = D / 2 ^ rnd_shift D \/ rnd_mant D = D / 2 ^ rnd_shift D + 1.
Proof. unfold rnd_mant. cbv zeta. destruct (_ || _); auto. Qed.

Lemma rnd_val_pos D : 0 < D -> 0 < rnd_val D.
Proof.
  intro HD. destruct (Z.eq_dec (rnd_shift D) 0) as [E|E].
  - destruct (rnd_val_exact D HD E). lia.
  - pose proof (rnd_shift_nonneg D).
    pose proof (rnd_quot_range D HD ltac:(lia)) as [L U].
    pose proof (pow2_pos (rnd_shift D) ltac:(lia)).
    assert (0 < 2 ^ 52) by (apply pow2_pos; lia).
    unfold rnd_val. destruct (rnd_mant_choice D) as [-> | ->]; nia.
Qed.

Lemma rnd_shift_mono D1 D2 : 0 < D1 -> D1 <= D2 -> rnd_shift D1 <= rnd_shift D2.
Proof.
  intros H1 H. unfold rnd_shift.
  pose proof (Z.log2_le_mono D1 D2 H). lia.
Qed.

Lemma rnd_val_mono D1 D2 : 0 < D1 -> D1 <= D2 -> rnd_val D1 <= rnd_val D2.
Proof.
  intros H1 H.
  pose proof (rnd_shift_mono D1 D2 H1 H) as Hn.
  pose proof (rnd_shift_nonneg D1) as Hn1.
  assert (H2 : 0 < D2) by lia.
  destruct (Z.eq_dec (rnd_shift D1) (rnd_shift D2)) as [E|E].
  - (* same binade *)
    unfold rnd_val. rewrite <- E.
    pose proof (rnd_div_mod D1) as (HP & Q1 & R1).
    pose proof (rnd_div_mod D2) as (_ & Q2 & R2).
    cbv zeta in *. rewrite <- E in Q2, R2.
    apply Z.mul_le_mono_nonneg_r; [lia|].
    unfold rnd_mant. cbv zeta. rewrite <- E.
    set (P := 2 ^ rnd_shift D1) in *.
    set (q1 := D1 / P) in *. set (q2 := D2 / P) in *.
    set (r1 := D1 mod P) in *. set (r2 := D2 mod P) in *.
    assert (Hq : q1 <= q2) by (apply Z.div_le_mono; lia).
    destruct (Z.eq_dec q1 q2) as [Eq|Nq].
    + rewrite <- Eq in *. assert (r1 <= r2) by nia.
      destruct ((P <? 2 * r1) || ((2 * r1 =? P) && Z.odd q1)) eqn:U1;
        destruct ((P <? 2 * r2) || ((2 * r2 =? P) && Z.odd q1)) eqn:U2; try lia.
      exfalso.
      apply orb_false_iff in U2. destruct U2 as [A2 B2].
      apply Z.ltb_ge in A2.
      apply orb_true_iff in U1. destruct U1 as [A1|B1].
      * apply Z.ltb_lt in A1. lia.
      * apply andb_true_iff in B1. destruct B1 as [B1 O1].
        apply Z.eqb_eq in B1. rewrite O1 in B2.
        rewrite andb_true_r in B2. apply Z.eqb_neq in B2. lia.
    + destruct (_ || _); destruct (_ || _); lia.
  - (* the binade grows *)
    assert (Hlt : rnd_shift D1 < rnd_shift D2) by lia.
    pose proof (rnd_quot_range D2 H2 ltac:(lia)) as [L2 U2].
    pose proof (pow2_pos (rnd_shift D1) Hn1) as HP1.
    assert (HP : 2 * 2 ^ rnd_shift D1 <= 2 ^ rnd_shift D2).
    { replace (rnd_shift D2) with (1 + (rnd_shift D2 - 1 - rnd_shift D1) + rnd_shift D1) by lia.
      rewrite !Z.pow_add_r by lia. change (2 ^ 1) with 2.
      pose proof (pow2_pos (rnd_shift D2 - 1 - rnd_shift D1) ltac:(lia)). nia. }
    assert (V2 : 2 ^ 52 * 2 ^ rnd_shift D2 <= rnd_val D2).
    { unfold rnd_val. pose proof (pow2_pos (rnd_shift D2) ltac:(lia)).
      destruct (rnd_mant_choice D2) as [-> | ->]; nia. }
    assert (V1 : rnd_val D1 <= 2 ^ 53 * 2 ^ rnd_shift D1).
    { destruct (Z.eq_dec (rnd_shift D1) 0) as [E0|E0].
      - destruct (rnd_val_exact D1 H1 E0) as [-> B]. rewrite E0. change (2 ^ 0) with 1. lia.
      - pose proof (rnd_quot_range D1 H1 ltac:(lia)) as [L1 U1].
        unfold rnd_val. destruct (rnd_mant_choice D1) as [-> | ->]; nia. }
    change (2 ^ 53) with (2 * 2 ^ 52) in V1.
    assert (0 < 2 ^ 52) by (apply pow2_pos; lia). nia.
Qed.

Lemma rnd_pos_pos D : 0 < D -> 0 < rnd_pos D.
Proof.
  intro H. unfold rnd_pos. pose proof (rnd_val_pos D H).
  destruct (_ <? _); [assumption|]. unfold ord_inf. apply pow2_pos. lia.
Qed.

Lemma rnd_pos_mono D1 D2 : 0 < D1 -> D1 <= D2 -> rnd_pos D1 <= rnd_pos D2.
Proof.
  intros H1 H. pose proof (rnd_val_mono D1 D2 H1 H). unfold rnd_pos.
  assert (I : 2 ^ 2098 < ord_inf).
  { unfold ord_inf. apply Z.pow_lt_mono_r; lia. }
  destruct (rnd_val D1 <? 2 ^ 2098) eqn:E1; destruct (rnd_val D2 <? 2 ^ 2098) eqn:E2;
    rewrite ?Z.ltb_lt, ?Z.ltb_ge in *; lia.
Qed.

Lemma ord_round_mono D1 D2 : D1 <= D2 -> ord_round D1 <= ord_round D2.
Proof.
  intro H. destruct D1 as [|p1|p1], D2 as [|p2|p2]; cbn [ord_round]; try lia.
  - pose proof (rnd_pos_pos (Zpos p2)). lia.
  - apply rnd_pos_mono; lia.
  - pose proof (rnd_pos_pos (Zpos p1)). lia.
  - pose proof (rnd_pos_pos (Zpos p1)). pose proof (rnd_pos_pos (Zpos p2)). lia.
  - pose proof (rnd_pos_mono (Zpos p2) (Zpos p1)). lia.
Qed.

Lemma ord_round_sign D : 0 <= ord_round D -> 0 <= D.
Proof.
  destruct D as [|p|p]; cbn [ord_round]; try lia.
  pose proof (rnd_pos_pos (Zpos p)). lia.
Qed.

(** ** The rounding of [SpecFloat], bit by bit *)

Lemma iter_pos_nat {A} (f : A -> A) p :
  forall x, iter_pos f p x = Nat.iter (Pos.to_nat p) f x.
Proof.
  induction p as [p IH|p IH|]; intro x; cbn [iter_pos].
  - rewrite !IH. rewrite Pos2Nat.inj_xI.
    replace (S (2 * Pos.to_nat p)) with (Pos.to_nat p + (Pos.to_nat p + 1))%nat by lia.
    rewrite !Nat.iter_add. reflexivity.
  - rewrite !IH. rewrite Pos2Nat.inj_xO.
    replace (2 * Pos.to_nat p)%nat with (Pos.to_nat p + Pos.to_nat p)%nat by lia.
    rewrite Nat.iter_add. reflexivity.
  - reflexivity.
Qed.

Lemma shr_1_nonneg m r s :
  0 <= m ->
  shr_1 {| shr_m := m; shr_r := r; shr_s := s |}
    = {| shr_m := m / 2; shr_r := Z.odd m; shr_s := r || s |}.
Proof.
  intro H. rewrite <- Z.div2_div.
  destruct m as [|p|p]; [reflexivity| |lia].
  destruct p; reflexivity.
Qed.

(** [k + 1] right shifts of [m]: the quotient by [2^(k+1)], whether the
    remainder reaches the half, and whether it is neither 0 nor the half. *)
Lemma shr_iter k :
  forall m, 0 <= m ->
    Nat.iter (S k) shr_1 {| shr_m := m; shr_r := false; shr_s := false |}
    = {| shr_m := m / 2 ^ (Z.of_nat k + 1);
         shr_r := 2 ^ Z.of_nat k <=? m mod 2 ^ (Z.of_nat k + 1);
         shr_s := negb ((m mod 2 ^ (Z.of_nat k + 1) =? 0)
                        || (m mod 2 ^ (Z.of_nat k + 1) =? 2 ^ Z.of_nat k)) |}.
Proof.
  induction k as [|k IH]; intros m Hm.
  - cbn [Nat.iter]. rewrite shr_1_nonneg by exact Hm.
    change (2 ^ (Z.of_nat 0 + 1)) with 2. change (2 ^ Z.of_nat 0) with 1.
    rewrite Zmod_odd. f_equal; destruct (Z.odd m); reflexivity.
  - change (Nat.iter (S (S k)) shr_1 ?x) with (shr_1 (Nat.iter (S k) shr_1 x)).
    rewrite IH by exact Hm.
    set (P := 2 ^ (Z.of_nat k + 1)).
    assert (HP : 0 < P) by (apply pow2_pos; lia).
    assert (HP2 : 2 ^ (Z.of_nat (S k) + 1) = P * 2).
    { unfold P. replace (Z.of_nat (S k) + 1) with (Z.of_nat k + 1 + 1) by lia.
      rewrite (Z.pow_add_r 2 (Z.of_nat k + 1) 1) by lia. reflexivity. }
    assert (HPk : P = 2 * 2 ^ Z.of_nat k).
    { unfold P. rewrite Z.pow_add_r by lia. change (2 ^ 1) with 2. lia. }
    assert (HPS : 2 ^ Z.of_nat (S k) = P).
    { unfold P. f_equal. lia. }
    rewrite shr_1_nonneg by (apply Z.div_pos; lia).
    rewrite HP2, HPS.
    rewrite Z.div_div by lia.
    rewrite (Z.rem_mul_r m P 2) by lia.
    rewrite (Zmod_odd (m / P)).
    pose proof (Z.mod_pos_bound m P HP) as R.
    set (rem := m mod P) in *.
    pose proof (pow2_pos (Z.of_nat k) ltac:(lia)) as Hk.
    set (h := 2 ^ Z.of_nat k) in *.
    f_equal.
    + destruct (Z.odd (m / P)); symmetry;
        [apply Z.leb_le | apply Z.leb_gt]; lia.
    + destruct (Z.odd (m / P));
        destruct (Z.leb_spec h rem); destruct (Z.eqb_spec rem 0);
        destruct (Z.eqb_spec rem h);
        destruct (Z.eqb_spec (rem + P * 1) 0); destruct (Z.eqb_spec (rem + P * 1) P);
        destruct (Z.eqb_spec (rem + P * 0) 0); destruct (Z.eqb_spec (rem + P * 0) P);
        cbn; try reflexivity; lia.
Qed.

(** The rounded mantissa after [n] right shifts, from the shift record. *)
Lemma round_after_shift n m :
  0 < n -> 0 <= m ->
  let mrs := iter_pos shr_1 (Z.to_pos n) {| shr_m := m; shr_r := false; shr_s := false |} in
  round_nearest_even (shr_m mrs) (loc_of_shr_record mrs)
  = (if (2 ^ n <? 2 * (m mod 2 ^ n)) || ((2 * (m mod 2 ^ n) =? 2 ^ n) && Z.odd (m / 2 ^ n))
     then m / 2 ^ n + 1 else m / 2 ^ n).
Proof.
  intros Hn Hm. cbv zeta. rewrite iter_pos_nat.
  destruct (Pos.to_nat (Z.to_pos n)) as [|k] eqn:E; [lia|].
  assert (Hk : Z.of_nat k + 1 = n) by lia.
  rewrite shr_iter by exact Hm. rewrite Hk.
  assert (HP : 2 ^ n = 2 * 2 ^ Z.of_nat k).
  { rewrite <- Hk. rewrite Z.pow_add_r by lia. change (2 ^ 1) with 2. lia. }
  pose proof (pow2_pos (Z.of_nat k) ltac:(lia)) as Hh.
  pose proof (Z.mod_pos_bound m (2 ^ n) ltac:(lia)) as R.
  set (rem := m mod 2 ^ n) in *. set (q := m / 2 ^ n). rewrite HP.
  set (h := 2 ^ Z.of_nat k) in *.
  destruct (Z.leb_spec h rem); destruct (Z.eqb_spec rem 0); destruct (Z.eqb_spec rem h);
    destruct (Z.ltb_spec (2 * h) (2 * rem)); destruct (Z.eqb_spec (2 * rem) (2 * h));
    cbn [shr_m loc_of_shr_record round_nearest_even negb orb andb];
    try lia; try reflexivity;
    rewrite <- Z.negb_odd; destruct (Z.odd q); reflexivity.
Qed.

Lemma Zdigits2_log2 m : Zpos (digits2_pos m) = Z.log2 (Zpos m) + 1.
Proof.
  rewrite digits2_pos_size. destruct m; cbn [Pos.size Z.log2]; lia.
Qed.

Lemma digits_unique p k :
  2 ^ (k - 1) <= Zpos p < 2 ^ k -> Zpos (digits2_pos p) = k.
Proof.
  intros [L U]. pose proof (digits2_bounds p) as [L' U'].
  set (d := Zpos (digits2_pos p)) in *.
  assert (0 < k).
  { destruct (Z.ltb_spec 0 k); [assumption|].
    rewrite (Z.pow_neg_r 2 (k - 1)) in L by lia.
    destruct (Z.eq_dec k 0) as [->|]; [cbn in U; lia|].
    rewrite (Z.pow_neg_r 2 k) in U by lia. lia. }
  assert (d - 1 < k) by (apply (Z.pow_lt_mono_r_iff 2); lia).
  assert (k - 1 < d) by (apply (Z.pow_lt_mono_r_iff 2); lia).
  lia.
Qed.

Lemma pos_iter_xO m k : Zpos (Pos.iter xO m k) = Zpos m * 2 ^ Zpos k.
Proof.
  induction k as [|k IH] using Pos.peano_ind.
  - cbn [Pos.iter]. rewrite Pos2Z.inj_xO. change (2 ^ 1) with 2. lia.
  - rewrite Pos.iter_succ, Pos2Z.inj_xO, IH, Pos2Z.inj_succ, Z.pow_succ_r by lia. lia.
Qed.

Lemma fexp64 e : fexp prec emax e = Z.max (e - 53) (-1074).
Proof. reflexivity. Qed.

(** A mantissa already in canonical position is kept as it is. *)
Lemma round_aux_canonical s m e :
  fexp prec emax (Zpos (digits2_pos m) + e) = e ->
  binary_round_aux prec emax s (Zpos m) e loc_Exact
  = (if e <=? 971 then S754_finite s m e else S754_infinity s).
Proof.
  intro H. unfold binary_round_aux, shr_fexp.
  cbn [Zdigits2 shr_record_of_loc]. rewrite H, Z.sub_diag.
  cbn [shr shr_m loc_of_shr_record round_nearest_even Zdigits2 shr_record_of_loc].
  rewrite H, Z.sub_diag. cbn [shr shr_m]. reflexivity.
Qed.

(** A multiple of the rounding step rounds to itself. *)
Lemma rnd_val_multiple D q :
  D = q * 2 ^ rnd_shift D -> rnd_val D = D.
Proof.
  intro H. pose proof (pow2_pos (rnd_shift D) (rnd_shift_nonneg D)) as HP.
  unfold rnd_val, rnd_mant. cbv zeta.
  assert (R : D mod 2 ^ rnd_shift D = 0).
  { rewrite H at 1. apply Z.mod_mul. lia. }
  assert (Q : D / 2 ^ rnd_shift D = q).
  { rewrite H at 1. apply Z.div_mul. lia. }
  rewrite R, Q.
  replace (2 ^ rnd_shift D <? 2 * 0) with false by (symmetry; apply Z.ltb_ge; lia).
  replace (2 * 0 =? 2 ^ rnd_shift D) with false by (symmetry; apply Z.eqb_neq; lia).
  cbn [orb andb]. lia.
Qed.

Lemma rnd_shift_scaled m e :
  -1074 <= e ->
  rnd_shift (Zpos m * 2 ^ (e + 1074))
  = fexp prec emax (Zpos (digits2_pos m) + e) + 1074.
Proof.
  intro He. unfold rnd_shift. rewrite fexp64, Zdigits2_log2.
  rewrite Z.log2_mul_pow2 by lia. lia.
Qed.

(** [a * 2^k] against [2^(j + k0)], by the exponents. *)
Lemma scaled_lt a j k k0 :
  0 <= j -> 0 <= k <= k0 -> 0 <= a < 2 ^ j -> a * 2 ^ k < 2 ^ (j + k0).
Proof.
  intros Hj Hk Ha. rewrite Z.pow_add_r by lia.
  pose proof (pow2_pos k ltac:(lia)).
  assert (2 ^ k <= 2 ^ k0) by (apply Z.pow_le_mono_r; lia).
  assert (0 < 2 ^ j) by (apply pow2_pos; lia). nia.
Qed.

Lemma scaled_ge a j k k0 :
  0 <= j -> 0 <= k0 <= k -> 2 ^ j <= a -> 2 ^ (j + k0) <= a * 2 ^ k.
Proof.
  intros Hj Hk Ha. rewrite Z.pow_add_r by lia.
  pose proof (pow2_pos k0 ltac:(lia)).
  assert (2 ^ k0 <= 2 ^ k) by (apply Z.pow_le_mono_r; lia).
  assert (0 < 2 ^ j) by (apply pow2_pos; lia). nia.
Qed.

(** The result of a rounding whose mantissa [m1] sits at the canonical
    exponent [fe], read as an integer. *)
Lemma canonical_result_ord s m1 fe :
  -1074 <= fe ->
  fexp prec emax (Zpos (digits2_pos m1) + fe) = fe ->
  SFord (if fe <=? 971 then S754_finite s m1 fe else S754_infinity s)
  = Some (cond_Zopp s (rnd_pos (Zpos m1 * 2 ^ (fe + 1074)))).
Proof.
  intros Hfe Hc.
  set (D := Zpos m1 * 2 ^ (fe + 1074)).
  assert (Hs : rnd_shift D = fe + 1074).
  { unfold D. rewrite rnd_shift_scaled by lia. rewrite Hc. reflexivity. }
  assert (Hv : rnd_val D = D).
  { apply (rnd_val_multiple D (Zpos m1)). rewrite Hs. reflexivity. }
  rewrite fexp64 in Hc.
  pose proof (digits2_bounds m1) as [L U].
  unfold rnd_pos. rewrite Hv.
  destruct (Z.leb_spec fe 971) as [F|F]; cbn [SFord].
  - assert (B : D < 2 ^ 2098).
    { unfold D. change 2098 with (53 + 2045). apply scaled_lt; try lia.
      split; [lia|]. eapply Z.lt_le_trans; [exact U|].
      apply Z.pow_le_mono_r; lia. }
    apply Z.ltb_lt in B. rewrite B. reflexivity.
  - assert (B : 2 ^ 2098 <= D).
    { unfold D. change 2098 with (52 + 2046). apply scaled_ge; try lia.
      replace (Zpos (digits2_pos m1)) with 53 in L by lia. exact L. }
    apply Z.ltb_ge in B. rewrite B. reflexivity.
Qed.

(** The rounded mantissa of [m * 2^(e+1074)] is that of [m] shifted by
    [n] when the rounding step is [2^n * 2^(e+1074)]. *)
Lemma rnd_mant_scaled m e n :
  -1074 <= e -> 0 < n ->
  rnd_shift (Zpos m * 2 ^ (e + 1074)) = e + n + 1074 ->
  rnd_mant (Zpos m * 2 ^ (e + 1074))
  = (if (2 ^ n <? 2 * (Zpos m mod 2 ^ n))
        || ((2 * (Zpos m mod 2 ^ n) =? 2 ^ n) && Z.odd (Zpos m / 2 ^ n))
     then Zpos m / 2 ^ n + 1 else Zpos m / 2 ^ n).
Proof.
  intros He Hn Hs. unfold rnd_mant. cbv zeta. rewrite Hs.
  replace (e + n + 1074) with (n + (e + 1074)) by lia.
  rewrite Z.pow_add_r by lia.
  pose proof (pow2_pos n ltac:(lia)) as HP.
  pose proof (pow2_pos (e + 1074) ltac:(lia)) as HK.
  set (P := 2 ^ n) in *. set (K := 2 ^ (e + 1074)) in *.
  rewrite Z.div_mul_cancel_r by lia.
  rewrite Z.mul_mod_distr_r by lia.
  pose proof (Z.mod_pos_bound (Zpos m) P HP) as R.
  set (rm := Zpos m mod P) in *.
  replace (P * K <? 2 * (rm * K)) with (P <? 2 * rm)
    by (destruct (Z.ltb_spec P (2 * rm)); symmetry;
        [apply Z.ltb_lt | apply Z.ltb_ge]; nia).
  replace (2 * (rm * K) =? P * K) with (2 * rm =? P)
    by (destruct (Z.eqb_spec (2 * rm) P); symmetry;
        [apply Z.eqb_eq | apply Z.eqb_neq]; nia).
  reflexivity.
Qed.

Lemma round_aux_shift_ord s m e n :
  -1074 <= e -> 0 < n ->
  fexp prec emax (Zpos (digits2_pos m) + e) = e + n ->
  SFord (binary_round_aux prec emax s (Zpos m) e loc_Exact)
  = Some (cond_Zopp s (rnd_pos (Zpos m * 2 ^ (e + 1074)))).
Proof.
  intros He Hn Hf.
  pose proof (digits2_bounds m) as [Ld Ud].
  assert (Hs : rnd_shift (Zpos m * 2 ^ (e + 1074)) = e + n + 1074)
    by (rewrite rnd_shift_scaled by lia; lia).
  pose proof (rnd_mant_scaled m e n He Hn Hs) as Hm.
  rewrite fexp64 in Hf.
  remember (Zpos (digits2_pos m)) as d eqn:Hd.
  assert (Hdn : d = 53 + n) by lia.
  assert (HP : 0 < 2 ^ n) by (apply pow2_pos; lia).
  assert (Hq : 2 ^ 52 <= Zpos m / 2 ^ n < 2 ^ 53).
  { rewrite Hdn in Ld, Ud. replace (53 + n - 1) with (52 + n) in Ld by lia.
    rewrite Z.pow_add_r in Ld, Ud by lia. split.
    - apply Z.div_le_lower_bound; lia.
    - apply Z.div_lt_upper_bound; lia. }
  unfold binary_round_aux, shr_fexp.
  cbn [Zdigits2 shr_record_of_loc]. rewrite <- Hd, fexp64.
  replace (Z.max (d + e - 53) (-1074) - e) with n by lia.
  destruct n as [|pn|pn]; try lia.
  cbn [shr].
  set (D := Zpos m * 2 ^ (e + 1074)) in *.
  set (mrs := iter_pos shr_1 pn {| shr_m := Zpos m; shr_r := false; shr_s := false |}).
  assert (Hrs : round_nearest_even (shr_m mrs) (loc_of_shr_record mrs) = rnd_mant D).
  { rewrite Hm. unfold mrs. change pn with (Z.to_pos (Zpos pn)).
    apply (round_after_shift (Zpos pn) (Zpos m)); lia. }
  rewrite !Hrs. clearbody mrs.
  assert (Hc : rnd_mant D = Zpos m / 2 ^ Zpos pn \/ rnd_mant D = Zpos m / 2 ^ Zpos pn + 1).
  { rewrite Hm. destruct (_ || _); auto. }
  assert (Hr : 2 ^ 52 <= rnd_mant D <= 2 ^ 53) by lia.
  assert (Hval : rnd_val D = rnd_mant D * 2 ^ (e + Zpos pn + 1074)).
  { unfold rnd_val. rewrite Hs. reflexivity. }
  destruct (rnd_mant D) as [|p'|p'] eqn:Ep; try lia.
  destruct (Z.eq_dec (Zpos p') (2 ^ 53)) as [E53|N53].
  - (* the rounding carried into a 54th bit *)
    assert (Hp' : p' = (2 ^ 53)%positive) by (apply Pos2Z.inj; exact E53).
    subst p'.
    cbn [Zdigits2 shr_record_of_loc]. rewrite fexp64.
    change (Zpos (digits2_pos (2 ^ 53))) with 54.
    replace (Z.max (54 + (e + Zpos pn) - 53) (-1074) - (e + Zpos pn)) with 1 by lia.
    assert (S1 : shr_1 {| shr_m := Zpos (2 ^ 53); shr_r := false; shr_s := false |}
                 = {| shr_m := Zpos (2 ^ 52); shr_r := false; shr_s := false |})
      by (vm_compute; reflexivity).
    cbn [shr iter_pos]. rewrite S1. cbn [shr_m].
    change (Z.sub emax prec) with 971.
    unfold rnd_pos. rewrite Hval.
    destruct (Z.leb_spec (e + Zpos pn + 1) 971) as [F|F]; cbn [SFord].
    + assert (B : Zpos (2 ^ 53) * 2 ^ (e + Zpos pn + 1074) < 2 ^ 2098).
      { change 2098 with (54 + 2044). apply scaled_lt; lia. }
      apply Z.ltb_lt in B. rewrite B. do 2 f_equal.
      replace (e + Zpos pn + 1 + 1074) with (1 + (e + Zpos pn + 1074)) by lia.
      rewrite Z.pow_add_r by lia.
      change (Zpos (2 ^ 53)) with (2 * Zpos (2 ^ 52)). change (2 ^ 1) with 2.
      ring.
    + assert (B : 2 ^ 2098 <= Zpos (2 ^ 53) * 2 ^ (e + Zpos pn + 1074)).
      { change 2098 with (53 + 2045). apply scaled_ge; lia. }
      apply Z.ltb_ge in B. rewrite B. reflexivity.
  - (* the rounded mantissa still has 53 bits *)
    assert (Hd' : Zpos (digits2_pos p') = 53)
      by (apply digits_unique; change (2 ^ (53 - 1)) with (2 ^ 52); lia).
    cbn [Zdigits2 shr_record_of_loc]. rewrite fexp64, Hd'.
    replace (Z.max (53 + (e + Zpos pn) - 53) (-1074) - (e + Zpos pn)) with 0 by lia.
    cbn [shr shr_m].
    change (Z.sub emax prec) with 971.
    unfold rnd_pos. rewrite Hval.
    destruct (Z.leb_spec (e + Zpos pn) 971) as [F|F]; cbn [SFord].
    + assert (B : Zpos p' * 2 ^ (e + Zpos pn + 1074) < 2 ^ 2098).
      { change 2098 with (53 + 2045). apply scaled_lt; lia. }
      apply Z.ltb_lt in B. rewrite B. reflexivity.
    + assert (B : 2 ^ 2098 <= Zpos p' * 2 ^ (e + Zpos pn + 1074)).
      { change 2098 with (52 + 2046). apply scaled_ge; lia. }
      apply Z.ltb_ge in B. rewrite B. reflexivity.
Qed.

Lemma binary_round_ord s m e :
  -1074 <= e ->
  SFord (binary_round prec emax s m e)
  = Some (cond_Zopp s (rnd_pos (Zpos m * 2 ^ (e + 1074)))).
Proof.
  intro He.
  pose proof (digits2_bounds m) as [Ld Ud].
  unfold binary_round.
  remember (Zpos (digits2_pos m)) as d eqn:Hd.
  remember (fexp prec emax (d + e)) as fe eqn:Hfex.
  assert (Hfe : fe = Z.max (d + e - 53) (-1074)) by (rewrite Hfex; apply fexp64).
  assert (Hdpos : 0 < d) by (rewrite Hd; apply Pos2Z.is_pos).
  unfold shl_align.
  destruct (fe - e) as [|pn|pn] eqn:En.
  - (* already at the canonical exponent *)
    assert (E : fe = e) by lia. subst fe.
    rewrite round_aux_canonical by (rewrite <- Hd; lia).
    apply canonical_result_ord; [lia | rewrite <- Hd; lia].
  - (* shift right and round *)
    apply (round_aux_shift_ord s m e (Zpos pn)); [lia | lia |].
    rewrite <- Hd, <- Hfex. lia.
  - (* shift left, exactly *)
    set (m1 := Pos.iter xO m pn).
    assert (Hm1 : Zpos m1 = Zpos m * 2 ^ (e - fe)).
    { unfold m1. rewrite pos_iter_xO. f_equal. f_equal. lia. }
    assert (Hd1 : Zpos (digits2_pos m1) = d + (e - fe)).
    { apply digits_unique. rewrite Hm1.
      pose proof (pow2_pos (e - fe) ltac:(lia)).
      replace (d + (e - fe) - 1) with (d - 1 + (e - fe)) by lia.
      rewrite !Z.pow_add_r by lia. nia. }
    assert (Hc : fexp prec emax (Zpos (digits2_pos m1) + fe) = fe).
    { rewrite Hd1. replace (d + (e - fe) + fe) with (d + e) by lia. congruence. }
    rewrite round_aux_canonical by exact Hc.
    rewrite (canonical_result_ord s m1 fe) by (try exact Hc; lia).
    replace (Zpos m1 * 2 ^ (fe + 1074)) with (Zpos m * 2 ^ (e + 1074)); [reflexivity|].
    rewrite Hm1, <- Z.mul_assoc, <- Z.pow_add_r by lia.
    f_equal. f_equal. lia.
Qed.

Lemma ord_round_pos D : 0 < D -> ord_round D = rnd_pos D.
Proof. destruct D; try lia; reflexivity. Qed.

Lemma ord_round_neg D : D < 0 -> ord_round D = - rnd_pos (- D).
Proof. destruct D; try lia; reflexivity. Qed.

(** A representable value rounds to itself. *)
Lemma rnd_pos_canonical m e :
  bounded prec emax m e = true ->
  rnd_pos (Zpos m * 2 ^ (e + 1074)) = Zpos m * 2 ^ (e + 1074).
Proof.
  intro B. pose proof (bounded_inv _ _ B) as (He & _ & _).
  unfold bounded in B. apply andb_true_iff in B. destruct B as [C _].
  apply Z.eqb_eq in C.
  pose proof (canonical_result_ord false m e ltac:(lia) C) as H.
  replace (e <=? 971) with true in H by (symmetry; apply Z.leb_le; lia).
  cbn [SFord cond_Zopp] in H. apply some_eq in H. symmetry. exact H.
Qed.

Lemma ord_round_id x n :
  valid_binary x = true -> SFord x = Some n -> Z.abs n < ord_inf -> ord_round n = n.
Proof.
  assert (I : 0 < ord_inf) by (unfold ord_inf; apply pow2_pos; lia).
  destruct x as [s|s| |s m e]; cbn [SFord valid_binary]; intros V H Hn;
    try discriminate H; apply some_eq in H; subst n.
  - reflexivity.
  - destruct s; cbn [cond_Zopp] in Hn; lia.
  - pose proof (finite_range _ _ V) as R.
    pose proof (rnd_pos_canonical _ _ V) as C.
    destruct s; cbn [cond_Zopp].
    + rewrite ord_round_neg by lia. rewrite Z.opp_involutive, C. reflexivity.
    + rewrite ord_round_pos by lia. exact C.
Qed.

Lemma shl_align_fst m e e' :
  e' <= e -> Zpos (fst (shl_align m e e')) = Zpos m * 2 ^ (e - e').
Proof.
  intro H. unfold shl_align. destruct (e' - e) as [|p|p] eqn:E; cbn [fst].
  - replace (e - e') with 0 by lia. change (2 ^ 0) with 1. lia.
  - lia.
  - rewrite pos_iter_xO. f_equal. f_equal. lia.
Qed.

Lemma binary_normalize_ord M e s :
  -1074 <= e ->
  SFord (binary_normalize prec emax M e s) = Some (ord_round (M * 2 ^ (e + 1074))).
Proof.
  intro He. pose proof (pow2_pos (e + 1074) ltac:(lia)) as HK.
  destruct M as [|p|p]; cbn [binary_normalize].
  - reflexivity.
  - rewrite binary_round_ord by exact He. cbn [cond_Zopp].
    rewrite ord_round_pos by lia. reflexivity.
  - rewrite binary_round_ord by exact He. cbn [cond_Zopp].
    rewrite ord_round_neg by lia. do 3 f_equal. lia.
Qed.

(** The subtraction of two finite binary64 values is the rounding of the
    exact difference. *)
Lemma SFsub_ord x y nx ny :
  valid_binary x = true -> valid_binary y = true ->
  SFord x = Some nx -> SFord y = Some ny ->
  Z.abs nx < ord_inf -> Z.abs ny < ord_inf ->
  SFord (SF64sub x y) = Some (ord_round (nx - ny)).
Proof.
  assert (I : 0 < ord_inf) by (unfold ord_inf; apply pow2_pos; lia).
  intros Vx Vy Hx Hy Bx By.
  destruct x as [sx|sx| |sx mx ex]; cbn [SFord] in Hx; try discriminate Hx;
    apply some_eq in Hx;
    try (subst nx; destruct sx; cbn [cond_Zopp] in Bx; lia).
  - (* zero - y *)
    destruct y as [sy|sy| |sy my ey]; cbn [SFord] in Hy; try discriminate Hy;
      apply some_eq in Hy;
      try (subst ny; destruct sy; cbn [cond_Zopp] in By; lia).
    + subst. destruct sx, sy; reflexivity.
    + subst nx. cbn [SF64sub SFsub SFord]. f_equal.
      assert (E : ord_round (- ny) = - ny).
      { apply (ord_round_id (S754_finite (negb sy) my ey)); [exact Vy| |lia].
        cbn [SFord]. subst ny. destruct sy; cbn [negb cond_Zopp]; f_equal; lia. }
      replace (0 - ny) with (- ny) by lia. rewrite E.
      subst ny. destruct sy; cbn [negb cond_Zopp]; lia.
  - (* finite - y *)
    destruct y as [sy|sy| |sy my ey]; cbn [SFord] in Hy; try discriminate Hy;
      apply some_eq in Hy;
      try (subst ny; destruct sy; cbn [cond_Zopp] in By; lia).
    + subst ny. cbn [SF64sub SFsub SFord]. f_equal.
      replace (nx - 0) with nx by lia.
      rewrite (ord_round_id (S754_finite sx mx ex) nx Vx); [|cbn [SFord]; congruence|exact Bx].
      exact Hx.
    + pose proof (bounded_inv _ _ Vx) as (Hex & _ & _).
      pose proof (bounded_inv _ _ Vy) as (Hey & _ & _).
      unfold SF64sub, SFsub.
      rewrite binary_normalize_ord by lia.
      rewrite !shl_align_fst by lia.
      do 2 f_equal. subst nx ny.
      set (ez := Z.min ex ey).
      assert (Ex : 2 ^ (ex + 1074) = 2 ^ (ex - ez) * 2 ^ (ez + 1074)).
      { rewrite <- Z.pow_add_r by lia. f_equal. lia. }
      assert (Ey : 2 ^ (ey + 1074) = 2 ^ (ey - ez) * 2 ^ (ez + 1074)).
      { rewrite <- Z.pow_add_r by lia. f_equal. lia. }
      rewrite Ex, Ey.
      destruct sx, sy; cbn [cond_Zopp]; ring.
Qed.

Local Close Scope Z_scope.

Lemma sub_ford x y :
  is_finite x = true -> is_finite y = true ->
  exists nx ny,
    ford x = Some nx /\ ford y = Some ny /\
    ford (x - y) = Some (ord_round (nx - ny)).
Proof.
  intros Hx Hy.
  apply is_finite_ford in Hx, Hy.
  destruct Hx as (nx & Ex & Bx), Hy as (ny & Ey & By).
  exists nx, ny. split; [exact Ex|]. split; [exact Ey|].
  unfold ford in *. rewrite sub_spec.
  apply SFsub_ord; try assumption; apply Prim2SF_valid.
Qed.

(** Gaps add up: when [c] is at least [cd >= 0] after [a], and [b] at least
    [cd] after [c], all three finite, then [b] is at least [cd] after [a],
    every difference being the rounded one of the interpreter. *)
Lemma gap_trans cd a c b :
  is_finite a = true -> is_finite c = true -> is_finite b = true ->
  (0 <=? cd) = true ->
  (cd <=? c - a) = true -> (cd <=? b - c) = true ->
  (cd <=? b - a) = true.
Proof.
  intros Fa Fc Fb H0 Hca Hbc.
  destruct (sub_ford c a Fc Fa) as (nc & na & Ec & Ea & Eca).
  destruct (sub_ford b c Fb Fc) as (nb & nc' & Eb & Ec' & Ebc).
  destruct (sub_ford b a Fb Fa) as (nb' & na' & Eb' & Ea' & Eba).
  rewrite Ec in Ec'. rewrite Eb in Eb'. rewrite Ea in Ea'.
  apply some_eq in Ec', Eb', Ea'. subst nc' nb' na'.
  rewrite leb_ford in *. rewrite ford_zero in H0.
  rewrite Eca in Hca. rewrite Ebc in Hbc. rewrite Eba.
  destruct (ford cd) as [zc|]; [|discriminate].
  rewrite Z.leb_le in *.
  assert (0 <= nc - na)%Z by (apply ord_round_sign; lia).
  pose proof (ord_round_mono (nb - nc) (nb - na) ltac:(lia)). lia.
Qed.

Lemma sub_finite_not_nan x y :
  is_finite x = true -> is_finite y = true -> is_nan (x - y) = false.
Proof.
  intros Hx Hy. destruct (sub_ford x y Hx Hy) as (nx & ny & _ & _ & E).
  destruct (is_nan (x - y)) eqn:N; [|reflexivity].
  apply is_nan_ford in N. congruence.
Qed.

Lemma leb_trans a b c :
  (a <=? b) = true -> (b <=? c) = true -> (a <=? c) = true.
Proof.
  rewrite !leb_ford.
  destruct (ford a), (ford b), (ford c); try discriminate.
  rewrite !Z.leb_le. lia.
Qed.

Lemma ltb_false_leb a b :
  is_nan a = false -> is_nan b = false -> (a <? b) = false -> (b <=? a) = true.
Proof.
  intros Ha Hb. rewrite ltb_ford, leb_ford.
  destruct (ford a) eqn:Ea; [|apply is_nan_ford in Ea; congruence].
  destruct (ford b) eqn:Eb; [|apply is_nan_ford in Eb; congruence].
  rewrite Z.ltb_ge, Z.leb_le. lia.
Qed.

Lemma leb_true_not_nan a b : (a <=? b) = true -> is_nan a = false /\ is_nan b = false.
Proof.
  rewrite leb_ford. intro H. split.
  - destruct (is_nan a) eqn:E; [|reflexivity].
    apply is_nan_ford in E. rewrite E in H. discriminate.
  - destruct (is_nan b) eqn:E; [|reflexivity].
    apply is_nan_ford in E. rewrite E in H. destruct (ford a); discriminate.
Qed.

(** ** The click classifier *)

Module MuscleClickFacts.
Import MuscleClick.

(** What one call does to the drag flag: a drag action is the one the flag
    calls for and flips the flag; anything else leaves the flag alone. *)
Lemma step_drag cfg st c :
  match snd (step cfg st c) with
  | Some DragStart =>
    is_dragging st = false /\ is_dragging (fst (step cfg st c)) = true
  | Some DragEnd =>
    is_dragging st = true /\ is_dragging (fst (step cfg st c)) = false
  | _ => is_dragging (fst (step cfg st c)) = is_dragging st
  end.
Proof.
  destruct c as [data now|data now]; cbn [step].
  - unfold update_from_envelope. destruct data as [|d ds]; [reflexivity|].
    cbv zeta.
    destruct (debug_printed_env st);
      destruct (_ <? left_threshold cfg); try reflexivity;
      destruct (_ <? cooldown_sec cfg); reflexivity.
  - unfold update_from_signal. destruct data as [|d ds]; [reflexivity|].
    cbv zeta.
    set (ms := signal_max (d :: ds)).
    set (st1 := push_buffer st ms).
    assert (D1 : is_dragging st1 = is_dragging st) by reflexivity.
    set (st2 := if debug_printed_sig st1 then st1 else set_debug_printed_sig st1 true).
    assert (D2 : is_dragging st2 = is_dragging st).
    { unfold st2. destruct (debug_printed_sig st1); exact D1. }
    clearbody st2. clear st1 D1. rewrite <- D2. clear D2.
    destruct (use_duration_detection cfg).
    + unfold handle_duration_based_click.
      destruct (hold_threshold cfg <=? ms).
      * destruct (cooldown_sec cfg <=? now - last_click_ts st2); [|reflexivity].
        cbn [is_dragging set_last_click_ts].
        destruct (is_dragging st2) eqn:E; cbn; rewrite ?E; auto.
      * destruct (right_threshold cfg <=? ms).
        { destruct (cooldown_sec cfg <=? now - last_click_ts st2); reflexivity. }
        destruct (left_threshold cfg <=? ms); [|reflexivity].
        destruct (cooldown_sec cfg <=? now - last_click_ts st2); reflexivity.
    + unfold handle_simple_click.
      destruct (right_threshold cfg <=? ms).
      { destruct (cooldown_sec cfg <=? now - last_click_ts st2); reflexivity. }
      destruct (left_threshold cfg <=? ms); [|reflexivity].
      destruct (cooldown_sec cfg <=? now - last_click_ts st2); reflexivity.
Qed.

Lemma run_cons cfg st c rest :
  run cfg st (c :: rest) =
  (fst (run cfg (fst (step cfg st c)) rest),
   match snd (step cfg st c) with
   | Some e => (e, call_time c) :: snd (run cfg (fst (step cfg st c)) rest)
   | None => snd (run cfg (fst (step cfg st c)) rest)
   end).
Proof.
  cbn [run]. destruct (step cfg st c) as [st1 ev]. cbn [fst snd].
  destruct (run cfg st1 rest) as [st2 evs]. reflexivity.
Qed.

Lemma run_alternates cfg calls :
  forall st,
    alternates (is_dragging st) (drag_events (snd (run cfg st calls))) = true.
Proof.
  induction calls as [|c rest IH]; intro st; [reflexivity|].
  rewrite run_cons. cbn [snd].
  pose proof (step_drag cfg st c) as S.
  specialize (IH (fst (step cfg st c))).
  destruct (snd (step cfg st c)) as [[| | |]|]; unfold drag_events in *;
    cbn [map fst filter is_drag alternates].
  - rewrite <- S. exact IH.
  - rewrite <- S. exact IH.
  - destruct S as [S0 S1]. rewrite S0, S1 in *. exact IH.
  - destruct S as [S0 S1]. rewrite S0, S1 in *. exact IH.
  - rewrite <- S. exact IH.
Qed.

(** C5.  In duration-based mode a call whose amplitude reaches the hold
    threshold and passes the cooldown flips the dragging flag and emits the
    drag action the flag calls for: [DragStart] when not dragging, [DragEnd]
    when dragging.  Over any sequence of calls, from any state, the drag
    actions emitted alternate accordingly, so that from a fresh detector they
    read [DragStart], [DragEnd], [DragStart], ... and [DragStart] never
    follows [DragStart]. *)
Theorem drag_toggles_alternate :
  forall (cfg : MuscleClickConfig) (st : MuscleClickDetector)
         (d : CallibriSignalData) (ds : list CallibriSignalData) (now : float)
         (calls : list call),
    (use_duration_detection cfg = true ->
     (hold_threshold cfg <=? signal_max (d :: ds)) = true ->
     (cooldown_sec cfg <=? now - last_click_ts st) = true ->
     snd (update_from_signal cfg st (d :: ds) now)
       = Some (if is_dragging st then DragEnd else DragStart) /\
     is_dragging (fst (update_from_signal cfg st (d :: ds) now))
       = negb (is_dragging st)) /\
    alternates (is_dragging st) (drag_events (snd (run cfg st calls))) = true /\
    alternates false (drag_events (snd (run cfg init calls))) = true.
Proof.
  intros cfg st d ds now calls. split; [|split].
  - intros Hmode Hhold Hcool.
    unfold update_from_signal. cbv zeta. rewrite Hmode.
    set (ms := signal_max (d :: ds)) in *.
    set (st1 := push_buffer st ms).
    set (st2 := if debug_printed_sig st1 then st1 else set_debug_printed_sig st1 true).
    assert (D2 : is_dragging st2 = is_dragging st /\ last_click_ts st2 = last_click_ts st).
    { unfold st2. destruct (debug_printed_sig st1); split; reflexivity. }
    destruct D2 as [D2 L2]. clearbody st2.
    unfold handle_duration_based_click. rewrite Hhold, L2, Hcool.
    cbn [is_dragging set_last_click_ts]. rewrite D2.
    destruct (is_dragging st); split; reflexivity.
  - apply run_alternates.
  - apply (run_alternates cfg calls init).
Qed.

(** The clock value stored by a call that emits, and kept by one that does
    not. *)
Lemma step_last_click_ts cfg st c :
  last_click_ts (fst (step cfg st c))
  = match snd (step cfg st c) with
    | Some _ => call_time c
    | None => last_click_ts st
    end.
Proof.
  destruct c as [data now|data now]; cbn [step call_time].
  - unfold update_from_envelope. destruct data as [|d ds]; [reflexivity|].
    cbv zeta.
    destruct (debug_printed_env st);
      destruct (_ <? left_threshold cfg); try reflexivity;
      destruct (_ <? cooldown_sec cfg); reflexivity.
  - unfold update_from_signal. destruct data as [|d ds]; [reflexivity|].
    cbv zeta.
    set (ms := signal_max (d :: ds)).
    set (st1 := push_buffer st ms).
    set (st2 := if debug_printed_sig st1 then st1 else set_debug_printed_sig st1 true).
    assert (L2 : last_click_ts st2 = last_click_ts st).
    { unfold st2. destruct (debug_printed_sig st1); reflexivity. }
    clearbody st2. clear st1. rewrite <- L2.
    unfold handle_duration_based_click, handle_simple_click.
    destruct (use_duration_detection cfg);
      repeat match goal with
             | |- context [if ?b then _ else _] =>
               lazymatch type of b with bool => destruct b end
             end; reflexivity.
Qed.

(** A call that emits has passed the cooldown test of its path; with finite
    clock values the two tests, [not (now - last < cooldown)] on the envelope
    path and [now - last >= cooldown] on the signal path, say the same. *)
Lemma step_guard cfg st c e :
  is_nan (cooldown_sec cfg) = false ->
  is_finite (call_time c) = true -> is_finite (last_click_ts st) = true ->
  snd (step cfg st c) = Some e ->
  (cooldown_sec cfg <=? call_time c - last_click_ts st) = true.
Proof.
  intros Hcd Hnow Hlast.
  destruct c as [data now|data now]; cbn [step call_time] in *.
  - unfold update_from_envelope. destruct data as [|d ds]; [discriminate|].
    cbv zeta.
    assert (G : forall st', last_click_ts st' = last_click_ts st ->
              snd (if envelope_value d ds <? left_threshold cfg then (st', None)
                   else if now - last_click_ts st' <? cooldown_sec cfg then (st', None)
                   else (set_last_click_ts st' now, Some LeftClick)) = Some e ->
              (cooldown_sec cfg <=? now - last_click_ts st) = true).
    { intros st' L. rewrite L.
      destruct (_ <? left_threshold cfg); [discriminate|].
      destruct (now - last_click_ts st <? cooldown_sec cfg) eqn:G; [discriminate|].
      intros _. apply ltb_false_leb; try assumption.
      apply sub_finite_not_nan; assumption. }
    destruct (debug_printed_env st); apply G; reflexivity.
  - unfold update_from_signal. destruct data as [|d ds]; [discriminate|].
    cbv zeta.
    set (ms := signal_max (d :: ds)).
    set (st1 := push_buffer st ms).
    set (st2 := if debug_printed_sig st1 then st1 else set_debug_printed_sig st1 true).
    assert (L2 : last_click_ts st2 = last_click_ts st).
    { unfold st2. destruct (debug_printed_sig st1); reflexivity. }
    clearbody st2. clear st1. rewrite <- L2.
    unfold handle_duration_based_click, handle_simple_click.
    destruct (use_duration_detection cfg);
      repeat match goal with
             | |- context [if ?b then _ else _] =>
               lazymatch type of b with bool => destruct b eqn:? end
             end; cbn [snd]; intro Q; first [discriminate Q | assumption | reflexivity].
Qed.

Lemma run_times_finite cfg calls :
  forall st,
    Forall (fun c => is_finite (call_time c) = true) calls ->
    Forall (fun ev => is_finite (snd ev) = true) (snd (run cfg st calls)).
Proof.
  induction calls as [|c rest IH]; intros st H; [constructor|].
  inversion H as [|? ? Hc Hrest]; subst.
  rewrite run_cons. cbn [snd].
  destruct (snd (step cfg st c)); [constructor; [exact Hc|]|]; apply IH; exact Hrest.
Qed.

(** Every action of a run comes at least the cooldown after the last action
    before the run. *)
Lemma run_after_last cfg calls :
  forall st,
    (0 <=? cooldown_sec cfg) = true ->
    is_finite (last_click_ts st) = true ->
    Forall (fun c => is_finite (call_time c) = true) calls ->
    Forall (fun ev => (cooldown_sec cfg <=? snd ev - last_click_ts st) = true)
           (snd (run cfg st calls)).
Proof.
  induction calls as [|c rest IH]; intros st Hcd Hlast H; [constructor|].
  inversion H as [|? ? Hc Hrest]; subst.
  rewrite run_cons. cbn [snd].
  pose proof (step_last_click_ts cfg st c) as L.
  destruct (snd (step cfg st c)) as [e|] eqn:E.
  - assert (G : (cooldown_sec cfg <=? call_time c - last_click_ts st) = true).
    { apply (step_guard cfg st c e); try assumption.
      apply (leb_true_not_nan _ _ Hcd). }
    constructor; [exact G|].
    assert (Hl1 : is_finite (last_click_ts (fst (step cfg st c))) = true)
      by (rewrite L; exact Hc).
    pose proof (IH _ Hcd Hl1 Hrest) as A.
    pose proof (run_times_finite cfg rest (fst (step cfg st c)) Hrest) as F.
    rewrite L in A.
    rewrite Forall_forall in *. intros ev Hin.
    apply (gap_trans (cooldown_sec cfg) (last_click_ts st) (call_time c) (snd ev));
      auto.
  - rewrite <- L. apply IH; try assumption. rewrite L; assumption.
Qed.

(** C2.  With a cooldown that is not negative and finite clock readings, any
    two actions emitted by a sequence of classifier calls, [a] before [b],
    satisfy [timestamp b - timestamp a >= cooldown_sec], the difference and
    the comparison being those of the interpreter.  The calls may mix the
    envelope and the signal paths and both modes' actions, drag toggles
    included; the detector may start in any state. *)
Theorem cooldown_between_actions :
  forall (cfg : MuscleClickConfig) (st : MuscleClickDetector) (calls : list call),
    (0 <=? cooldown_sec cfg) = true ->
    Forall (fun c => is_finite (call_time c) = true) calls ->
    ForallOrdPairs
      (fun a b => (cooldown_sec cfg <=? snd b - snd a) = true)
      (snd (run cfg st calls)).
Proof.
  intros cfg st calls Hcd. revert st.
  induction calls as [|c rest IH]; intros st H; [constructor|].
  inversion H as [|? ? Hc Hrest]; subst.
  rewrite run_cons. cbn [snd].
  pose proof (step_last_click_ts cfg st c) as L.
  destruct (snd (step cfg st c)) as [e|] eqn:E.
  - constructor; [|apply IH; exact Hrest].
    cbn [snd]. rewrite <- L.
    apply run_after_last; try assumption. rewrite L. exact Hc.
  - apply IH; exact Hrest.
Qed.

(** C2 on the default configuration: a drag start at clock 1000, a signal
    held back 0.2 s later, a left click from the envelope path at 1000.6 and
    the drag end at 1001.2. *)
Lemma cooldown_between_actions_witness :
  snd (run default_config init
         [Signal [mkSignal [826e-6]] 1000.0; Signal [mkSignal [826e-6]] 1000.2;
          Envelope [mkEnvelope 200e-6] 1000.6; Signal [mkSignal [826e-6]] 1001.2])
    = [(DragStart, 1000.0); (LeftClick, 1000.6); (DragEnd, 1001.2)] /\
  ForallOrdPairs
    (fun a b => (cooldown_sec default_config <=? snd b - snd a) = true)
    (snd (run default_config init
            [Signal [mkSignal [826e-6]] 1000.0; Signal [mkSignal [826e-6]] 1000.2;
             Envelope [mkEnvelope 200e-6] 1000.6; Signal [mkSignal [826e-6]] 1001.2])).
Proof.
  split; [vm_compute; reflexivity|].
  apply cooldown_between_actions; [reflexivity|].
  repeat constructor.
Defined.

(** C9.  With the default configuration the duration-based classifier never
    emits a right click: an amplitude that reaches [right_threshold] (250)
    has reached [hold_threshold] (225), and the hold branch returns first. *)
Theorem default_right_click_unreachable :
  forall (st : MuscleClickDetector) (data : list CallibriSignalData) (now : float),
    snd (update_from_signal default_config st data now) <> Some RightClick.
Proof.
  intros st data now. unfold update_from_signal.
  destruct data as [|d ds]; [cbn [snd]; congruence|]. cbv zeta.
  set (ms := signal_max (d :: ds)).
  set (st2 := if debug_printed_sig _ then _ else _). clearbody st2.
  change (use_duration_detection default_config) with true. cbv iota.
  unfold handle_duration_based_click.
  change (hold_threshold default_config) with 225%float.
  change (right_threshold default_config) with 250%float.
  destruct (225 <=? ms) eqn:Hhold.
  - destruct (cooldown_sec default_config <=? now - last_click_ts st2);
      [|cbn [snd]; congruence].
    destruct (negb _); cbn [snd]; congruence.
  - destruct (250 <=? ms) eqn:Hright.
    + assert (H : (225 <=? ms) = true)
        by (apply (leb_trans 225 250 ms); [reflexivity | exact Hright]).
      congruence.
    + destruct (left_threshold default_config <=? ms); [|cbn [snd]; congruence].
      destruct (cooldown_sec default_config <=? now - last_click_ts st2);
        cbn [snd]; congruence.
Qed.

(** C10.  [update_from_envelope] emits nothing or a left click, whatever the
    configuration and the packet; it emits the left click exactly when the
    amplitude is not below [left_threshold] and the cooldown test does not
    hold it back, so [right_threshold] and [hold_threshold] play no part; and
    it neither reads nor writes the dragging flag. *)
Theorem envelope_only_left_click :
  forall (cfg : MuscleClickConfig) (st : MuscleClickDetector)
         (d : CallibriEnvelopeData) (ds : list CallibriEnvelopeData)
         (now : float) (b : bool),
    let r := update_from_envelope cfg st (d :: ds) now in
    (snd r = None \/ snd r = Some LeftClick) /\
    snd r = (if (envelope_value d ds <? left_threshold cfg)
                || (now - last_click_ts st <? cooldown_sec cfg)
             then None else Some LeftClick) /\
    is_dragging (fst r) = is_dragging st /\
    update_from_envelope cfg (set_is_dragging st b) (d :: ds) now
      = (set_is_dragging (fst r) b, snd r) /\
    update_from_envelope cfg st [] now = (st, None).
Proof.
  intros cfg st d ds now b. cbv zeta. unfold update_from_envelope.
  cbn [debug_printed_env set_is_dragging].
  destruct (debug_printed_env st);
    destruct (envelope_value d ds <? left_threshold cfg);
    cbn [last_click_ts set_debug_printed_env set_is_dragging orb fst snd];
    try (repeat split; auto; fail);
    destruct (now - last_click_ts st <? cooldown_sec cfg);
    cbn [fst snd]; repeat split; auto.
Qed.

End MuscleClickFacts.

(** ** Zero and finite values *)

Lemma is_zero_SF x : is_zero x = true <-> exists s, Prim2SF x = S754_zero s.
Proof.
  rewrite is_zero_ford. unfold ford.
  pose proof (Prim2SF_valid x) as V.
  destruct (Prim2SF x) as [s|s| |s m e]; cbn [SFord].
  - split; [intros _; exists s; reflexivity | reflexivity].
  - split; [|intros (s' & H); discriminate].
    intro H. apply some_eq in H. exfalso.
    assert (0 < ord_inf)%Z by (unfold ord_inf; apply Z.pow_pos_nonneg; lia).
    destruct s; cbn [cond_Zopp] in H; lia.
  - split; [discriminate | intros (s' & H); discriminate].
  - split; [|intros (s' & H); discriminate].
    intro H. apply some_eq in H. exfalso.
    pose proof (finite_range _ _ V). destruct s; cbn [cond_Zopp] in H; lia.
Qed.

Lemma is_finite_SF x :
  is_finite x = true <->
  (exists s, Prim2SF x = S754_zero s) \/ (exists s m e, Prim2SF x = S754_finite s m e).
Proof.
  rewrite is_finite_ford. unfold ford.
  pose proof (Prim2SF_valid x) as V.
  assert (I : (0 < ord_inf)%Z) by (unfold ord_inf; apply Z.pow_pos_nonneg; lia).
  destruct (Prim2SF x) as [s|s| |s m e]; cbn [SFord].
  - split; [intros _; left; exists s; reflexivity|].
    intros _. exists 0%Z. split; [reflexivity | lia].
  - split.
    + intros (z & H & Hz). apply some_eq in H. subst z.
      destruct s; cbn [cond_Zopp] in Hz; lia.
    + intros [(s' & H)|(s' & m & e & H)]; discriminate.
  - split.
    + intros (z & H & _). discriminate.
    + intros [(s' & H)|(s' & m & e & H)]; discriminate.
  - split; [intros _; right; exists s, m, e; reflexivity|].
    intros _. pose proof (finite_range _ _ V).
    eexists. split; [reflexivity|]. destruct s; cbn [cond_Zopp]; lia.
Qed.

Lemma mul_zero_l x y :
  is_zero x = true -> is_finite y = true -> is_zero (x * y) = true.
Proof.
  rewrite !is_zero_SF, is_finite_SF, mul_spec.
  intros (s & ->) [(s' & ->)|(s' & m & e & ->)]; eexists; reflexivity.
Qed.

Lemma mul_zero_r x y :
  is_finite x = true -> is_zero y = true -> is_zero (x * y) = true.
Proof.
  rewrite !is_zero_SF, is_finite_SF, mul_spec.
  intros [(s' & ->)|(s' & m & e & ->)] (s & ->); eexists; reflexivity.
Qed.

Lemma add_zero x y :
  is_zero x = true -> is_zero y = true -> is_zero (x + y) = true.
Proof.
  rewrite !is_zero_SF, add_spec.
  intros (s & ->) (s' & ->). destruct s, s'; eexists; reflexivity.
Qed.

Lemma opp_zero x : is_zero x = true -> is_zero (- x) = true.
Proof.
  rewrite !is_zero_SF, opp_spec. intros (s & ->). eexists; reflexivity.
Qed.

Lemma is_zero_finite x : is_zero x = true -> is_finite x = true.
Proof.
  rewrite is_zero_SF, is_finite_SF. intros H; left; exact H.
Qed.

Lemma clamp_step_zero m v :
  (m <? 0) = false -> is_zero v = true -> is_zero (clamp_step m v) = true.
Proof.
  intros Hm Hv. unfold clamp_step.
  pose proof Hv as Hv'. rewrite is_zero_ford in Hv'.
  rewrite ltb_ford, ford_zero in Hm.
  destruct (m <? v) eqn:E1.
  - exfalso. rewrite ltb_ford, Hv' in E1.
    destruct (ford m); [|discriminate].
    rewrite Z.ltb_lt in E1. rewrite Z.ltb_ge in Hm. lia.
  - destruct (v <? - m) eqn:E2; [|exact Hv].
    exfalso. rewrite ltb_ford, ford_opp, Hv' in E2.
    destruct (ford m); [|discriminate]. cbn [option_map] in E2.
    rewrite Z.ltb_lt in E2. rewrite Z.ltb_ge in Hm. lia.
Qed.

Lemma clamp_step_nan m v : is_nan v = true -> clamp_step m v = v.
Proof.
  intro H. apply is_nan_ford in H. unfold clamp_step.
  rewrite !ltb_ford, H. destruct (ford m); [reflexivity|].
  destruct (ford (- m)); reflexivity.
Qed.

Lemma clamp_step_bounded m v :
  (0 <=? m) = true -> is_nan (clamp_step m v) = false ->
  (abs (clamp_step m v) <=? m) = true.
Proof.
  intros Hm Hn. apply clamp_step_bound; [exact Hm|].
  destruct (is_nan v) eqn:E; [|reflexivity].
  rewrite (clamp_step_nan m v E) in Hn. congruence.
Qed.

Lemma ford_finite_bound x n :
  is_finite x = true -> ford x = Some n -> (Z.abs n <= ord_max)%Z.
Proof.
  intros F E. unfold ford in E. pose proof (Prim2SF_valid x) as V.
  apply is_finite_SF in F.
  destruct F as [(s & H)|(s & m & e & H)]; rewrite H in *; cbn [SFord] in E;
    apply some_eq in E; subst n.
  - unfold ord_max. cbn. lia.
  - cbn [valid_binary] in V.
    pose proof (bounded_inv _ _ V) as (He & Hd & _).
    pose proof (digits2_bounds m) as [_ U].
    assert (Zpos m < 2 ^ 53)%Z.
    { eapply Z.lt_le_trans; [exact U|]. apply Z.pow_le_mono_r; lia. }
    assert (0 < 2 ^ (e + 1074))%Z by (apply pow2_pos; lia).
    assert (2 ^ (e + 1074) <= 2 ^ 2045)%Z by (apply Z.pow_le_mono_r; lia).
    unfold ord_max. destruct s; cbn [cond_Zopp]; nia.
Qed.

(** [1.0 - a] does not overflow. *)
Lemma one_minus_finite a : is_finite a = true -> is_finite (1.0 - a) = true.
Proof.
  intro F.
  destruct (sub_ford 1.0 a eq_refl F) as (n1 & na & E1 & Ea & E).
  pose proof (ford_finite_bound a na F Ea) as B.
  assert (N1 : n1 = (2 ^ 1074)%Z).
  { apply some_eq. rewrite <- E1. vm_compute. reflexivity. }
  subst n1.
  apply is_finite_ford. eexists. split; [exact E|].
  pose proof (ord_round_mono (2 ^ 1074 - na) (2 ^ 1074 + ord_max) ltac:(lia)) as Up.
  pose proof (ord_round_mono (2 ^ 1074 - ord_max) (2 ^ 1074 - na) ltac:(lia)) as Lo.
  assert (V1 : (ord_round (2 ^ 1074 + ord_max) <? ord_inf)%Z = true)
    by (vm_compute; reflexivity).
  assert (V2 : (- ord_inf <? ord_round (2 ^ 1074 - ord_max))%Z = true)
    by (vm_compute; reflexivity).
  apply Z.ltb_lt in V1, V2. lia.
Qed.

(** The exponential smoothing of a zero input into a zero velocity. *)
Lemma spec_velocity_zero a v c :
  is_finite a = true ->
  is_zero v = true -> is_zero c = true ->
  is_zero (spec_velocity a v c) = true.
Proof.
  intros Ha Hv Hc. unfold spec_velocity.
  apply add_zero; apply mul_zero_r; try assumption.
  apply one_minus_finite. exact Ha.
Qed.

(** ** The pointer controllers *)

(** Destruct every [if] and [match] scrutinee in the goal. *)
Ltac branches :=
  repeat match goal with
         | |- context [if ?b then _ else _] => destruct b eqn:?
         | |- context [match ?x with _ => _ end] => destruct x eqn:?
         end.


(** ** Calibration, for any controller

    The three controllers open [update_mems] the same way: guards, then the
    accumulation of the first [N] accepted samples, then the rest.  The facts
    of this section hold of any update function with that shape; they are
    instantiated axis by axis below. *)

Section Calibration.

Context {S : Type}.
Variable upd : S -> list MEMSData -> float -> S * output.
Variable accepted : list MEMSData -> option Point3D.
Variable N : Z.
Variable count : S -> Z.

Hypothesis rejected : forall st data now,
  accepted data = None -> upd st data now = (st, Silent).

Hypothesis calibrating : forall st data now s,
  accepted data = Some s -> (count st < N)%Z ->
  count (fst (upd st data now)) = (count st + 1)%Z /\
  snd (upd st data now)
    = (if (count st + 1 =? N)%Z then NeutralCaptured else Silent).

Hypothesis locked : forall st data now,
  (N <= count st)%Z ->
  count (fst (upd st data now)) = count st /\
  snd (upd st data now) <> NeutralCaptured.

Lemma run_mems_cons st data now rest :
  run_mems upd st ((data, now) :: rest) =
  (fst (run_mems upd (fst (upd st data now)) rest),
   snd (upd st data now) :: snd (run_mems upd (fst (upd st data now)) rest)).
Proof.
  cbn [run_mems]. destruct (upd st data now) as [st1 o]. cbn [fst snd].
  destruct (run_mems upd st1 rest) as [st2 os]. reflexivity.
Qed.

Lemma samples_cons data now rest :
  accepted_samples accepted ((data, now) :: rest) =
  match accepted data with
  | Some s => s :: accepted_samples accepted rest
  | None => accepted_samples accepted rest
  end.
Proof.
  unfold accepted_samples. cbn [flat_map fst].
  destruct (accepted data); reflexivity.
Qed.

Lemma lock_reports_cons o outs :
  lock_reports (o :: outs) =
  ((if is_lock_report o then 1 else 0) + lock_reports outs)%nat.
Proof.
  unfold lock_reports. cbn [filter]. destruct (is_lock_report o); reflexivity.
Qed.

(** Packets without an accepted sample leave the controller as it is. *)
Lemma run_all_rejected packets :
  forall st, accepted_samples accepted packets = [] ->
    fst (run_mems upd st packets) = st /\ Forall (eq Silent) (snd (run_mems upd st packets)).
Proof.
  induction packets as [|[data now] rest IH]; intros st H.
  - split; [reflexivity | constructor].
  - rewrite samples_cons in H. rewrite run_mems_cons. cbn [fst snd].
    destruct (accepted data) eqn:A; [discriminate|].
    rewrite (rejected st data now A). cbn [fst snd].
    destruct (IH st H) as [IH1 IH2]. split; [exact IH1|].
    constructor; [reflexivity | exact IH2].
Qed.

Lemma silent_no_report outs :
  Forall (eq Silent) outs -> lock_reports outs = 0%nat.
Proof.
  induction 1 as [|o outs Ho _ IH]; [reflexivity|].
  rewrite lock_reports_cons, IH, <- Ho. reflexivity.
Qed.

(** After the lock, no call reports it again. *)
Lemma run_locked packets :
  forall st, (N <= count st)%Z -> lock_reports (snd (run_mems upd st packets)) = 0%nat.
Proof.
  induction packets as [|[data now] rest IH]; intros st H; [reflexivity|].
  rewrite run_mems_cons. cbn [snd]. rewrite lock_reports_cons.
  destruct (locked st data now H) as [Hc Ho].
  rewrite IH by lia.
  destruct (snd (upd st data now)); cbn [is_lock_report]; first [reflexivity | congruence].
Qed.

(** Before the lock, every call is silent. *)
Lemma run_warming packets :
  forall st,
    (count st + Z.of_nat (length (accepted_samples accepted packets)) < N)%Z ->
    Forall (eq Silent) (snd (run_mems upd st packets)).
Proof.
  induction packets as [|[data now] rest IH]; intros st H; [constructor|].
  rewrite samples_cons in H. rewrite run_mems_cons. cbn [snd].
  destruct (accepted data) as [s|] eqn:A.
  - cbn [length] in H.
    destruct (calibrating st data now s A ltac:(lia)) as [Hc Ho].
    constructor.
    + rewrite Ho. destruct (Z.eqb_spec (count st + 1) N); [lia | reflexivity].
    + apply IH. lia.
  - rewrite (rejected st data now A). cbn [fst snd].
    constructor; [reflexivity | apply IH; exact H].
Qed.

(** Once [N] samples have been accepted, the lock has been reported once. *)
Lemma run_reports_once packets :
  forall st,
    (count st < N)%Z ->
    (N <= count st + Z.of_nat (length (accepted_samples accepted packets)))%Z ->
    lock_reports (snd (run_mems upd st packets)) = 1%nat.
Proof.
  induction packets as [|[data now] rest IH]; intros st Hlt H.
  - cbn [accepted_samples flat_map length] in H. lia.
  - rewrite samples_cons in H. rewrite run_mems_cons. cbn [snd].
    rewrite lock_reports_cons.
    destruct (accepted data) as [s|] eqn:A.
    + cbn [length] in H.
      destruct (calibrating st data now s A Hlt) as [Hc Ho]. rewrite Ho.
      destruct (Z.eqb_spec (count st + 1) N) as [E|E]; cbn [is_lock_report].
      * rewrite run_locked by lia. reflexivity.
      * rewrite IH by lia. reflexivity.
    + rewrite (rejected st data now A). cbn [fst snd is_lock_report].
      rewrite IH by assumption. reflexivity.
Qed.

Section Axis.

Variable accum neutral : S -> float.
Variable axis : Point3D -> float.

Hypothesis calibrating_axis : forall st data now s,
  accepted data = Some s -> (count st < N)%Z ->
  accum (fst (upd st data now)) = accum st + axis s /\
  neutral (fst (upd st data now))
    = (if (count st + 1 =? N)%Z
       then (accum st + axis s) / float_of_int N
       else neutral st).

(** When the run accepts just enough samples to reach [N], the neutral is
    the accumulated sum over [float(N)]. *)
Lemma run_axis packets :
  forall st,
    (count st < N)%Z ->
    (count st + Z.of_nat (length (accepted_samples accepted packets)) = N)%Z ->
    neutral (fst (run_mems upd st packets))
      = fold_left add (map axis (accepted_samples accepted packets)) (accum st) / float_of_int N.
Proof.
  induction packets as [|[data now] rest IH]; intros st Hlt H.
  - cbn [accepted_samples flat_map length] in H. lia.
  - rewrite samples_cons in *. rewrite run_mems_cons. cbn [fst].
    destruct (accepted data) as [s|] eqn:A.
    + cbn [length] in H. cbn [map fold_left].
      destruct (calibrating st data now s A Hlt) as [Hc _].
      destruct (calibrating_axis st data now s A Hlt) as [Ha Hn].
      destruct (Z.eqb_spec (count st + 1) N) as [E|E].
      * assert (Hnil : accepted_samples accepted rest = []).
        { destruct (accepted_samples accepted rest); [reflexivity | cbn [length] in H; lia]. }
        destruct (run_all_rejected rest (fst (upd st data now)) Hnil) as [Hst _].
        rewrite Hst, Hn, Hnil. reflexivity.
      * rewrite IH by lia. rewrite Ha. reflexivity.
    + rewrite (rejected st data now A). cbn [fst]. apply IH; assumption.
Qed.

End Axis.

End Calibration.

(** ** GyroMouseOnlineMode *)

Module OnlineFacts.
Import GyroMouseOnlineMode.

(** A move comes out of the clamp. *)
Lemma online_update_mems_move cfg st data now st' dx dy :
  update_mems cfg st data now = (st', MoveRel dx dy) ->
  exists a b, dx = clamp_step (max_step_px cfg) a /\
              dy = clamp_step (max_step_px cfg) b.
Proof.
  unfold update_mems, jitter_then_still, still_then_center, center_then_shape,
    shape, emit_move.
  cbv zeta beta. branches; intro H; try discriminate H;
    injection H as _ <- <-; eexists; eexists; split; reflexivity.
Qed.

Lemma online_rejected cfg st data now :
  accepted data = None -> update_mems cfg st data now = (st, Silent).
Proof.
  unfold accepted, update_mems. destruct data as [|d0 rest]; [reflexivity|].
  cbv zeta. destruct (Gyroscope (last rest d0)) as [gyr|]; [|reflexivity].
  destruct (isfinite (pt_X gyr) && isfinite (pt_Z gyr)); [discriminate|reflexivity].
Qed.

Lemma online_rate_limited cfg st data now :
  (accum_count st <? neutral_samples cfg)%Z = false ->
  (now - last_update_ts st <? update_interval_sec cfg) = true ->
  update_mems cfg st data now = (st, Silent).
Proof.
  intros Hc Hr. unfold update_mems. destruct data as [|d0 rest]; [reflexivity|].
  cbv zeta. destruct (Gyroscope (last rest d0)) as [gyr|]; [|reflexivity].
  destruct (negb _); [reflexivity|]. rewrite Hc, Hr. reflexivity.
Qed.

Lemma online_calibrating cfg st data now s :
  accepted data = Some s ->
  (accum_count st < neutral_samples cfg)%Z ->
  accum_count (fst (update_mems cfg st data now)) = (accum_count st + 1)%Z /\
  snd (update_mems cfg st data now)
    = (if (accum_count st + 1 =? neutral_samples cfg)%Z
       then NeutralCaptured else Silent).
Proof.
  unfold accepted, update_mems. destruct data as [|d0 rest]; [discriminate|].
  cbv zeta. destruct (Gyroscope (last rest d0)) as [gyr|]; [|discriminate].
  destruct (isfinite (pt_X gyr) && isfinite (pt_Z gyr)); [|discriminate].
  intros _ H. apply Z.ltb_lt in H. rewrite H. cbn [negb accum_count set_accum].
  destruct (_ =? _)%Z; split; reflexivity.
Qed.

Lemma online_calibrating_gx cfg st data now s :
  accepted data = Some s ->
  (accum_count st < neutral_samples cfg)%Z ->
  accum_gx (fst (update_mems cfg st data now)) = accum_gx st + pt_X s /\
  neutral_gx (fst (update_mems cfg st data now))
    = (if (accum_count st + 1 =? neutral_samples cfg)%Z
       then (accum_gx st + pt_X s) / float_of_int (neutral_samples cfg)
       else neutral_gx st).
Proof.
  unfold accepted, update_mems. destruct data as [|d0 rest]; [discriminate|].
  cbv zeta. destruct (Gyroscope (last rest d0)) as [gyr|]; [|discriminate].
  destruct (isfinite (pt_X gyr) && isfinite (pt_Z gyr)); [|discriminate].
  intros [= <-] H. apply Z.ltb_lt in H. rewrite H. cbn [negb accum_count set_accum].
  destruct (Z.eqb_spec (accum_count st + 1) (neutral_samples cfg)) as [E|E];
    [rewrite E|]; split; reflexivity.
Qed.

Lemma online_calibrating_gz cfg st data now s :
  accepted data = Some s ->
  (accum_count st < neutral_samples cfg)%Z ->
  accum_gz (fst (update_mems cfg st data now)) = accum_gz st + pt_Z s /\
  neutral_gz (fst (update_mems cfg st data now))
    = (if (accum_count st + 1 =? neutral_samples cfg)%Z
       then (accum_gz st + pt_Z s) / float_of_int (neutral_samples cfg)
       else neutral_gz st).
Proof.
  unfold accepted, update_mems. destruct data as [|d0 rest]; [discriminate|].
  cbv zeta. destruct (Gyroscope (last rest d0)) as [gyr|]; [|discriminate].
  destruct (isfinite (pt_X gyr) && isfinite (pt_Z gyr)); [|discriminate].
  intros [= <-] H. apply Z.ltb_lt in H. rewrite H. cbn [negb accum_count set_accum].
  destruct (Z.eqb_spec (accum_count st + 1) (neutral_samples cfg)) as [E|E];
    [rewrite E|]; split; reflexivity.
Qed.

Lemma online_after_lock cfg st data now :
  (neutral_samples cfg <= accum_count st)%Z ->
  accum_count (fst (update_mems cfg st data now)) = accum_count st /\
  snd (update_mems cfg st data now) <> NeutralCaptured.
Proof.
  intro H. apply Z.ltb_ge in H.
  unfold update_mems, jitter_then_still, still_then_center, center_then_shape,
    shape, emit_move.
  cbv zeta beta. rewrite H.
  branches; cbn; split; first [reflexivity | discriminate].
Qed.

End OnlineFacts.

(** ** GyroMouseMode *)

Module GyroFacts.
Import GyroMouseMode.

Section WithPow.

Variable fpow : float -> float -> option float.

(** A move comes out of the clamp. *)
Lemma gyro_update_mems_move cfg st data now st' dx dy :
  update_mems fpow cfg st data now = (st', MoveRel dx dy) ->
  exists a b, dx = clamp_step (max_step_px cfg) a /\
              dy = clamp_step (max_step_px cfg) b.
Proof.
  unfold update_mems, still_then_center, center_then_shape, shape, emit_move.
  cbv zeta beta. branches; intro H; try discriminate H;
    injection H as _ <- <-; eexists; eexists; split; reflexivity.
Qed.

Lemma gyro_rejected cfg st data now :
  accepted data = None -> update_mems fpow cfg st data now = (st, Silent).
Proof.
  unfold accepted, update_mems. destruct data as [|d0 rest]; [reflexivity|].
  cbv zeta. destruct (Gyroscope (last rest d0)) as [gyr|]; [|reflexivity].
  destruct (isfinite (pt_X gyr) && isfinite (pt_Z gyr)); [discriminate|reflexivity].
Qed.

Lemma gyro_rate_limited cfg st data now :
  (accum_count st <? neutral_samples cfg)%Z = false ->
  (now - last_update_ts st <? update_interval_sec cfg) = true ->
  update_mems fpow cfg st data now = (st, Silent).
Proof.
  intros Hc Hr. unfold update_mems. destruct data as [|d0 rest]; [reflexivity|].
  cbv zeta. destruct (Gyroscope (last rest d0)) as [gyr|]; [|reflexivity].
  destruct (negb _); [reflexivity|]. rewrite Hc, Hr. reflexivity.
Qed.

Lemma gyro_calibrating cfg st data now s :
  accepted data = Some s ->
  (accum_count st < neutral_samples cfg)%Z ->
  accum_count (fst (update_mems fpow cfg st data now)) = (accum_count st + 1)%Z /\
  snd (update_mems fpow cfg st data now)
    = (if (accum_count st + 1 =? neutral_samples cfg)%Z
       then NeutralCaptured else Silent).
Proof.
  unfold accepted, update_mems. destruct data as [|d0 rest]; [discriminate|].
  cbv zeta. destruct (Gyroscope (last rest d0)) as [gyr|]; [|discriminate].
  destruct (isfinite (pt_X gyr) && isfinite (pt_Z gyr)); [|discriminate].
  intros _ H. apply Z.ltb_lt in H. rewrite H. cbn [negb accum_count set_accum].
  destruct (_ =? _)%Z; split; reflexivity.
Qed.

Lemma gyro_calibrating_gx cfg st data now s :
  accepted data = Some s ->
  (accum_count st < neutral_samples cfg)%Z ->
  accum_gx (fst (update_mems fpow cfg st data now)) = accum_gx st + pt_X s /\
  neutral_gx (fst (update_mems fpow cfg st data now))
    = (if (accum_count st + 1 =? neutral_samples cfg)%Z
       then (accum_gx st + pt_X s) / float_of_int (neutral_samples cfg)
       else neutral_gx st).
Proof.
  unfold accepted, update_mems. destruct data as [|d0 rest]; [discriminate|].
  cbv zeta. destruct (Gyroscope (last rest d0)) as [gyr|]; [|discriminate].
  destruct (isfinite (pt_X gyr) && isfinite (pt_Z gyr)); [|discriminate].
  intros [= <-] H. apply Z.ltb_lt in H. rewrite H. cbn [negb accum_count set_accum].
  destruct (Z.eqb_spec (accum_count st + 1) (neutral_samples cfg)) as [E|E];
    [rewrite E|]; split; reflexivity.
Qed.

Lemma gyro_calibrating_gz cfg st data now s :
  accepted data = Some s ->
  (accum_count st < neutral_samples cfg)%Z ->
  accum_gz (fst (update_mems fpow cfg st data now)) = accum_gz st + pt_Z s /\
  neutral_gz (fst (update_mems fpow cfg st data now))
    = (if (accum_count st + 1 =? neutral_samples cfg)%Z
       then (accum_gz st + pt_Z s) / float_of_int (neutral_samples cfg)
       else neutral_gz st).
Proof.
  unfold accepted, update_mems. destruct data as [|d0 rest]; [discriminate|].
  cbv zeta. destruct (Gyroscope (last rest d0)) as [gyr|]; [|discriminate].
  destruct (isfinite (pt_X gyr) && isfinite (pt_Z gyr)); [|discriminate].
  intros [= <-] H. apply Z.ltb_lt in H. rewrite H. cbn [negb accum_count set_accum].
  destruct (Z.eqb_spec (accum_count st + 1) (neutral_samples cfg)) as [E|E];
    [rewrite E|]; split; reflexivity.
Qed.

Lemma gyro_after_lock cfg st data now :
  (neutral_samples cfg <= accum_count st)%Z ->
  accum_count (fst (update_mems fpow cfg st data now)) = accum_count st /\
  snd (update_mems fpow cfg st data now) <> NeutralCaptured.
Proof.
  intro H. apply Z.ltb_ge in H.
  unfold update_mems, still_then_center, center_then_shape, shape, emit_move.
  cbv zeta beta. rewrite H.
  branches; cbn; split; first [reflexivity | discriminate].
Qed.

End WithPow.

End GyroFacts.

(** ** MemsMouseMode *)

Module MemsFacts.
Import MemsMouseMode.

Section WithPow.

Variable fpow : float -> float -> option float.

(** A move comes out of the clamp. *)
Lemma project_move cfg st ax ay st' dx dy :
  project cfg st ax ay = (st', MoveRel dx dy) ->
  exists a b, dx = clamp_step (max_step_px cfg) a /\
              dy = clamp_step (max_step_px cfg) b.
Proof.
  unfold project, emit_move. cbv zeta beta.
  branches; intro H; try discriminate H;
    injection H as _ <- <-; eexists; eexists; split; reflexivity.
Qed.

Lemma smooth_move cfg st ax ay st' dx dy :
  smooth fpow cfg st ax ay = (st', MoveRel dx dy) ->
  exists a b, dx = clamp_step (max_step_px cfg) a /\
              dy = clamp_step (max_step_px cfg) b.
Proof.
  unfold smooth. cbv zeta.
  destruct (joystick_curve fpow _ _); [|discriminate].
  destruct (joystick_curve fpow _ _); [|discriminate].
  apply project_move.
Qed.

Lemma mems_update_mems_move cfg st data now st' dx dy :
  update_mems fpow cfg st data now = (st', MoveRel dx dy) ->
  exists a b, dx = clamp_step (max_step_px cfg) a /\
              dy = clamp_step (max_step_px cfg) b.
Proof.
  unfold update_mems, still_then_shape, shape.
  cbv zeta beta.
  branches; try (intro H; discriminate H); apply smooth_move.
Qed.

Lemma mems_rejected cfg st data now :
  accepted data = None -> update_mems fpow cfg st data now = (st, Silent).
Proof.
  unfold accepted, update_mems. destruct data as [|d0 rest]; [reflexivity|].
  cbv zeta. destruct (Accelerometer (last rest d0)) as [acc|]; [|reflexivity].
  destruct (isfinite (pt_X acc) && isfinite (pt_Y acc) && isfinite (pt_Z acc));
    [discriminate|].
  intros _. destruct (Gyroscope (last rest d0)); reflexivity.
Qed.

Lemma mems_rate_limited cfg st data now :
  (accum_count st <? neutral_samples cfg)%Z = false ->
  (now - last_update_ts st <? update_interval_sec cfg) = true ->
  update_mems fpow cfg st data now = (st, Silent).
Proof.
  intros Hc Hr. unfold update_mems. destruct data as [|d0 rest]; [reflexivity|].
  cbv zeta. destruct (Accelerometer (last rest d0)) as [acc|]; [|reflexivity].
  destruct (Gyroscope (last rest d0));
    (destruct (negb _); [reflexivity|]; rewrite Hc, Hr; reflexivity).
Qed.

Lemma mems_calibrating cfg st data now s :
  accepted data = Some s ->
  (accum_count st < neutral_samples cfg)%Z ->
  accum_count (fst (update_mems fpow cfg st data now)) = (accum_count st + 1)%Z /\
  snd (update_mems fpow cfg st data now)
    = (if (accum_count st + 1 =? neutral_samples cfg)%Z
       then NeutralCaptured else Silent).
Proof.
  unfold accepted, update_mems. destruct data as [|d0 rest]; [discriminate|].
  cbv zeta. destruct (Accelerometer (last rest d0)) as [acc|]; [|discriminate].
  destruct (isfinite (pt_X acc) && isfinite (pt_Y acc) && isfinite (pt_Z acc));
    [|discriminate].
  intros _ H. apply Z.ltb_lt in H.
  destruct (Gyroscope (last rest d0)); rewrite H;
    cbn [negb accum_count set_accum];
    (destruct (_ =? _)%Z; split; reflexivity).
Qed.

Lemma mems_calibrating_x cfg st data now s :
  accepted data = Some s ->
  (accum_count st < neutral_samples cfg)%Z ->
  accum_x (fst (update_mems fpow cfg st data now)) = accum_x st + pt_X s /\
  neutral_x (fst (update_mems fpow cfg st data now))
    = (if (accum_count st + 1 =? neutral_samples cfg)%Z
       then (accum_x st + pt_X s) / float_of_int (neutral_samples cfg)
       else neutral_x st).
Proof.
  unfold accepted, update_mems. destruct data as [|d0 rest]; [discriminate|].
  cbv zeta. destruct (Accelerometer (last rest d0)) as [acc|]; [|discriminate].
  destruct (isfinite (pt_X acc) && isfinite (pt_Y acc) && isfinite (pt_Z acc));
    [|discriminate].
  intros [= <-] H. apply Z.ltb_lt in H.
  destruct (Gyroscope (last rest d0)) as [gyr|]; rewrite H;
    cbn [negb accum_count set_accum];
    (destruct (Z.eqb_spec (accum_count st + 1) (neutral_samples cfg)) as [E|E];
     [rewrite E|]; split; reflexivity).
Qed.

Lemma mems_calibrating_y cfg st data now s :
  accepted data = Some s ->
  (accum_count st < neutral_samples cfg)%Z ->
  accum_y (fst (update_mems fpow cfg st data now)) = accum_y st + pt_Y s /\
  neutral_y (fst (update_mems fpow cfg st data now))
    = (if (accum_count st + 1 =? neutral_samples cfg)%Z
       then (accum_y st + pt_Y s) / float_of_int (neutral_samples cfg)
       else neutral_y st).
Proof.
  unfold accepted, update_mems. destruct data as [|d0 rest]; [discriminate|].
  cbv zeta. destruct (Accelerometer (last rest d0)) as [acc|]; [|discriminate].
  destruct (isfinite (pt_X acc) && isfinite (pt_Y acc) && isfinite (pt_Z acc));
    [|discriminate].
  intros [= <-] H. apply Z.ltb_lt in H.
  destruct (Gyroscope (last rest d0)) as [gyr|]; rewrite H;
    cbn [negb accum_count set_accum];
    (destruct (Z.eqb_spec (accum_count st + 1) (neutral_samples cfg)) as [E|E];
     [rewrite E|]; split; reflexivity).
Qed.

Lemma mems_calibrating_z cfg st data now s :
  accepted data = Some s ->
  (accum_count st < neutral_samples cfg)%Z ->
  accum_z (fst (update_mems fpow cfg st data now)) = accum_z st + pt_Z s /\
  neutral_z (fst (update_mems fpow cfg st data now))
    = (if (accum_count st + 1 =? neutral_samples cfg)%Z
       then (accum_z st + pt_Z s) / float_of_int (neutral_samples cfg)
       else neutral_z st).
Proof.
  unfold accepted, update_mems. destruct data as [|d0 rest]; [discriminate|].
  cbv zeta. destruct (Accelerometer (last rest d0)) as [acc|]; [|discriminate].
  destruct (isfinite (pt_X acc) && isfinite (pt_Y acc) && isfinite (pt_Z acc));
    [|discriminate].
  intros [= <-] H. apply Z.ltb_lt in H.
  destruct (Gyroscope (last rest d0)) as [gyr|]; rewrite H;
    cbn [negb accum_count set_accum];
    (destruct (Z.eqb_spec (accum_count st + 1) (neutral_samples cfg)) as [E|E];
     [rewrite E|]; split; reflexivity).
Qed.

Lemma mems_smooth_locked cfg st ax ay :
  accum_count (fst (smooth fpow cfg st ax ay)) = accum_count st /\
  snd (smooth fpow cfg st ax ay) <> NeutralCaptured.
Proof.
  unfold smooth, project, emit_move. cbv zeta beta.
  branches; cbn; split; first [reflexivity | discriminate].
Qed.

Lemma mems_after_lock cfg st data now :
  (neutral_samples cfg <= accum_count st)%Z ->
  accum_count (fst (update_mems fpow cfg st data now)) = accum_count st /\
  snd (update_mems fpow cfg st data now) <> NeutralCaptured.
Proof.
  intro H. apply Z.ltb_ge in H.
  assert (S : forall st' ax ay,
             accum_count st' = accum_count st ->
             accum_count (fst (shape fpow cfg st' ax ay)) = accum_count st /\
             snd (shape fpow cfg st' ax ay) <> NeutralCaptured).
  { intros st' ax ay E. unfold shape.
    destruct (mems_smooth_locked cfg (recenter cfg st' ax ay) ax ay) as [-> N].
    split; [|exact N]. rewrite <- E. unfold recenter. cbv zeta.
    destruct (_ && _); reflexivity. }
  unfold update_mems. destruct data as [|d0 rest]; [split; [reflexivity|discriminate]|].
  cbv zeta.
  destruct (Accelerometer (last rest d0)) as [acc|]; [|split; [reflexivity|discriminate]].
  destruct (Gyroscope (last rest d0)) as [gyr|];
    (destruct (negb _); [split; [reflexivity|discriminate]|]);
    rewrite H;
    (destruct (_ <? update_interval_sec cfg); [split; [reflexivity|discriminate]|]);
    (destruct (near_gyro_neutral _ _ _ _ _); [split; [reflexivity|discriminate]|]);
    unfold still_then_shape; cbv zeta;
    (destruct (_ && _); [|apply S; reflexivity]);
    (destruct (_ && _); [split; [reflexivity|discriminate] | apply S; reflexivity]).
Qed.

End WithPow.

End MemsFacts.

(** ** Zero velocities through the projection *)

Lemma is_zero_0 : is_zero 0.0 = true.
Proof. reflexivity. Qed.

Create HintDb fzero.
#[local] Hint Resolve clamp_step_zero mul_zero_l mul_zero_r add_zero opp_zero
  is_zero_0 spec_velocity_zero is_zero_finite : fzero.

Module ShapingFacts.

Lemma deadzone_below_M dz raw :
  (abs raw <? dz) = true -> MemsMouseMode.deadzone dz raw = 0.0.
Proof. intro H. unfold MemsMouseMode.deadzone. rewrite H. reflexivity. Qed.

Lemma deadzone_below_O dz raw :
  (abs raw <? dz) = true -> GyroMouseOnlineMode.deadzone dz raw = 0.0.
Proof. intro H. unfold GyroMouseOnlineMode.deadzone. rewrite H. reflexivity. Qed.

Lemma deadzone_below_G dz raw :
  (abs raw <? dz) = true -> GyroMouseMode.deadzone dz raw = 0.0.
Proof. intro H. unfold GyroMouseMode.deadzone. rewrite H. reflexivity. Qed.

Lemma curve_zero_M fpow dz v :
  is_zero v = true -> MemsMouseMode.joystick_curve fpow dz v = Some 0.0.
Proof.
  intro H. unfold MemsMouseMode.joystick_curve.
  change (v =? 0) with (is_zero v). rewrite H. reflexivity.
Qed.

Lemma curve_zero_G fpow v :
  is_zero v = true -> GyroMouseMode.joystick_curve fpow v = Some 0.0.
Proof.
  intro H. unfold GyroMouseMode.joystick_curve.
  change (v =? 0) with (is_zero v). rewrite H. reflexivity.
Qed.

Section Mems.
Import MemsMouseMode.

Lemma project_zero_x cfg st ax ay st' px py :
  is_zero (vx_g st) = true ->
  is_finite (sensitivity_x cfg) = true -> is_finite (sensitivity_y cfg) = true ->
  (max_step_px cfg <? 0) = false ->
  project cfg st ax ay = (st', MoveRel px py) ->
  is_zero (if swap_axes cfg then py else px) = true.
Proof.
  intros Hv Hsx Hsy Hm. unfold project, emit_move. cbv zeta beta.
  branches; intro H; try discriminate H; injection H as _ <- <-;
    auto 8 with fzero.
Qed.

Lemma project_zero_y cfg st ax ay st' px py :
  is_zero (vy_g st) = true ->
  is_finite (sensitivity_x cfg) = true -> is_finite (sensitivity_y cfg) = true ->
  (max_step_px cfg <? 0) = false ->
  project cfg st ax ay = (st', MoveRel px py) ->
  is_zero (if swap_axes cfg then px else py) = true.
Proof.
  intros Hv Hsx Hsy Hm. unfold project, emit_move. cbv zeta beta.
  branches; intro H; try discriminate H; injection H as _ <- <-;
    auto 8 with fzero.
Qed.

End Mems.

End ShapingFacts.

(** ** The claims about the pointer controllers *)

Module ControllerClaims.

Import Examples.

(** C4, as stated, fails: the dead zone zeroes the deviation, not the
    displacement.  [GyroMouseOnlineMode] with its default configuration, locked
    on a zero neutral and still carrying a horizontal velocity of 5, receives
    a horizontal deviation of 1.5, which is below the dead zone of 2; the call
    moves the pointer by about -7.6 pixels horizontally. *)
Lemma deadzone_keeps_prior_velocity :
  (abs (1.5 - GyroMouseOnlineMode.neutral_gz (online_locked 5.0))
     <? GyroMouseOnlineMode.deadzone_deg GyroMouseOnlineMode.default_config) = true /\
  snd (GyroMouseOnlineMode.update_mems GyroMouseOnlineMode.default_config
         (online_locked 5.0) (gyro_packet 0.0 1.5) 1000.0)
    = MoveRel (-7.5999999999999979) (-0.0) /\
  is_zero (-7.5999999999999979) = false.
Proof. vm_compute. repeat split; reflexivity. Qed.

(** C4, amended.  In the shaping step of every variant, an axis whose
    deviation is below the dead zone enters the smoothing as exactly 0; when
    the velocity stored for that axis is zero too, the smoothing weight and
    the sensitivities are finite and [max_step_px] is not negative, the
    displacement emitted on that axis is exactly zero. *)
Theorem deadzone_zero_from_rest :
  forall (fpow : float -> float -> option float),
    (forall cfg st ax ay st' px py,
        let a := MemsMouseMode.smooth_alpha cfg in
        is_finite a = true ->
        is_finite (MemsMouseMode.sensitivity_x cfg) = true ->
        is_finite (MemsMouseMode.sensitivity_y cfg) = true ->
        (MemsMouseMode.max_step_px cfg <? 0) = false ->
        MemsMouseMode.smooth fpow cfg st ax ay = (st', MoveRel px py) ->
        ((abs (ax - MemsMouseMode.neutral_x st) <? MemsMouseMode.deadzone_g cfg) = true ->
         is_zero (MemsMouseMode.vx_g st) = true ->
         is_zero (if MemsMouseMode.swap_axes cfg then py else px) = true) /\
        ((abs (ay - MemsMouseMode.neutral_y st) <? MemsMouseMode.deadzone_g cfg) = true ->
         is_zero (MemsMouseMode.vy_g st) = true ->
         is_zero (if MemsMouseMode.swap_axes cfg then px else py) = true)) /\
    (forall cfg st dx_deg dy_deg st' px py,
        let a := GyroMouseOnlineMode.smooth_alpha cfg in
        is_finite a = true ->
        is_finite (GyroMouseOnlineMode.sensitivity_x cfg) = true ->
        is_finite (GyroMouseOnlineMode.sensitivity_y cfg) = true ->
        (GyroMouseOnlineMode.max_step_px cfg <? 0) = false ->
        GyroMouseOnlineMode.shape cfg st dx_deg dy_deg = (st', MoveRel px py) ->
        ((abs dx_deg <? GyroMouseOnlineMode.deadzone_deg cfg) = true ->
         is_zero (GyroMouseOnlineMode.vx st) = true -> is_zero px = true) /\
        ((abs dy_deg <? GyroMouseOnlineMode.deadzone_deg cfg) = true ->
         is_zero (GyroMouseOnlineMode.vy st) = true -> is_zero py = true)) /\
    (forall cfg st dx_deg dy_deg st' px py,
        let a := GyroMouseMode.smooth_alpha cfg in
        is_finite a = true ->
        is_finite (GyroMouseMode.sensitivity_x cfg) = true ->
        is_finite (GyroMouseMode.sensitivity_y cfg) = true ->
        (GyroMouseMode.max_step_px cfg <? 0) = false ->
        GyroMouseMode.shape fpow cfg st dx_deg dy_deg = (st', MoveRel px py) ->
        ((abs dx_deg <? GyroMouseMode.deadzone_deg cfg) = true ->
         is_zero (GyroMouseMode.vx st) = true -> is_zero px = true) /\
        ((abs dy_deg <? GyroMouseMode.deadzone_deg cfg) = true ->
         is_zero (GyroMouseMode.vy st) = true -> is_zero py = true)).
Proof.
  intro fpow. split; [|split].
  - intros cfg st ax ay st' px py a Ha Hsx Hsy Hm H. subst a.
    unfold MemsMouseMode.smooth in H. cbv zeta in H.
    destruct (MemsMouseMode.joystick_curve fpow _ (MemsMouseMode.deadzone _ (ax - _)))
      as [cx|] eqn:Cx; [|discriminate H].
    destruct (MemsMouseMode.joystick_curve fpow _ (MemsMouseMode.deadzone _ (ay - _)))
      as [cy|] eqn:Cy; [|discriminate H].
    split; intros Hd Hv.
    + rewrite (ShapingFacts.deadzone_below_M _ _ Hd) in Cx.
      rewrite (ShapingFacts.curve_zero_M fpow _ _ is_zero_0) in Cx.
      injection Cx as <-.
      eapply ShapingFacts.project_zero_x; [| | | |exact H]; try assumption.
      cbn [MemsMouseMode.vx_g MemsMouseMode.set_velocity].
      apply spec_velocity_zero; auto with fzero.
    + rewrite (ShapingFacts.deadzone_below_M _ _ Hd) in Cy.
      rewrite (ShapingFacts.curve_zero_M fpow _ _ is_zero_0) in Cy.
      injection Cy as <-.
      eapply ShapingFacts.project_zero_y; [| | | |exact H]; try assumption.
      cbn [MemsMouseMode.vy_g MemsMouseMode.set_velocity].
      apply spec_velocity_zero; auto with fzero.
  - intros cfg st dx_deg dy_deg st' px py a Ha Hsx Hsy Hm H. subst a.
    unfold GyroMouseOnlineMode.shape, emit_move in H. cbv zeta in H.
    cbn [GyroMouseOnlineMode.vx GyroMouseOnlineMode.vy
         GyroMouseOnlineMode.set_velocity] in H.
    destruct (negb _ || negb _); [|discriminate H].
    injection H as _ <- <-.
    assert (F : is_finite 0.95 = true) by reflexivity.
    split; intros Hd Hv; rewrite (ShapingFacts.deadzone_below_O _ _ Hd);
      apply clamp_step_zero; try assumption;
      apply mul_zero_l; try assumption; apply opp_zero;
      apply mul_zero_l; try assumption;
      apply spec_velocity_zero; auto with fzero.
  - intros cfg st dx_deg dy_deg st' px py a Ha Hsx Hsy Hm H. subst a.
    unfold GyroMouseMode.shape, emit_move in H. cbv zeta in H.
    cbn [GyroMouseMode.vx GyroMouseMode.vy GyroMouseMode.set_velocity] in H.
    destruct (GyroMouseMode.joystick_curve fpow
                ((1.0 - _) * GyroMouseMode.vx st + _)) as [cx|] eqn:Cx;
      [|discriminate H].
    destruct (GyroMouseMode.joystick_curve fpow
                ((1.0 - _) * GyroMouseMode.vy st + _)) as [cy|] eqn:Cy;
      [|discriminate H].
    destruct (negb _ || negb _); [|discriminate H].
    injection H as _ <- <-.
    split; intros Hd Hv.
    + rewrite (ShapingFacts.deadzone_below_G _ _ Hd) in Cx.
      rewrite ShapingFacts.curve_zero_G in Cx
        by (apply spec_velocity_zero; auto with fzero).
      injection Cx as <-. auto 6 with fzero.
    + rewrite (ShapingFacts.deadzone_below_G _ _ Hd) in Cy.
      rewrite ShapingFacts.curve_zero_G in Cy
        by (apply spec_velocity_zero; auto with fzero).
      injection Cy as <-. auto 6 with fzero.
Qed.

(** The amended C4 at the default configuration of [GyroMouseOnlineMode], for
    a controller at rest and a deviation of 1.5 on one axis and 3 on the
    other. *)
Lemma deadzone_zero_from_rest_witness :
  exists st' px py,
    GyroMouseOnlineMode.shape GyroMouseOnlineMode.default_config
      (online_locked 0.0) 1.5 3.0 = (st', MoveRel px py) /\
    is_zero px = true.
Proof.
  pose (r := GyroMouseOnlineMode.shape GyroMouseOnlineMode.default_config
               (online_locked 0.0) 1.5 3.0).
  exists (fst r), (match snd r with MoveRel px _ => px | _ => 1.0 end),
    (match snd r with MoveRel _ py => py | _ => 1.0 end).
  assert (E : GyroMouseOnlineMode.shape GyroMouseOnlineMode.default_config
                (online_locked 0.0) 1.5 3.0
              = (fst r, MoveRel (match snd r with MoveRel px _ => px | _ => 1.0 end)
                                (match snd r with MoveRel _ py => py | _ => 1.0 end)))
    by (vm_compute; reflexivity).
  split; [exact E|].
  destruct (deadzone_zero_from_rest pow_sample) as (_ & O & _).
  refine (proj1 (O _ _ _ _ _ _ _ _ _ _ _ E) _ _); reflexivity.
Defined.

(** C1, as stated, fails for some configurations.  With [max_step_px = -1]
    the clamp of [GyroMouseOnlineMode] turns a displacement of about -18 into
    1, whose magnitude exceeds [max_step_px]; with [sensitivity_x = 0] and two
    samples far enough apart for their difference to overflow, the
    displacement is [inf * 0], a NaN that the clamp lets through. *)
Lemma step_bound_fails :
  (snd (GyroMouseOnlineMode.update_mems (online_config 8.0 50 (-1.0))
          (online_locked 0.0) (gyro_packet 0.0 3.0) 1000.0)
     = MoveRel 1.0 (-1.0) /\
   (abs 1.0 <=? -1.0) = false) /\
  (snd (run_mems (GyroMouseOnlineMode.update_mems (online_config 0.0 1 50.0))
          GyroMouseOnlineMode.init
          [(gyro_packet 0.0 (-1.7e308), 1000.0); (gyro_packet 0.0 1.7e308, 1001.0)])
     = [NeutralCaptured; MoveRel nan (-0.0)] /\
   (abs nan <=? 50.0) = false).
Proof. vm_compute. repeat split; reflexivity. Qed.

(** C1, amended.  When [max_step_px] is not negative (so not NaN either),
    each component of a displacement that a variant emits is NaN or has a
    magnitude of at most [max_step_px]. *)
Theorem emitted_step_bounded :
  forall (fpow : float -> float -> option float)
         (data : list MEMSData) (now dx dy : float),
    (forall cfg st st',
        MemsMouseMode.update_mems fpow cfg st data now = (st', MoveRel dx dy) ->
        (0 <=? MemsMouseMode.max_step_px cfg) = true ->
        (is_nan dx = false -> (abs dx <=? MemsMouseMode.max_step_px cfg) = true) /\
        (is_nan dy = false -> (abs dy <=? MemsMouseMode.max_step_px cfg) = true)) /\
    (forall cfg st st',
        GyroMouseMode.update_mems fpow cfg st data now = (st', MoveRel dx dy) ->
        (0 <=? GyroMouseMode.max_step_px cfg) = true ->
        (is_nan dx = false -> (abs dx <=? GyroMouseMode.max_step_px cfg) = true) /\
        (is_nan dy = false -> (abs dy <=? GyroMouseMode.max_step_px cfg) = true)) /\
    (forall cfg st st',
        GyroMouseOnlineMode.update_mems cfg st data now = (st', MoveRel dx dy) ->
        (0 <=? GyroMouseOnlineMode.max_step_px cfg) = true ->
        (is_nan dx = false ->
         (abs dx <=? GyroMouseOnlineMode.max_step_px cfg) = true) /\
        (is_nan dy = false ->
         (abs dy <=? GyroMouseOnlineMode.max_step_px cfg) = true)).
Proof.
  intros fpow data now dx dy. split; [|split]; intros cfg st st' H Hm.
  - destruct (MemsFacts.mems_update_mems_move fpow _ _ _ _ _ _ _ H) as (a & b & -> & ->).
    split; intro Hn; apply clamp_step_bounded; assumption.
  - destruct (GyroFacts.gyro_update_mems_move fpow _ _ _ _ _ _ _ H) as (a & b & -> & ->).
    split; intro Hn; apply clamp_step_bounded; assumption.
  - destruct (OnlineFacts.online_update_mems_move _ _ _ _ _ _ _ H) as (a & b & -> & ->).
    split; intro Hn; apply clamp_step_bounded; assumption.
Qed.

(** The amended C1 at the default configuration of [GyroMouseOnlineMode]: a
    deviation of 10 degrees per second is clamped to 50 pixels. *)
Lemma emitted_step_bounded_witness :
  snd (GyroMouseOnlineMode.update_mems GyroMouseOnlineMode.default_config
         (online_locked 0.0) (gyro_packet 0.0 10.0) 1000.0)
    = MoveRel (-50.0) (-0.0) /\
  (abs (-50.0) <=? 50.0) = true /\ (abs (-0.0) <=? 50.0) = true.
Proof.
  pose (r := GyroMouseOnlineMode.update_mems GyroMouseOnlineMode.default_config
               (online_locked 0.0) (gyro_packet 0.0 10.0) 1000.0).
  assert (E : GyroMouseOnlineMode.update_mems GyroMouseOnlineMode.default_config
                (online_locked 0.0) (gyro_packet 0.0 10.0) 1000.0
              = (fst r, MoveRel (-50.0) (-0.0))) by (vm_compute; reflexivity).
  split; [rewrite E; reflexivity|].
  destruct (emitted_step_bounded pow_sample (gyro_packet 0.0 10.0) 1000.0
              (-50.0) (-0.0)) as (_ & _ & O).
  destruct (O _ _ _ E eq_refl) as [Hx Hy].
  split; [apply Hx | apply Hy]; reflexivity.
Defined.

(** C6, as stated, fails at the classifier, which has no finiteness test: a
    NaN envelope sample is not below [left_threshold] and yields a left
    click; an infinite signal sample reaches every threshold and starts a
    drag.  Both calls change the detector. *)
Lemma nonfinite_emg_not_dropped :
  MuscleClick.update_from_envelope MuscleClick.default_config MuscleClick.init
    [MuscleClick.mkEnvelope nan] 1000.0
    = (MuscleClick.set_last_click_ts
         (MuscleClick.set_debug_printed_env MuscleClick.init true) 1000.0,
       Some MuscleClick.LeftClick) /\
  snd (MuscleClick.update_from_signal MuscleClick.default_config MuscleClick.init
         [MuscleClick.mkSignal [infinity]] 1000.0)
    = Some MuscleClick.DragStart /\
  MuscleClick.is_dragging
    (fst (MuscleClick.update_from_signal MuscleClick.default_config
            MuscleClick.init [MuscleClick.mkSignal [infinity]] 1000.0)) = true.
Proof. vm_compute. repeat split; reflexivity. Qed.

(** C6, amended.  Each controller drops a packet whose last sample has a
    non-finite value in a channel its finiteness test reads (the three
    accelerations for [MemsMouseMode], the X and Z rates for the gyroscope
    variants): the controller is unchanged and nothing is emitted, exactly as
    for a sample without that sensor. *)
Theorem nonfinite_guarded_channel_dropped :
  forall (fpow : float -> float -> option float)
         (d0 : MEMSData) (rest : list MEMSData) (now : float) (p : Point3D),
    (forall cfg st,
        Accelerometer (last rest d0) = Some p ->
        (isfinite (pt_X p) && isfinite (pt_Y p) && isfinite (pt_Z p)) = false ->
        MemsMouseMode.update_mems fpow cfg st (d0 :: rest) now = (st, Silent)) /\
    (forall cfg st,
        Accelerometer (last rest d0) = None ->
        MemsMouseMode.update_mems fpow cfg st (d0 :: rest) now = (st, Silent)) /\
    (forall cfg st,
        Gyroscope (last rest d0) = Some p ->
        (isfinite (pt_X p) && isfinite (pt_Z p)) = false ->
        GyroMouseMode.update_mems fpow cfg st (d0 :: rest) now = (st, Silent)) /\
    (forall cfg st,
        Gyroscope (last rest d0) = None ->
        GyroMouseMode.update_mems fpow cfg st (d0 :: rest) now = (st, Silent)) /\
    (forall cfg st,
        Gyroscope (last rest d0) = Some p ->
        (isfinite (pt_X p) && isfinite (pt_Z p)) = false ->
        GyroMouseOnlineMode.update_mems cfg st (d0 :: rest) now = (st, Silent)) /\
    (forall cfg st,
        Gyroscope (last rest d0) = None ->
        GyroMouseOnlineMode.update_mems cfg st (d0 :: rest) now = (st, Silent)).
Proof.
  intros fpow d0 rest now p. repeat split; intros cfg st H; try intros H'.
  - apply MemsFacts.mems_rejected. cbn [MemsMouseMode.accepted]. rewrite H, H'. reflexivity.
  - apply MemsFacts.mems_rejected. cbn [MemsMouseMode.accepted]. rewrite H. reflexivity.
  - apply GyroFacts.gyro_rejected. cbn [GyroMouseMode.accepted]. rewrite H, H'. reflexivity.
  - apply GyroFacts.gyro_rejected. cbn [GyroMouseMode.accepted]. rewrite H. reflexivity.
  - apply OnlineFacts.online_rejected. cbn [GyroMouseOnlineMode.accepted].
    rewrite H, H'. reflexivity.
  - apply OnlineFacts.online_rejected. cbn [GyroMouseOnlineMode.accepted].
    rewrite H. reflexivity.
Qed.

(** The amended C6 on a locked [MemsMouseMode] and a sample whose Y
    acceleration is NaN. *)
Lemma nonfinite_guarded_channel_dropped_witness :
  MemsMouseMode.update_mems pow_sample MemsMouseMode.default_config mems_locked
    (accel_packet 0.5 nan 1.0) 1000.0 = (mems_locked, Silent).
Proof.
  refine (proj1 (nonfinite_guarded_channel_dropped pow_sample
                   (mkMEMSData (Some (mkPoint3D 0.5 nan 1.0)) None) [] 1000.0
                   (mkPoint3D 0.5 nan 1.0)) _ _ _ _); reflexivity.
Defined.

(** C7, as stated, fails during calibration, which comes before the rate
    limiter: with the default configuration of [GyroMouseOnlineMode], a
    second packet 1 ms after the first (the interval is 4 ms) is accumulated
    like the first; and a packet on a fresh controller at clock 0.001, less
    than the interval after the initial [_last_update_ts] of 0, is
    accumulated too. *)
Lemma calibration_not_rate_limited :
  ((1000.001 - 1000.0
      <? GyroMouseOnlineMode.update_interval_sec GyroMouseOnlineMode.default_config)
     = true /\
   GyroMouseOnlineMode.accum_count
     (fst (run_mems (GyroMouseOnlineMode.update_mems GyroMouseOnlineMode.default_config)
             GyroMouseOnlineMode.init [(gyro_packet 0.0 1.0, 1000.0)])) = 1%Z /\
   GyroMouseOnlineMode.accum_count
     (fst (run_mems (GyroMouseOnlineMode.update_mems GyroMouseOnlineMode.default_config)
             GyroMouseOnlineMode.init
             [(gyro_packet 0.0 1.0, 1000.0); (gyro_packet 0.0 1.0, 1000.001)])) = 2%Z) /\
  ((0.001 - GyroMouseOnlineMode.last_update_ts GyroMouseOnlineMode.init
      <? GyroMouseOnlineMode.update_interval_sec GyroMouseOnlineMode.default_config)
     = true /\
   GyroMouseOnlineMode.accum_gz
     (fst (GyroMouseOnlineMode.update_mems GyroMouseOnlineMode.default_config
             GyroMouseOnlineMode.init (gyro_packet 0.0 1.0) 0.001)) = 1.0 /\
   GyroMouseOnlineMode.accum_gz GyroMouseOnlineMode.init = 0.0).
Proof. vm_compute. repeat split; reflexivity. Qed.

(** C7, amended.  Once the calibration is complete, a packet that arrives
    less than [update_interval_sec] after [_last_update_ts] leaves the
    controller unchanged and emits nothing, in every variant. *)
Theorem rate_limited_after_lock :
  forall (fpow : float -> float -> option float)
         (data : list MEMSData) (now : float),
    (forall cfg st,
        (MemsMouseMode.accum_count st <? MemsMouseMode.neutral_samples cfg)%Z = false ->
        (now - MemsMouseMode.last_update_ts st
           <? MemsMouseMode.update_interval_sec cfg) = true ->
        MemsMouseMode.update_mems fpow cfg st data now = (st, Silent)) /\
    (forall cfg st,
        (GyroMouseMode.accum_count st <? GyroMouseMode.neutral_samples cfg)%Z = false ->
        (now - GyroMouseMode.last_update_ts st
           <? GyroMouseMode.update_interval_sec cfg) = true ->
        GyroMouseMode.update_mems fpow cfg st data now = (st, Silent)) /\
    (forall cfg st,
        (GyroMouseOnlineMode.accum_count st
           <? GyroMouseOnlineMode.neutral_samples cfg)%Z = false ->
        (now - GyroMouseOnlineMode.last_update_ts st
           <? GyroMouseOnlineMode.update_interval_sec cfg) = true ->
        GyroMouseOnlineMode.update_mems cfg st data now = (st, Silent)).
Proof.
  intros fpow data now. split; [|split]; intros cfg st Hc Hr.
  - apply MemsFacts.mems_rate_limited; assumption.
  - apply GyroFacts.gyro_rate_limited; assumption.
  - apply OnlineFacts.online_rate_limited; assumption.
Qed.

(** The amended C7 on a locked [GyroMouseOnlineMode] whose last update was
    at clock 0: a packet at clock 0.001 is dropped. *)
Lemma rate_limited_after_lock_witness :
  GyroMouseOnlineMode.update_mems GyroMouseOnlineMode.default_config
    (online_locked 5.0) (gyro_packet 0.0 10.0) 0.001 = (online_locked 5.0, Silent).
Proof.
  refine (proj2 (proj2 (rate_limited_after_lock pow_sample
                          (gyro_packet 0.0 10.0) 0.001)) _ _ _ _); reflexivity.
Defined.

(** C8, as stated, fails.  [GyroMouseMode], locked on a zero neutral and at
    rest, with a smoothing weight of 0.5, receives a horizontal deviation of
    4: the velocity it stores is 2, the smoothing of the deviation itself,
    where the curve applied first would give the smoothing of
    [4.0 ** 1.6], about 4.59; the curve is applied afterwards, to the stored
    velocity, and the displacement is [-(2.0 ** 1.6) * 8]. *)
Lemma gyro_smooths_before_curve :
  exists curved,
    GyroMouseMode.joystick_curve pow_sample
      (GyroMouseMode.deadzone (GyroMouseMode.deadzone_deg (gyro_config 50))
         (4.0 - GyroMouseMode.neutral_gz gyro_locked)) = Some curved /\
    (GyroMouseMode.vx
       (fst (GyroMouseMode.update_mems pow_sample (gyro_config 50) gyro_locked
               (gyro_packet 0.0 4.0) 1000.0))
     =? spec_velocity (GyroMouseMode.smooth_alpha (gyro_config 50))
          (GyroMouseMode.vx gyro_locked) curved) = false /\
    GyroMouseMode.vx
      (fst (GyroMouseMode.update_mems pow_sample (gyro_config 50) gyro_locked
              (gyro_packet 0.0 4.0) 1000.0)) = 2.0 /\
    spec_velocity 0.5 0.0 curved = 4.5947934199881404 /\
    snd (GyroMouseMode.update_mems pow_sample (gyro_config 50) gyro_locked
           (gyro_packet 0.0 4.0) 1000.0)
      = MoveRel (- 3.0314331330207964 * 8.0) (-0.0).
Proof. exists 9.18958683997628. vm_compute. repeat split; reflexivity. Qed.

(** C8, amended.  [MemsMouseMode] applies its response curve to the
    dead-zoned offset and smooths the curved value into the stored velocity
    with [velocity = (1 - alpha) * velocity + alpha * curved].
    [GyroMouseMode] smooths the dead-zoned deviation itself into the stored
    velocity and applies its response curve afterwards, to the smoothed
    velocity, on the way to the displacement.  [GyroMouseOnlineMode] has no
    response curve: it smooths the dead-zoned deviation, damps the result by
    0.95 and projects it linearly. *)
Theorem curve_and_smoothing_order :
  forall (fpow : float -> float -> option float),
    (forall cfg st ax ay st' o,
        MemsMouseMode.smooth fpow cfg st ax ay = (st', o) ->
        o <> Overflow ->
        exists curved_dx curved_dy,
          MemsMouseMode.joystick_curve fpow (MemsMouseMode.deadzone_g cfg)
            (MemsMouseMode.deadzone (MemsMouseMode.deadzone_g cfg)
               (ax - MemsMouseMode.neutral_x st)) = Some curved_dx /\
          MemsMouseMode.joystick_curve fpow (MemsMouseMode.deadzone_g cfg)
            (MemsMouseMode.deadzone (MemsMouseMode.deadzone_g cfg)
               (ay - MemsMouseMode.neutral_y st)) = Some curved_dy /\
          MemsMouseMode.vx_g st'
            = spec_velocity (MemsMouseMode.smooth_alpha cfg)
                (MemsMouseMode.vx_g st) curved_dx /\
          MemsMouseMode.vy_g st'
            = spec_velocity (MemsMouseMode.smooth_alpha cfg)
                (MemsMouseMode.vy_g st) curved_dy) /\
    (forall cfg st dx_deg dy_deg,
        let r := GyroMouseMode.shape fpow cfg st dx_deg dy_deg in
        GyroMouseMode.vx (fst r)
          = spec_velocity (GyroMouseMode.smooth_alpha cfg) (GyroMouseMode.vx st)
              (GyroMouseMode.deadzone (GyroMouseMode.deadzone_deg cfg) dx_deg) /\
        GyroMouseMode.vy (fst r)
          = spec_velocity (GyroMouseMode.smooth_alpha cfg) (GyroMouseMode.vy st)
              (GyroMouseMode.deadzone (GyroMouseMode.deadzone_deg cfg) dy_deg) /\
        (forall px py, snd r = MoveRel px py ->
           exists curved_dx curved_dy,
             GyroMouseMode.joystick_curve fpow (GyroMouseMode.vx (fst r))
               = Some curved_dx /\
             GyroMouseMode.joystick_curve fpow (GyroMouseMode.vy (fst r))
               = Some curved_dy /\
             px = clamp_step (GyroMouseMode.max_step_px cfg)
                    (- curved_dx * GyroMouseMode.sensitivity_x cfg) /\
             py = clamp_step (GyroMouseMode.max_step_px cfg)
                    (- curved_dy * GyroMouseMode.sensitivity_y cfg))) /\
    (forall cfg st dx_deg dy_deg,
        let r := GyroMouseOnlineMode.shape cfg st dx_deg dy_deg in
        GyroMouseOnlineMode.vx (fst r)
          = spec_velocity (GyroMouseOnlineMode.smooth_alpha cfg)
              (GyroMouseOnlineMode.vx st)
              (GyroMouseOnlineMode.deadzone (GyroMouseOnlineMode.deadzone_deg cfg)
                 dx_deg) * 0.95 /\
        GyroMouseOnlineMode.vy (fst r)
          = spec_velocity (GyroMouseOnlineMode.smooth_alpha cfg)
              (GyroMouseOnlineMode.vy st)
              (GyroMouseOnlineMode.deadzone (GyroMouseOnlineMode.deadzone_deg cfg)
                 dy_deg) * 0.95 /\
        snd r = emit_move
                  (clamp_step (GyroMouseOnlineMode.max_step_px cfg)
                     (- GyroMouseOnlineMode.vx (fst r)
                      * GyroMouseOnlineMode.sensitivity_x cfg))
                  (clamp_step (GyroMouseOnlineMode.max_step_px cfg)
                     (- GyroMouseOnlineMode.vy (fst r)
                      * GyroMouseOnlineMode.sensitivity_y cfg))).
Proof.
  intro fpow. split; [|split].
  - intros cfg st ax ay st' o H Ho.
    unfold MemsMouseMode.smooth in H. cbv zeta in H.
    destruct (MemsMouseMode.joystick_curve fpow _ (MemsMouseMode.deadzone _ (ax - _)))
      as [cx|]; [|injection H as _ <-; congruence].
    destruct (MemsMouseMode.joystick_curve fpow _ (MemsMouseMode.deadzone _ (ay - _)))
      as [cy|]; [|injection H as _ <-; congruence].
    exists cx, cy. split; [reflexivity|]. split; [reflexivity|].
    unfold MemsMouseMode.project in H. cbv zeta beta in H.
    revert H. branches; intros [= <- _]; split; reflexivity.
  - intros cfg st dx_deg dy_deg r. subst r.
    unfold GyroMouseMode.shape, emit_move. cbv zeta.
    cbn [GyroMouseMode.vx GyroMouseMode.vy GyroMouseMode.set_velocity].
    fold (spec_velocity (GyroMouseMode.smooth_alpha cfg) (GyroMouseMode.vx st)
            (GyroMouseMode.deadzone (GyroMouseMode.deadzone_deg cfg) dx_deg)).
    fold (spec_velocity (GyroMouseMode.smooth_alpha cfg) (GyroMouseMode.vy st)
            (GyroMouseMode.deadzone (GyroMouseMode.deadzone_deg cfg) dy_deg)).
    destruct (GyroMouseMode.joystick_curve fpow (spec_velocity _ (GyroMouseMode.vx st) _))
      as [cx|] eqn:Cx; [|repeat split; intros px py H; discriminate H].
    destruct (GyroMouseMode.joystick_curve fpow (spec_velocity _ (GyroMouseMode.vy st) _))
      as [cy|] eqn:Cy; [|repeat split; intros px py H; discriminate H].
    destruct (negb _ || negb _);
      cbn [fst snd GyroMouseMode.vx GyroMouseMode.vy GyroMouseMode.set_velocity];
      (split; [reflexivity|]; split; [reflexivity|]);
      intros px py H; [|discriminate H].
    injection H as <- <-. exists cx, cy. repeat split; assumption.
  - intros cfg st dx_deg dy_deg r. subst r.
    unfold GyroMouseOnlineMode.shape. cbv zeta.
    cbn [fst snd GyroMouseOnlineMode.vx GyroMouseOnlineMode.vy
         GyroMouseOnlineMode.set_velocity].
    repeat split; reflexivity.
Qed.

(** The amended C8 on a locked [MemsMouseMode] with a dead zone of 1 g
    receiving an offset of 5 g on the X axis: the stored X velocity is the
    smoothing of the curved offset [(5 - 1) ** 1.5]. *)
Lemma curve_and_smoothing_order_witness :
  exists st' o,
    MemsMouseMode.smooth pow_sample (mems_config 100 1.0) mems_locked 5.0 0.0
      = (st', o) /\
    MemsMouseMode.joystick_curve pow_sample 1.0
      (MemsMouseMode.deadzone 1.0 (5.0 - 0.0)) = Some 8.0 /\
    MemsMouseMode.vx_g st' = spec_velocity 0.25 0.0 8.0.
Proof.
  pose (r := MemsMouseMode.smooth pow_sample (mems_config 100 1.0) mems_locked 5.0 0.0).
  assert (E : MemsMouseMode.smooth pow_sample (mems_config 100 1.0) mems_locked 5.0 0.0
              = (fst r, snd r)) by (vm_compute; reflexivity).
  destruct (curve_and_smoothing_order pow_sample) as (M & _ & _).
  assert (Ho : snd r <> Overflow) by (vm_compute; intro Q; discriminate Q).
  destruct (M _ _ _ _ _ _ E Ho) as (cx & cy & Hx & Hy & Vx & Vy).
  exists (fst r), (snd r). split; [exact E|].
  assert (C : MemsMouseMode.joystick_curve pow_sample 1.0
                (MemsMouseMode.deadzone 1.0 (5.0 - 0.0)) = Some 8.0)
    by (vm_compute; reflexivity).
  split; [exact C|].
  change (MemsMouseMode.deadzone_g (mems_config 100 1.0)) with 1.0 in Hx.
  change (MemsMouseMode.neutral_x mems_locked) with 0.0 in Hx.
  rewrite C in Hx. injection Hx as <-. exact Vx.
Defined.

(** C3.  For every variant and every [neutral_samples = N >= 1], on a fresh
    controller fed any sequence of packets: while fewer than [N] samples have
    been accepted every call is silent; when exactly [N] have been accepted,
    each neutral is the sum of those [N] samples on its axis, accumulated in
    arrival order from 0, divided by [float(N)]; and as soon as [N] have been
    accepted the lock has been reported exactly once, however many packets
    follow. *)
Theorem neutral_is_mean_of_first_samples :
  forall (fpow : float -> float -> option float)
         (packets : list (list MEMSData * float)),
    (forall cfg,
        let N := MemsMouseMode.neutral_samples cfg in
        let acc := accepted_samples MemsMouseMode.accepted packets in
        let r := run_mems (MemsMouseMode.update_mems fpow cfg)
                   MemsMouseMode.init packets in
        (1 <= N)%Z ->
        ((Z.of_nat (length acc) < N)%Z -> Forall (eq Silent) (snd r)) /\
        (Z.of_nat (length acc) = N ->
         MemsMouseMode.neutral_x (fst r) = fsum (map pt_X acc) / float_of_int N /\
         MemsMouseMode.neutral_y (fst r) = fsum (map pt_Y acc) / float_of_int N /\
         MemsMouseMode.neutral_z (fst r) = fsum (map pt_Z acc) / float_of_int N) /\
        ((N <= Z.of_nat (length acc))%Z -> lock_reports (snd r) = 1%nat)) /\
    (forall cfg,
        let N := GyroMouseMode.neutral_samples cfg in
        let acc := accepted_samples GyroMouseMode.accepted packets in
        let r := run_mems (GyroMouseMode.update_mems fpow cfg)
                   GyroMouseMode.init packets in
        (1 <= N)%Z ->
        ((Z.of_nat (length acc) < N)%Z -> Forall (eq Silent) (snd r)) /\
        (Z.of_nat (length acc) = N ->
         GyroMouseMode.neutral_gx (fst r) = fsum (map pt_X acc) / float_of_int N /\
         GyroMouseMode.neutral_gz (fst r) = fsum (map pt_Z acc) / float_of_int N) /\
        ((N <= Z.of_nat (length acc))%Z -> lock_reports (snd r) = 1%nat)) /\
    (forall cfg,
        let N := GyroMouseOnlineMode.neutral_samples cfg in
        let acc := accepted_samples GyroMouseOnlineMode.accepted packets in
        let r := run_mems (GyroMouseOnlineMode.update_mems cfg)
                   GyroMouseOnlineMode.init packets in
        (1 <= N)%Z ->
        ((Z.of_nat (length acc) < N)%Z -> Forall (eq Silent) (snd r)) /\
        (Z.of_nat (length acc) = N ->
         GyroMouseOnlineMode.neutral_gx (fst r)
           = fsum (map pt_X acc) / float_of_int N /\
         GyroMouseOnlineMode.neutral_gz (fst r)
           = fsum (map pt_Z acc) / float_of_int N) /\
        ((N <= Z.of_nat (length acc))%Z -> lock_reports (snd r) = 1%nat)).
Proof.
  intros fpow packets. split; [|split]; intros cfg N acc r HN; subst N acc r.
  - split; [|split].
    + intro H.
      apply (run_warming _ _ _ MemsMouseMode.accum_count
               (MemsFacts.mems_rejected fpow cfg) (MemsFacts.mems_calibrating fpow cfg)).
      cbn [MemsMouseMode.accum_count MemsMouseMode.init]. lia.
    + intro H. unfold fsum. repeat split.
      * apply (run_axis _ _ _ MemsMouseMode.accum_count
                 (MemsFacts.mems_rejected fpow cfg) (MemsFacts.mems_calibrating fpow cfg)
                 MemsMouseMode.accum_x MemsMouseMode.neutral_x pt_X
                 (MemsFacts.mems_calibrating_x fpow cfg));
          cbn [MemsMouseMode.accum_count MemsMouseMode.init]; lia.
      * apply (run_axis _ _ _ MemsMouseMode.accum_count
                 (MemsFacts.mems_rejected fpow cfg) (MemsFacts.mems_calibrating fpow cfg)
                 MemsMouseMode.accum_y MemsMouseMode.neutral_y pt_Y
                 (MemsFacts.mems_calibrating_y fpow cfg));
          cbn [MemsMouseMode.accum_count MemsMouseMode.init]; lia.
      * apply (run_axis _ _ _ MemsMouseMode.accum_count
                 (MemsFacts.mems_rejected fpow cfg) (MemsFacts.mems_calibrating fpow cfg)
                 MemsMouseMode.accum_z MemsMouseMode.neutral_z pt_Z
                 (MemsFacts.mems_calibrating_z fpow cfg));
          cbn [MemsMouseMode.accum_count MemsMouseMode.init]; lia.
    + intro H.
      apply (run_reports_once _ _ _ MemsMouseMode.accum_count
               (MemsFacts.mems_rejected fpow cfg) (MemsFacts.mems_calibrating fpow cfg)
               (MemsFacts.mems_after_lock fpow cfg));
        cbn [MemsMouseMode.accum_count MemsMouseMode.init]; lia.
  - split; [|split].
    + intro H.
      apply (run_warming _ _ _ GyroMouseMode.accum_count
               (GyroFacts.gyro_rejected fpow cfg) (GyroFacts.gyro_calibrating fpow cfg)).
      cbn [GyroMouseMode.accum_count GyroMouseMode.init]. lia.
    + intro H. unfold fsum. split.
      * apply (run_axis _ _ _ GyroMouseMode.accum_count
                 (GyroFacts.gyro_rejected fpow cfg) (GyroFacts.gyro_calibrating fpow cfg)
                 GyroMouseMode.accum_gx GyroMouseMode.neutral_gx pt_X
                 (GyroFacts.gyro_calibrating_gx fpow cfg));
          cbn [GyroMouseMode.accum_count GyroMouseMode.init]; lia.
      * apply (run_axis _ _ _ GyroMouseMode.accum_count
                 (GyroFacts.gyro_rejected fpow cfg) (GyroFacts.gyro_calibrating fpow cfg)
                 GyroMouseMode.accum_gz GyroMouseMode.neutral_gz pt_Z
                 (GyroFacts.gyro_calibrating_gz fpow cfg));
          cbn [GyroMouseMode.accum_count GyroMouseMode.init]; lia.
    + intro H.
      apply (run_reports_once _ _ _ GyroMouseMode.accum_count
               (GyroFacts.gyro_rejected fpow cfg) (GyroFacts.gyro_calibrating fpow cfg)
               (GyroFacts.gyro_after_lock fpow cfg));
        cbn [GyroMouseMode.accum_count GyroMouseMode.init]; lia.
  - split; [|split].
    + intro H.
      apply (run_warming _ _ _ GyroMouseOnlineMode.accum_count
               (OnlineFacts.online_rejected cfg) (OnlineFacts.online_calibrating cfg)).
      cbn [GyroMouseOnlineMode.accum_count GyroMouseOnlineMode.init]. lia.
    + intro H. unfold fsum. split.
      * apply (run_axis _ _ _ GyroMouseOnlineMode.accum_count
                 (OnlineFacts.online_rejected cfg) (OnlineFacts.online_calibrating cfg)
                 GyroMouseOnlineMode.accum_gx GyroMouseOnlineMode.neutral_gx pt_X
                 (OnlineFacts.online_calibrating_gx cfg));
          cbn [GyroMouseOnlineMode.accum_count GyroMouseOnlineMode.init]; lia.
      * apply (run_axis _ _ _ GyroMouseOnlineMode.accum_count
                 (OnlineFacts.online_rejected cfg) (OnlineFacts.online_calibrating cfg)
                 GyroMouseOnlineMode.accum_gz GyroMouseOnlineMode.neutral_gz pt_Z
                 (OnlineFacts.online_calibrating_gz cfg));
          cbn [GyroMouseOnlineMode.accum_count GyroMouseOnlineMode.init]; lia.
    + intro H.
      apply (run_reports_once _ _ _ GyroMouseOnlineMode.accum_count
               (OnlineFacts.online_rejected cfg) (OnlineFacts.online_calibrating cfg)
               (OnlineFacts.online_after_lock cfg));
        cbn [GyroMouseOnlineMode.accum_count GyroMouseOnlineMode.init]; lia.
Qed.

(** C3 on [GyroMouseOnlineMode] with [N = 2]: of three packets the second
    carries a NaN and is not accepted; the neutrals are the means of the
    first and the third, and the lock is reported once. *)
Lemma neutral_is_mean_of_first_samples_witness :
  let r := run_mems (GyroMouseOnlineMode.update_mems (online_config 8.0 2 50.0))
             GyroMouseOnlineMode.init
             [(gyro_packet 1.0 2.0, 1000.0); (gyro_packet nan 7.0, 1000.1);
              (gyro_packet 3.0 6.0, 1000.2)] in
  (GyroMouseOnlineMode.neutral_gx (fst r) = fsum [1.0; 3.0] / float_of_int 2 /\
   GyroMouseOnlineMode.neutral_gz (fst r) = fsum [2.0; 6.0] / float_of_int 2) /\
  lock_reports (snd r) = 1%nat.
Proof.
  destruct (neutral_is_mean_of_first_samples pow_sample
              [(gyro_packet 1.0 2.0, 1000.0); (gyro_packet nan 7.0, 1000.1);
               (gyro_packet 3.0 6.0, 1000.2)]) as (_ & _ & O).
  destruct (O (online_config 8.0 2 50.0) ltac:(cbn; lia)) as (_ & Hmean & Hlock).
  split; [apply Hmean | apply Hlock]; vm_compute; congruence.
Defined.

End ControllerClaims.

(** ** More order facts *)

Lemma ltb_true_leb_false a b : (a <? b) = true -> (b <=? a) = false.
Proof.
  rewrite leb_ford, ltb_ford.
  destruct (ford a), (ford b); try discriminate.
  rewrite Z.ltb_lt, Z.leb_gt. lia.
Qed.

Lemma ltb_true_not_nan a b : (a <? b) = true -> is_nan a = false /\ is_nan b = false.
Proof.
  rewrite ltb_ford. intro H. split.
  - destruct (is_nan a) eqn:E; [|reflexivity].
    apply is_nan_ford in E. rewrite E in H. discriminate.
  - destruct (is_nan b) eqn:E; [|reflexivity].
    apply is_nan_ford in E. rewrite E in H. destruct (ford a); discriminate.
Qed.

Lemma leb_refl_not_nan a : is_nan a = false -> (a <=? a) = true.
Proof.
  intro H. rewrite leb_ford.
  destruct (ford a) eqn:E; [apply Z.leb_refl|].
  apply is_nan_ford in E. congruence.
Qed.

Lemma ltb_leb a b : (a <? b) = true -> (a <=? b) = true.
Proof.
  rewrite leb_ford, ltb_ford.
  destruct (ford a), (ford b); try discriminate.
  rewrite Z.ltb_lt, Z.leb_le. lia.
Qed.

(** [max]: the running best never decreases, and stays a number once it is
    one. *)
Lemma py_max2_ge a b :
  is_nan a = false ->
  is_nan (py_max2 a b) = false /\ (a <=? py_max2 a b) = true.
Proof.
  intro Ha. unfold py_max2. destruct (a <? b) eqn:E.
  - split; [apply (ltb_true_not_nan _ _ E) | apply ltb_leb; exact E].
  - split; [exact Ha | apply leb_refl_not_nan; exact Ha].
Qed.

Lemma py_max2_ge_r a b :
  is_nan a = false -> is_nan b = false -> (b <=? py_max2 a b) = true.
Proof.
  intros Ha Hb. unfold py_max2. destruct (a <? b) eqn:E.
  - apply leb_refl_not_nan; exact Hb.
  - apply ltb_false_leb; assumption.
Qed.

Lemma py_max_cons first x rest :
  py_max first (x :: rest) = py_max (py_max2 first x) rest.
Proof. reflexivity. Qed.



Lemma py_max_nan first rest : is_nan first = true -> py_max first rest = first.
Proof.
  intro H. induction rest as [|x rest IH]; [reflexivity|].
  rewrite py_max_cons. unfold py_max2.
  destruct (first <? x) eqn:E; [|exact IH].
  apply ltb_true_not_nan in E. destruct E; congruence.
Qed.

(** ** Bounded queues *)

Lemma lastn_short {A} n (l : list A) : (length l <= n)%nat -> lastn n l = l.
Proof.
  intro H. unfold lastn. replace (length l - n)%nat with 0%nat by lia. reflexivity.
Qed.

Lemma lastn_length {A} n (l : list A) : length (lastn n l) = Nat.min n (length l).
Proof. unfold lastn. rewrite length_skipn. lia. Qed.

Lemma lastn_push {A} n (h : list A) x :
  lastn n (lastn n h ++ [x]) = lastn n (h ++ [x]).
Proof.
  destruct (Nat.leb_spec (length h) n) as [H|H].
  - rewrite (lastn_short n h H). reflexivity.
  - unfold lastn at 1 3. rewrite !length_app, lastn_length. cbn [length].
    rewrite !skipn_app, lastn_length. unfold lastn. rewrite skipn_skipn.
    replace (Nat.min n (length h)) with n by lia.
    replace (n + 1 - n + (length h - n))%nat with (length h + 1 - n)%nat by lia.
    replace (length h + 1 - n - length h)%nat with (n + 1 - n - n)%nat by lia.
    reflexivity.
Qed.

Lemma deque_append_lastn n (h : list float) x :
  deque_append n (lastn n h) x = lastn n (h ++ [x]).
Proof. unfold deque_append. cbv zeta. apply (lastn_push n h x). Qed.

Lemma tl_skipn {A} (l : list A) : tl l = skipn 1 l.
Proof. destruct l; reflexivity. Qed.

Lemma last_nonempty_in {A} (l : list A) d : l <> [] -> In (last l d) l.
Proof.
  induction l as [|x l IH]; [congruence|]. intros _.
  destruct l as [|y l']; [left; reflexivity|].
  right. apply IH. discriminate.
Qed.

Lemma last_in {A} (rest : list A) d0 : In (last rest d0) (d0 :: rest).
Proof.
  destruct rest; [left; reflexivity | right; apply last_nonempty_in; discriminate].
Qed.

(** Destruct every boolean test in the goal. *)
Ltac split_ifs :=
  repeat match goal with
         | |- context [if ?b then _ else _] =>
           lazymatch type of b with bool => destruct b eqn:? end
         end.

(** ** The amplitude of a signal delivery *)

Module AmplitudeFacts.
Import MuscleClick.

Lemma signal_max_scan data : signal_max data = signal_scan 0.0 data.
Proof. reflexivity. Qed.

Lemma signal_scan_cons acc pack rest :
  signal_scan acc (pack :: rest) =
  signal_scan
    (match Samples pack with
     | [] => acc
     | s :: ss =>
       py_max2 acc (py_max (abs s * 1e6) (map (fun s' => abs s' * 1e6) ss))
     end) rest.
Proof. reflexivity. Qed.

Lemma signal_scan_app acc pre post :
  signal_scan acc (pre ++ post) = signal_scan (signal_scan acc pre) post.
Proof. unfold signal_scan. apply fold_left_app. Qed.

(** The running maximum starts at 0 and only grows. *)
Lemma signal_scan_grows data :
  forall acc, (0 <=? acc) = true ->
    (0 <=? signal_scan acc data) = true /\ (acc <=? signal_scan acc data) = true.
Proof.
  induction data as [|pack rest IH]; intros acc H.
  - split; [exact H|]. apply leb_refl_not_nan. apply (leb_true_not_nan _ _ H).
  - rewrite signal_scan_cons.
    destruct (Samples pack) as [|s ss]; [apply IH; exact H|].
    destruct (py_max2_ge acc (py_max (abs s * 1e6) (map (fun s' => abs s' * 1e6) ss)))
      as [N L]; [apply (leb_true_not_nan _ _ H)|].
    assert (H' := leb_trans _ _ _ H L).
    destruct (IH _ H') as [A B]. split; [exact A|].
    eapply leb_trans; eassumption.
Qed.

Lemma nan_SF x : is_nan x = true -> Prim2SF x = S754_nan.
Proof.
  intro H. apply is_nan_ford in H. unfold ford in H.
  destruct (Prim2SF x); cbn [SFord] in H; try discriminate H. reflexivity.
Qed.

Lemma SF_nan x : Prim2SF x = S754_nan -> is_nan x = true.
Proof. intro H. apply is_nan_ford. unfold ford. rewrite H. reflexivity. Qed.

(** The amplitude of a NaN sample is NaN. *)
Lemma nan_amplitude s : is_nan s = true -> is_nan (abs s * 1e6) = true.
Proof.
  intro H. apply SF_nan. rewrite mul_spec, abs_spec, (nan_SF s H). reflexivity.
Qed.

Lemma ltb_nan_r a b : is_nan b = true -> (a <? b) = false.
Proof.
  intro H. apply is_nan_ford in H. rewrite ltb_ford, H.
  destruct (ford a); reflexivity.
Qed.

End AmplitudeFacts.

Module AmplitudeExtras.
Import MuscleClick AmplitudeFacts.

(** X1.  The amplitude [update_from_signal] compares with the thresholds is
    never NaN and never negative, whatever the samples: the running maximum
    starts at 0.0 and is replaced only by a value that compares greater. *)
Theorem signal_amplitude_is_a_number :
  forall data : list CallibriSignalData,
    is_nan (signal_max data) = false /\ (0 <=? signal_max data) = true.
Proof.
  intro data. rewrite signal_max_scan.
  destruct (signal_scan_grows data 0.0 eq_refl) as [H _].
  split; [apply (leb_true_not_nan _ _ H) | exact H].
Qed.



(** X3.  A packet whose first sample is NaN counts for nothing, whatever
    its other samples: [max] keeps a NaN it starts with, and a NaN is never
    greater than the running maximum. *)
Theorem nan_first_sample_hides_packet :
  forall (pre post : list CallibriSignalData) (s : float) (ss : list float),
    is_nan s = true ->
    signal_max (pre ++ mkSignal (s :: ss) :: post) = signal_max (pre ++ post).
Proof.
  intros pre post s ss H.
  change (signal_scan 0.0 (pre ++ mkSignal (s :: ss) :: post)
          = signal_scan 0.0 (pre ++ post)).
  rewrite !signal_scan_app.
  rewrite signal_scan_cons. cbn [Samples].
  rewrite (py_max_nan _ _ (nan_amplitude s H)).
  unfold py_max2. rewrite (ltb_nan_r _ _ (nan_amplitude s H)). reflexivity.
Qed.

(** X3 on the default configuration: a packet of a NaN followed by a sample
    of 1000 microvolts, above every threshold, has the amplitude of no
    packet at all and triggers nothing. *)
Lemma nan_first_sample_hides_packet_witness :
  signal_max ([] ++ mkSignal [nan; 1000e-6] :: []) = signal_max ([] ++ []) /\
  snd (update_from_signal default_config init [mkSignal [nan; 1000e-6]] 1000.0)
    = None.
Proof.
  split.
  - apply (nan_first_sample_hides_packet [] [] nan [1000e-6]). reflexivity.
  - vm_compute. reflexivity.
Defined.

End AmplitudeExtras.

Module BufferFacts.
Import MuscleClick.

(** [append] then [pop(0)] on a buffer that holds the last [n] amplitudes. *)
Lemma push_buffer_lastn st n h x :
  buffer_max_size st = Z.of_nat n -> muscle_buffer st = lastn n h ->
  muscle_buffer (push_buffer st x) = lastn n (h ++ [x]).
Proof.
  intros Hn Hb. unfold push_buffer. cbv zeta. cbn [muscle_buffer set_muscle_buffer].
  rewrite Hn, Hb, <- lastn_push.
  assert (L := lastn_length n h).
  set (b := lastn n h) in *. clearbody b.
  destruct (Z.ltb_spec (Z.of_nat n) (Z.of_nat (length (b ++ [x])))) as [C|C];
    rewrite length_app in C; cbn [length] in C.
  - rewrite tl_skipn. unfold lastn. rewrite length_app. cbn [length].
    replace (length b + 1 - n)%nat with 1%nat by lia. reflexivity.
  - symmetry. apply lastn_short. rewrite length_app. cbn [length]. lia.
Qed.

Lemma step_buffer cfg st c :
  buffer_max_size (fst (step cfg st c)) = buffer_max_size st /\
  muscle_buffer (fst (step cfg st c))
  = match c with
    | Signal (d :: ds) _ => muscle_buffer (push_buffer st (signal_max (d :: ds)))
    | _ => muscle_buffer st
    end.
Proof.
  destruct c as [data now|data now]; cbn [step].
  - unfold update_from_envelope. destruct data as [|d ds]; [split; reflexivity|].
    cbv zeta.
    repeat match goal with
           | |- context [if ?b then _ else _] =>
             lazymatch type of b with bool => destruct b end
           end; split; reflexivity.
  - unfold update_from_signal. destruct data as [|d ds]; [split; reflexivity|].
    cbv zeta. unfold handle_duration_based_click, handle_simple_click.
    repeat match goal with
           | |- context [if ?b then _ else _] =>
             lazymatch type of b with bool => destruct b end
           end; split; reflexivity.
Qed.

Lemma amplitudes_cons c rest :
  signal_amplitudes (c :: rest) =
  match c with
  | Signal (d :: ds) _ => [signal_max (d :: ds)]
  | _ => []
  end ++ signal_amplitudes rest.
Proof. reflexivity. Qed.

Lemma run_buffer cfg n calls :
  forall st h,
    buffer_max_size st = Z.of_nat n -> muscle_buffer st = lastn n h ->
    muscle_buffer (fst (run cfg st calls)) = lastn n (h ++ signal_amplitudes calls).
Proof.
  induction calls as [|c rest IH]; intros st h Hn Hb.
  - cbn [run fst signal_amplitudes flat_map]. rewrite app_nil_r. exact Hb.
  - rewrite MuscleClickFacts.run_cons, amplitudes_cons. cbn [fst].
    destruct (step_buffer cfg st c) as [S1 S2].
    rewrite app_assoc. apply IH; [rewrite S1; exact Hn|].
    rewrite S2.
    destruct c as [data now|[|d ds] now]; rewrite ?app_nil_r; try exact Hb.
    apply push_buffer_lastn; assumption.
Qed.

End BufferFacts.

Module ClassifierExtras.
Import MuscleClick BufferFacts.

(** X4.  After any run of a fresh detector the buffer of amplitudes holds
    the amplitudes of the last ten signal deliveries that were not empty,
    oldest first: it never grows past [buffer_max_size], and what leaves is
    the oldest. *)
Theorem buffer_keeps_last_ten :
  forall (cfg : MuscleClickConfig) (calls : list call),
    muscle_buffer (fst (run cfg init calls)) = lastn 10 (signal_amplitudes calls) /\
    (length (muscle_buffer (fst (run cfg init calls))) <= 10)%nat.
Proof.
  intros cfg calls.
  assert (E : muscle_buffer (fst (run cfg init calls))
              = lastn 10 ([] ++ signal_amplitudes calls))
    by (apply (run_buffer cfg 10 calls init []); reflexivity).
  cbn [app] in E. split; [exact E|].
  rewrite E, lastn_length. lia.
Qed.

Lemma step_agree cfg cfg' st st' c :
  left_threshold cfg = left_threshold cfg' ->
  right_threshold cfg = right_threshold cfg' ->
  hold_threshold cfg = hold_threshold cfg' ->
  cooldown_sec cfg = cooldown_sec cfg' ->
  use_duration_detection cfg = use_duration_detection cfg' ->
  last_click_ts st = last_click_ts st' ->
  is_dragging st = is_dragging st' ->
  snd (step cfg st c) = snd (step cfg' st' c) /\
  last_click_ts (fst (step cfg st c)) = last_click_ts (fst (step cfg' st' c)) /\
  is_dragging (fst (step cfg st c)) = is_dragging (fst (step cfg' st' c)).
Proof.
  intros Hl Hr Hh Hc Hu Ht Hd.
  destruct c as [data now|data now]; cbn [step].
  - unfold update_from_envelope. destruct data as [|d ds]; [repeat split; assumption|].
    cbv zeta. rewrite <- Hl, <- Hc.
    destruct (debug_printed_env st), (debug_printed_env st');
      cbn [last_click_ts set_debug_printed_env]; rewrite <- Ht;
      destruct (_ <? left_threshold cfg); cbn [fst snd];
      try (repeat split; assumption);
      destruct (_ <? cooldown_sec cfg); cbn [fst snd];
      repeat split; assumption.
  - unfold update_from_signal. destruct data as [|d ds]; [repeat split; assumption|].
    cbv zeta.
    set (ms := signal_max (d :: ds)).
    set (s1 := if debug_printed_sig (push_buffer st ms) then push_buffer st ms
               else set_debug_printed_sig (push_buffer st ms) true).
    set (s1' := if debug_printed_sig (push_buffer st' ms) then push_buffer st' ms
                else set_debug_printed_sig (push_buffer st' ms) true).
    assert (A : last_click_ts s1 = last_click_ts st /\ is_dragging s1 = is_dragging st).
    { unfold s1. destruct (debug_printed_sig (push_buffer st ms)); split; reflexivity. }
    assert (A' : last_click_ts s1' = last_click_ts st' /\ is_dragging s1' = is_dragging st').
    { unfold s1'. destruct (debug_printed_sig (push_buffer st' ms)); split; reflexivity. }
    destruct A as [A1 A2], A' as [A1' A2'].
    assert (B1 : last_click_ts s1 = last_click_ts s1') by congruence.
    assert (B2 : is_dragging s1 = is_dragging s1') by congruence.
    clearbody s1 s1'.
    rewrite <- Hu. unfold handle_duration_based_click, handle_simple_click.
    rewrite <- Hl, <- Hr, <- Hh, <- Hc, <- B1.
    cbn [is_dragging set_last_click_ts]. rewrite <- B2.
    split_ifs; cbn [fst snd last_click_ts is_dragging set_last_click_ts set_is_dragging];
      repeat split; assumption.
Qed.

(** X5.  The actions of a run depend on the configuration through the
    three thresholds, the cooldown and the mode flag only, and on the
    detector through the time of the last action and the dragging flag
    only: [hold_threshold_sec], [right_double_max_gap_sec],
    [use_separate_muscles] and [second_muscle_threshold] are never read, nor
    are the buffer of amplitudes, the contraction start, the holding flag
    and the last right peak. *)
Theorem actions_read_five_settings :
  forall (cfg cfg' : MuscleClickConfig) (st st' : MuscleClickDetector)
         (calls : list call),
    left_threshold cfg = left_threshold cfg' ->
    right_threshold cfg = right_threshold cfg' ->
    hold_threshold cfg = hold_threshold cfg' ->
    cooldown_sec cfg = cooldown_sec cfg' ->
    use_duration_detection cfg = use_duration_detection cfg' ->
    last_click_ts st = last_click_ts st' ->
    is_dragging st = is_dragging st' ->
    snd (run cfg st calls) = snd (run cfg' st' calls).
Proof.
  intros cfg cfg' st st' calls Hl Hr Hh Hc Hu. revert st st'.
  induction calls as [|c rest IH]; intros st st' Ht Hd; [reflexivity|].
  rewrite !MuscleClickFacts.run_cons. cbn [snd].
  destruct (step_agree cfg cfg' st st' c Hl Hr Hh Hc Hu Ht Hd) as (E & T & D).
  rewrite E, (IH _ _ T D). reflexivity.
Qed.

(** X5 on two detectors that differ in everything that is not read: the
    dataclass defaults against other values for the four unread settings, a
    fresh detector against one with a full buffer and the bookkeeping fields
    set. *)
Lemma actions_read_five_settings_witness :
  snd (run default_config init
         [Signal [mkSignal [826e-6]] 1000.0; Envelope [mkEnvelope 200e-6] 1000.6;
          Signal [mkSignal [826e-6]] 1001.2])
  = snd (run {| left_threshold := 150.0; right_threshold := 250.0;
                hold_threshold := 225.0; right_double_max_gap_sec := 9.0;
                cooldown_sec := 0.5; use_separate_muscles := true;
                second_muscle_threshold := 1.0; hold_threshold_sec := 60.0;
                use_duration_detection := true |}
             {| last_click_ts := 0.0; debug_printed_env := true;
                debug_printed_sig := true; last_right_peak_ts := Some 3.0;
                contraction_start_time := Some 4.0; is_holding := true;
                is_dragging := false; muscle_buffer := [1.0; 2.0; 3.0];
                buffer_max_size := 3 |}
         [Signal [mkSignal [826e-6]] 1000.0; Envelope [mkEnvelope 200e-6] 1000.6;
          Signal [mkSignal [826e-6]] 1001.2]).
Proof.
  apply actions_read_five_settings; reflexivity.
Defined.

Lemma step_no_drag cfg st c :
  use_duration_detection cfg = false ->
  match snd (step cfg st c) with
  | Some e => is_drag e = false
  | None => True
  end.
Proof.
  intro H. destruct c as [data now|data now]; cbn [step].
  - unfold update_from_envelope. destruct data as [|d ds]; [exact I|].
    cbv zeta. split_ifs; cbn [snd]; auto.
  - unfold update_from_signal. destruct data as [|d ds]; [exact I|].
    cbv zeta. rewrite H. unfold handle_simple_click.
    split_ifs; cbn [snd]; auto.
Qed.

(** X6.  In impulse mode ([use_duration_detection] false) no call starts or
    ends a drag and the dragging flag is never written, on either path:
    [_handle_simple_click] knows clicks only, so a drag left open when the
    mode was switched stays open. *)
Theorem impulse_mode_never_drags :
  forall (cfg : MuscleClickConfig) (st : MuscleClickDetector) (calls : list call),
    use_duration_detection cfg = false ->
    drag_events (snd (run cfg st calls)) = [] /\
    is_dragging (fst (run cfg st calls)) = is_dragging st.
Proof.
  intros cfg st calls H. revert st.
  induction calls as [|c rest IH]; intro st; [split; reflexivity|].
  rewrite MuscleClickFacts.run_cons. cbn [fst snd].
  pose proof (step_no_drag cfg st c H) as N.
  pose proof (MuscleClickFacts.step_drag cfg st c) as D.
  destruct (IH (fst (step cfg st c))) as [IH1 IH2].
  destruct (snd (step cfg st c)) as [e|].
  - unfold drag_events in *. cbn [map fst filter]. rewrite N.
    split; [exact IH1|]. rewrite IH2.
    destruct e; first [exact D | discriminate N].
  - split; [exact IH1|]. rewrite IH2. exact D.
Qed.

(** X6 with the default thresholds in impulse mode: amplitudes above the
    hold threshold give right clicks, and a drag that was open stays open. *)
Lemma impulse_mode_never_drags_witness :
  let cfg := {| left_threshold := 150.0; right_threshold := 250.0;
                hold_threshold := 225.0; right_double_max_gap_sec := 1.5;
                cooldown_sec := 0.5; use_separate_muscles := false;
                second_muscle_threshold := 200.0; hold_threshold_sec := 0.3;
                use_duration_detection := false |} in
  let calls := [Signal [mkSignal [826e-6]] 1000.0; Signal [mkSignal [826e-6]] 1001.0] in
  snd (run cfg (set_is_dragging init true) calls)
    = [(RightClick, 1000.0); (RightClick, 1001.0)] /\
  drag_events (snd (run cfg (set_is_dragging init true) calls)) = [] /\
  is_dragging (fst (run cfg (set_is_dragging init true) calls)) = true.
Proof.
  cbv zeta. split; [vm_compute; reflexivity|].
  apply (impulse_mode_never_drags
           {| left_threshold := 150.0; right_threshold := 250.0;
              hold_threshold := 225.0; right_double_max_gap_sec := 1.5;
              cooldown_sec := 0.5; use_separate_muscles := false;
              second_muscle_threshold := 200.0; hold_threshold_sec := 0.3;
              use_duration_detection := false |}
           (set_is_dragging init true)).
  reflexivity.
Defined.

(** X7.  On the signal path a left click needs the amplitude to reach
    [left_threshold] without reaching a threshold tested before it.  So with
    [right_threshold <= left_threshold], in either mode, or with
    [hold_threshold <= left_threshold] in duration mode, no signal call ever
    emits a left click. *)
Theorem shadowed_left_click :
  forall (cfg : MuscleClickConfig) (st : MuscleClickDetector)
         (data : list CallibriSignalData) (now : float),
    (right_threshold cfg <=? left_threshold cfg) = true \/
    (use_duration_detection cfg = true /\
     (hold_threshold cfg <=? left_threshold cfg) = true) ->
    snd (update_from_signal cfg st data now) <> Some LeftClick.
Proof.
  intros cfg st data now H. unfold update_from_signal.
  destruct data as [|d ds]; [cbn [snd]; congruence|]. cbv zeta.
  set (ms := signal_max (d :: ds)).
  set (st2 := if debug_printed_sig (push_buffer st ms) then push_buffer st ms
              else set_debug_printed_sig (push_buffer st ms) true).
  clearbody st2.
  unfold handle_duration_based_click, handle_simple_click.
  destruct (use_duration_detection cfg) eqn:U.
  - destruct (hold_threshold cfg <=? ms) eqn:Hh.
    { split_ifs; cbn [snd]; congruence. }
    destruct (right_threshold cfg <=? ms) eqn:Hr.
    { split_ifs; cbn [snd]; congruence. }
    destruct (left_threshold cfg <=? ms) eqn:Hl; [|cbn [snd]; congruence].
    destruct H as [H|[_ H]].
    + rewrite (leb_trans _ _ _ H Hl) in Hr. discriminate Hr.
    + rewrite (leb_trans _ _ _ H Hl) in Hh. discriminate Hh.
  - destruct (right_threshold cfg <=? ms) eqn:Hr.
    { split_ifs; cbn [snd]; congruence. }
    destruct (left_threshold cfg <=? ms) eqn:Hl; [|cbn [snd]; congruence].
    destruct H as [H|[H _]]; [|discriminate H].
    rewrite (leb_trans _ _ _ H Hl) in Hr. discriminate Hr.
Qed.

(** X7 on the classifier the dashboard builds when no thresholds were saved
    (left 550, right 220, hold 825): an amplitude of 600 gives a right
    click, and no amplitude gives a left click. *)
Lemma shadowed_left_click_witness :
  let cfg := CallibriDashboard.muscle_click_config
               (CallibriDashboard.init CallibriDashboard.fallback_thresholds) in
  snd (update_from_signal cfg init [mkSignal [600e-6]] 1000.0) = Some RightClick /\
  snd (update_from_signal cfg init [mkSignal [600e-6]] 1000.0) <> Some LeftClick.
Proof.
  cbv zeta. split; [vm_compute; reflexivity|].
  apply shadowed_left_click. left. vm_compute. reflexivity.
Defined.

(** X8.  In duration mode a right click needs the amplitude to reach
    [right_threshold] without reaching [hold_threshold]: with
    [hold_threshold <= right_threshold] no signal call ever emits one, for
    any configuration, the default one (225 against 250) included. *)
Theorem shadowed_right_click :
  forall (cfg : MuscleClickConfig) (st : MuscleClickDetector)
         (data : list CallibriSignalData) (now : float),
    use_duration_detection cfg = true ->
    (hold_threshold cfg <=? right_threshold cfg) = true ->
    snd (update_from_signal cfg st data now) <> Some RightClick.
Proof.
  intros cfg st data now U H. unfold update_from_signal.
  destruct data as [|d ds]; [cbn [snd]; congruence|]. cbv zeta.
  set (ms := signal_max (d :: ds)).
  set (st2 := if debug_printed_sig (push_buffer st ms) then push_buffer st ms
              else set_debug_printed_sig (push_buffer st ms) true).
  clearbody st2. rewrite U.
  unfold handle_duration_based_click.
  destruct (hold_threshold cfg <=? ms) eqn:Hh.
  { split_ifs; cbn [snd]; congruence. }
  destruct (right_threshold cfg <=? ms) eqn:Hr.
  { rewrite (leb_trans _ _ _ H Hr) in Hh. discriminate Hh. }
  split_ifs; cbn [snd]; congruence.
Qed.

(** X8 with the hold threshold equal to the right threshold. *)
Lemma shadowed_right_click_witness :
  snd (update_from_signal (CallibriDashboard.click_config 150.0 250.0 250.0) init
         [mkSignal [260e-6]] 1000.0) <> Some RightClick.
Proof.
  apply shadowed_right_click; reflexivity.
Defined.

Lemma step_blocked cfg st c :
  (call_time c - last_click_ts st <? cooldown_sec cfg) = true ->
  snd (step cfg st c) = None.
Proof.
  intro H. destruct c as [data now|data now]; cbn [step call_time] in *.
  - unfold update_from_envelope. destruct data as [|d ds]; [reflexivity|].
    cbv zeta.
    destruct (debug_printed_env st); cbn [last_click_ts set_debug_printed_env];
      rewrite H; destruct (_ <? left_threshold cfg); reflexivity.
  - unfold update_from_signal. destruct data as [|d ds]; [reflexivity|].
    cbv zeta.
    set (ms := signal_max (d :: ds)).
    set (st2 := if debug_printed_sig (push_buffer st ms) then push_buffer st ms
                else set_debug_printed_sig (push_buffer st ms) true).
    assert (L : last_click_ts st2 = last_click_ts st).
    { unfold st2. destruct (debug_printed_sig (push_buffer st ms)); reflexivity. }
    clearbody st2.
    unfold handle_duration_based_click, handle_simple_click.
    rewrite L, (ltb_true_leb_false _ _ H).
    split_ifs; reflexivity.
Qed.

(** X9.  While the clock is within the cooldown of the last action
    ([now - last_click_ts < cooldown_sec]), no call on either path emits
    anything, however many calls there are and whatever their amplitudes;
    the time of the last action and the dragging flag stay as they were. *)
Theorem nothing_within_cooldown :
  forall (cfg : MuscleClickConfig) (st : MuscleClickDetector) (calls : list call),
    Forall (fun c => (call_time c - last_click_ts st <? cooldown_sec cfg) = true)
           calls ->
    snd (run cfg st calls) = [] /\
    last_click_ts (fst (run cfg st calls)) = last_click_ts st /\
    is_dragging (fst (run cfg st calls)) = is_dragging st.
Proof.
  intros cfg st calls. revert st.
  induction calls as [|c rest IH]; intros st H; [repeat split; reflexivity|].
  inversion H as [|? ? Hc Hrest]; subst.
  rewrite MuscleClickFacts.run_cons. cbn [fst snd].
  pose proof (step_blocked cfg st c Hc) as B.
  pose proof (MuscleClickFacts.step_last_click_ts cfg st c) as L.
  pose proof (MuscleClickFacts.step_drag cfg st c) as D.
  rewrite B in *.
  destruct (IH (fst (step cfg st c))) as (I1 & I2 & I3).
  { rewrite L. exact Hrest. }
  repeat split; congruence.
Qed.

(** X9 after a drag start at clock 1000 with the default cooldown of 0.5 s:
    three strong contractions in the next 0.4 s emit nothing and the drag
    stays open. *)
Lemma nothing_within_cooldown_witness :
  let st := fst (update_from_signal default_config init [mkSignal [826e-6]] 1000.0) in
  let calls := [Signal [mkSignal [826e-6]] 1000.1; Envelope [mkEnvelope 400e-6] 1000.2;
                Signal [mkSignal [300e-6]] 1000.4] in
  is_dragging st = true /\
  snd (run default_config st calls) = [] /\
  last_click_ts (fst (run default_config st calls)) = last_click_ts st /\
  is_dragging (fst (run default_config st calls)) = is_dragging st.
Proof.
  cbv zeta. split; [reflexivity|].
  apply nothing_within_cooldown.
  repeat constructor.
Defined.

End ClassifierExtras.

(** ** More on the pointer controllers *)

Lemma emit_move_inv a b dx dy :
  emit_move a b = MoveRel dx dy ->
  a = dx /\ b = dy /\ (negb (dx =? 0) || negb (dy =? 0)) = true.
Proof.
  unfold emit_move. destruct (negb (a =? 0) || negb (b =? 0)) eqn:E; [|discriminate].
  intros [= <- <-]. repeat split. exact E.
Qed.

Module OnlineExtras.
Import GyroMouseOnlineMode.


(** [update_mems] neither reads nor writes the two EMG attributes. *)
Lemma online_update_mems_set_emg cfg st s b data now :
  update_mems cfg (set_emg st s b) data now
  = (set_emg (fst (update_mems cfg st data now)) s b,
     snd (update_mems cfg st data now)).
Proof.
  destruct st.
  unfold update_mems, jitter_then_still, still_then_center, center_then_shape,
    shape.
  cbv zeta beta.
  cbn [set_emg set_accum set_neutral set_velocity set_last_update_ts set_last_gyro
       set_still_since set_last_gyro_time
       neutral_gx neutral_gz accum_gx accum_gz accum_count vx vy last_update_ts
       last_gx last_gz still_since last_gyro_time emg_smooth emg_active].
  branches; reflexivity.
Qed.

Lemma online_update_mems_emg cfg st data now :
  emg_smooth (fst (update_mems cfg st data now)) = emg_smooth st /\
  emg_active (fst (update_mems cfg st data now)) = emg_active st.
Proof.
  pose proof (online_update_mems_set_emg cfg st (emg_smooth st) (emg_active st)
                data now) as H.
  replace (set_emg st (emg_smooth st) (emg_active st)) with st in H
    by (destruct st; reflexivity).
  rewrite (surjective_pairing (update_mems cfg st data now)) in H at 1.
  apply (f_equal fst) in H. cbn [fst] in H. rewrite H at 1 2. split; reflexivity.
Qed.

Lemma online_move_emitted cfg st data now st' dx dy :
  update_mems cfg st data now = (st', MoveRel dx dy) ->
  (negb (dx =? 0) || negb (dy =? 0)) = true.
Proof.
  unfold update_mems, jitter_then_still, still_then_center, center_then_shape,
    shape.
  cbv zeta beta. branches; intro H; try discriminate H;
    injection H as _ H; apply (emit_move_inv _ _ _ _ H).
Qed.

(** After the lock, a call that gets past the guards and the rate limiter
    stamps the clock. *)
Lemma online_stamp cfg st data now s :
  accepted data = Some s ->
  (accum_count st <? neutral_samples cfg)%Z = false ->
  (now - last_update_ts st <? update_interval_sec cfg) = false ->
  last_update_ts (fst (update_mems cfg st data now)) = now.
Proof.
  unfold accepted, update_mems. destruct data as [|d0 rest]; [discriminate|].
  cbv zeta. destruct (Gyroscope (last rest d0)) as [gyr|]; [|discriminate].
  destruct (isfinite (pt_X gyr) && isfinite (pt_Z gyr)); [|discriminate].
  intros _ Hc Hr. rewrite Hc, Hr. cbn [negb].
  unfold jitter_then_still, still_then_center, center_then_shape, shape.
  cbv zeta beta. branches; reflexivity.
Qed.

(** After the lock the neutral and the accumulators are never written. *)
Lemma online_frozen cfg st data now :
  (neutral_samples cfg <= accum_count st)%Z ->
  neutral_gx (fst (update_mems cfg st data now)) = neutral_gx st /\
  neutral_gz (fst (update_mems cfg st data now)) = neutral_gz st /\
  accum_gx (fst (update_mems cfg st data now)) = accum_gx st /\
  accum_gz (fst (update_mems cfg st data now)) = accum_gz st.
Proof.
  intro H. apply Z.ltb_ge in H.
  unfold update_mems, jitter_then_still, still_then_center, center_then_shape,
    shape.
  cbv zeta beta. rewrite H.
  branches; cbn; repeat split; reflexivity.
Qed.

End OnlineExtras.

Module GyroExtras.
Import GyroMouseMode.

Section WithPow.
Variable fpow : float -> float -> option float.

Lemma gyro_update_mems_set_emg cfg st s b data now :
  update_mems fpow cfg (set_emg st s b) data now
  = (set_emg (fst (update_mems fpow cfg st data now)) s b,
     snd (update_mems fpow cfg st data now)).
Proof.
  destruct st.
  unfold update_mems, still_then_center, center_then_shape, shape.
  cbv zeta beta.
  cbn [set_emg set_accum set_neutral set_velocity set_last_update_ts set_last_gyro
       set_still_since
       neutral_gx neutral_gz accum_gx accum_gz accum_count vx vy last_update_ts
       last_gx last_gz still_since emg_smooth emg_active].
  branches; reflexivity.
Qed.

Lemma gyro_update_mems_emg cfg st data now :
  emg_smooth (fst (update_mems fpow cfg st data now)) = emg_smooth st /\
  emg_active (fst (update_mems fpow cfg st data now)) = emg_active st.
Proof.
  pose proof (gyro_update_mems_set_emg cfg st (emg_smooth st) (emg_active st)
                data now) as H.
  replace (set_emg st (emg_smooth st) (emg_active st)) with st in H
    by (destruct st; reflexivity).
  rewrite (surjective_pairing (update_mems fpow cfg st data now)) in H at 1.
  apply (f_equal fst) in H. cbn [fst] in H. rewrite H at 1 2. split; reflexivity.
Qed.

Lemma gyro_move_emitted cfg st data now st' dx dy :
  update_mems fpow cfg st data now = (st', MoveRel dx dy) ->
  (negb (dx =? 0) || negb (dy =? 0)) = true.
Proof.
  unfold update_mems, still_then_center, center_then_shape, shape.
  cbv zeta beta. branches; intro H; try discriminate H;
    injection H as _ H; apply (emit_move_inv _ _ _ _ H).
Qed.

Lemma gyro_stamp cfg st data now s :
  accepted data = Some s ->
  (accum_count st <? neutral_samples cfg)%Z = false ->
  (now - last_update_ts st <? update_interval_sec cfg) = false ->
  last_update_ts (fst (update_mems fpow cfg st data now)) = now.
Proof.
  unfold accepted, update_mems. destruct data as [|d0 rest]; [discriminate|].
  cbv zeta. destruct (Gyroscope (last rest d0)) as [gyr|]; [|discriminate].
  destruct (isfinite (pt_X gyr) && isfinite (pt_Z gyr)); [|discriminate].
  intros _ Hc Hr. rewrite Hc, Hr. cbn [negb].
  unfold still_then_center, center_then_shape, shape.
  cbv zeta beta. branches; reflexivity.
Qed.

End WithPow.
End GyroExtras.

Module MemsExtras.
Import MemsMouseMode.

Section WithPow.
Variable fpow : float -> float -> option float.

Lemma project_emitted cfg st ax ay st' dx dy :
  project cfg st ax ay = (st', MoveRel dx dy) ->
  (negb (dx =? 0) || negb (dy =? 0)) = true.
Proof.
  unfold project. cbv zeta beta. branches; intro H;
    injection H as _ H; apply (emit_move_inv _ _ _ _ H).
Qed.

Lemma smooth_emitted cfg st ax ay st' dx dy :
  smooth fpow cfg st ax ay = (st', MoveRel dx dy) ->
  (negb (dx =? 0) || negb (dy =? 0)) = true.
Proof.
  unfold smooth. cbv zeta.
  destruct (joystick_curve fpow _ _); [|discriminate].
  destruct (joystick_curve fpow _ _); [|discriminate].
  apply project_emitted.
Qed.

Lemma mems_move_emitted cfg st data now st' dx dy :
  update_mems fpow cfg st data now = (st', MoveRel dx dy) ->
  (negb (dx =? 0) || negb (dy =? 0)) = true.
Proof.
  unfold update_mems, still_then_shape, shape.
  cbv zeta beta.
  branches; try (intro H; discriminate H); apply smooth_emitted.
Qed.

Lemma project_stamp cfg st ax ay :
  last_update_ts (fst (project cfg st ax ay)) = last_update_ts st.
Proof. unfold project. cbv zeta beta. branches; reflexivity. Qed.

Lemma smooth_stamp cfg st ax ay :
  last_update_ts (fst (smooth fpow cfg st ax ay)) = last_update_ts st.
Proof.
  unfold smooth. cbv zeta.
  destruct (joystick_curve fpow _ _); [|reflexivity].
  destruct (joystick_curve fpow _ _); [|reflexivity].
  rewrite project_stamp. reflexivity.
Qed.

Lemma shape_stamp cfg st ax ay :
  last_update_ts (fst (shape fpow cfg st ax ay)) = last_update_ts st.
Proof.
  unfold shape. rewrite smooth_stamp. unfold recenter. cbv zeta.
  destruct (_ && _); reflexivity.
Qed.

Lemma mems_stamp cfg st data now s :
  accepted data = Some s ->
  (accum_count st <? neutral_samples cfg)%Z = false ->
  (now - last_update_ts st <? update_interval_sec cfg) = false ->
  last_update_ts (fst (update_mems fpow cfg st data now)) = now.
Proof.
  unfold accepted, update_mems. destruct data as [|d0 rest]; [discriminate|].
  cbv zeta. destruct (Accelerometer (last rest d0)) as [acc|]; [|discriminate].
  destruct (isfinite (pt_X acc) && isfinite (pt_Y acc) && isfinite (pt_Z acc));
    [|discriminate].
  intros _ Hc Hr.
  destruct (Gyroscope (last rest d0)) as [gyr|]; rewrite Hc, Hr; cbn [negb];
    (destruct (near_gyro_neutral _ _ _ _ _); [reflexivity|]);
    unfold still_then_shape; cbv zeta;
    (destruct (_ && _); [|apply shape_stamp]);
    (destruct (_ && _); [reflexivity | apply shape_stamp]).
Qed.

End WithPow.
End MemsExtras.

Module MemsGyroFacts.
Import MemsMouseMode.

(** A sample without a gyroscope reads as a gyroscope at rest, which is where
    the lock then puts the gyroscope neutral; from there every later sample
    without a gyroscope is at distance 0 of it. *)
Lemma mems_step_without_gyroscope fpow cfg st data now :
  (0 <? gyro_neutral_eps cfg) = true ->
  Forall (fun m => Gyroscope m = None) data ->
  ((accum_count st < neutral_samples cfg)%Z \/
   (neutral_gx st = Some 0.0 /\ neutral_gy st = Some 0.0 /\ neutral_gz st = Some 0.0)) ->
  let r := update_mems fpow cfg st data now in
  ((accum_count (fst r) < neutral_samples cfg)%Z \/
   (neutral_gx (fst r) = Some 0.0 /\ neutral_gy (fst r) = Some 0.0 /\
    neutral_gz (fst r) = Some 0.0)) /\
  (snd r = Silent \/ snd r = NeutralCaptured).
Proof.
  intros He Hg Hi. cbv zeta. unfold update_mems.
  destruct data as [|d0 rest]; [split; [exact Hi | left; reflexivity]|].
  cbv zeta.
  assert (G : Gyroscope (last rest d0) = None).
  { rewrite Forall_forall in Hg. apply Hg. apply last_in. }
  rewrite G.
  destruct (Accelerometer (last rest d0)) as [acc|];
    [|split; [exact Hi | left; reflexivity]].
  destruct (negb _); [split; [exact Hi | left; reflexivity]|].
  destruct (Z.ltb_spec (accum_count st) (neutral_samples cfg)) as [C|C].
  - cbn [accum_count set_accum].
    destruct (Z.eqb_spec (accum_count st + 1) (neutral_samples cfg)) as [E|E];
      cbn [fst snd].
    + split; [right; repeat split | right; reflexivity].
    + split; [left; cbn [accum_count set_accum]; lia | left; reflexivity].
  - destruct Hi as [Hi|(N1 & N2 & N3)]; [lia|].
    destruct (_ <? update_interval_sec cfg);
      [split; [right; repeat split; assumption | left; reflexivity]|].
    unfold near_gyro_neutral.
    cbn [neutral_gx neutral_gy neutral_gz set_last_update_ts].
    rewrite N1, N2, N3.
    change (sqrt ((0 - 0) * (0 - 0) + (0 - 0) * (0 - 0) + (0 - 0) * (0 - 0)))
      with 0.0.
    rewrite He. cbn [fst snd].
    split; [right; repeat split; assumption | left; reflexivity].
Qed.

End MemsGyroFacts.


Module ControllerExtras.
Import Examples.

(** X10.  The EMG gate of the two gyroscope controllers is inert:
    [update_mems] neither reads nor writes [_emg_smooth] and [_emg_active],
    so a call of [update_emg] before a call of [update_mems] changes neither
    what the pointer does nor the controller, beyond the two EMG attributes
    themselves; the two calls commute. *)
Theorem emg_gate_is_inert :
  forall (fpow : float -> float -> option float) (v : float)
         (data : list MEMSData) (now : float),
    (forall cfg st,
        let r := GyroMouseOnlineMode.update_mems cfg st data now in
        GyroMouseOnlineMode.update_mems cfg
          (GyroMouseOnlineMode.update_emg cfg st v) data now
        = (GyroMouseOnlineMode.update_emg cfg (fst r) v, snd r) /\
        GyroMouseOnlineMode.emg_smooth (fst r) = GyroMouseOnlineMode.emg_smooth st /\
        GyroMouseOnlineMode.emg_active (fst r) = GyroMouseOnlineMode.emg_active st) /\
    (forall cfg st,
        let r := GyroMouseMode.update_mems fpow cfg st data now in
        GyroMouseMode.update_mems fpow cfg
          (GyroMouseMode.update_emg cfg st v) data now
        = (GyroMouseMode.update_emg cfg (fst r) v, snd r) /\
        GyroMouseMode.emg_smooth (fst r) = GyroMouseMode.emg_smooth st /\
        GyroMouseMode.emg_active (fst r) = GyroMouseMode.emg_active st).
Proof.
  intros fpow v data now. split; intros cfg st r; subst r.
  - destruct (OnlineExtras.online_update_mems_emg cfg st data now) as [E1 E2].
    split; [|split; assumption].
    unfold GyroMouseOnlineMode.update_emg. cbv zeta.
    rewrite OnlineExtras.online_update_mems_set_emg, E1. reflexivity.
  - destruct (GyroExtras.gyro_update_mems_emg fpow cfg st data now) as [E1 E2].
    split; [|split; assumption].
    unfold GyroMouseMode.update_emg. cbv zeta.
    rewrite GyroExtras.gyro_update_mems_set_emg, E1. reflexivity.
Qed.

(** X11.  No controller ever asks for a move of nothing: a call that emits
    [moveRel(dx, dy)] has [dx != 0.0 or dy != 0.0]. *)
Theorem never_moves_by_zero :
  forall (fpow : float -> float -> option float)
         (data : list MEMSData) (now dx dy : float),
    (forall cfg st st',
        MemsMouseMode.update_mems fpow cfg st data now = (st', MoveRel dx dy) ->
        (negb (dx =? 0) || negb (dy =? 0)) = true) /\
    (forall cfg st st',
        GyroMouseMode.update_mems fpow cfg st data now = (st', MoveRel dx dy) ->
        (negb (dx =? 0) || negb (dy =? 0)) = true) /\
    (forall cfg st st',
        GyroMouseOnlineMode.update_mems cfg st data now = (st', MoveRel dx dy) ->
        (negb (dx =? 0) || negb (dy =? 0)) = true).
Proof.
  intros fpow data now dx dy. split; [|split]; intros cfg st st'.
  - apply MemsExtras.mems_move_emitted.
  - apply GyroExtras.gyro_move_emitted.
  - apply OnlineExtras.online_move_emitted.
Qed.

(** X12.  After the lock, a call that gets past the guards and the rate
    limiter at clock [now] stamps [now] as the time of the last update in
    every variant, whatever its branch does next (the [OverflowError] of the
    response curve included); hence a packet that comes at a clock [now']
    with [now' - now < update_interval_sec] is dropped whole. *)
Theorem rate_limiter_window_opens_at_last_update :
  forall (fpow : float -> float -> option float)
         (data data' : list MEMSData) (now now' : float) (s : Point3D),
    (forall cfg st,
        MemsMouseMode.accepted data = Some s ->
        (MemsMouseMode.neutral_samples cfg <= MemsMouseMode.accum_count st)%Z ->
        (now - MemsMouseMode.last_update_ts st
         <? MemsMouseMode.update_interval_sec cfg) = false ->
        (now' - now <? MemsMouseMode.update_interval_sec cfg) = true ->
        let st1 := fst (MemsMouseMode.update_mems fpow cfg st data now) in
        MemsMouseMode.last_update_ts st1 = now /\
        MemsMouseMode.update_mems fpow cfg st1 data' now' = (st1, Silent)) /\
    (forall cfg st,
        GyroMouseMode.accepted data = Some s ->
        (GyroMouseMode.neutral_samples cfg <= GyroMouseMode.accum_count st)%Z ->
        (now - GyroMouseMode.last_update_ts st
         <? GyroMouseMode.update_interval_sec cfg) = false ->
        (now' - now <? GyroMouseMode.update_interval_sec cfg) = true ->
        let st1 := fst (GyroMouseMode.update_mems fpow cfg st data now) in
        GyroMouseMode.last_update_ts st1 = now /\
        GyroMouseMode.update_mems fpow cfg st1 data' now' = (st1, Silent)) /\
    (forall cfg st,
        GyroMouseOnlineMode.accepted data = Some s ->
        (GyroMouseOnlineMode.neutral_samples cfg
         <= GyroMouseOnlineMode.accum_count st)%Z ->
        (now - GyroMouseOnlineMode.last_update_ts st
         <? GyroMouseOnlineMode.update_interval_sec cfg) = false ->
        (now' - now <? GyroMouseOnlineMode.update_interval_sec cfg) = true ->
        let st1 := fst (GyroMouseOnlineMode.update_mems cfg st data now) in
        GyroMouseOnlineMode.last_update_ts st1 = now /\
        GyroMouseOnlineMode.update_mems cfg st1 data' now' = (st1, Silent)).
Proof.
  intros fpow data data' now now' s. split; [|split];
    intros cfg st Ha Hn Hr Hw st1; subst st1; pose proof Hn as Hn';
    apply Z.ltb_ge in Hn.
  - pose proof (MemsExtras.mems_stamp fpow cfg st data now s Ha Hn Hr) as T.
    split; [exact T|].
    apply MemsFacts.mems_rate_limited; [|rewrite T; exact Hw].
    destruct (MemsFacts.mems_after_lock fpow cfg st data now Hn') as [-> _].
    exact Hn.
  - pose proof (GyroExtras.gyro_stamp fpow cfg st data now s Ha Hn Hr) as T.
    split; [exact T|].
    apply GyroFacts.gyro_rate_limited; [|rewrite T; exact Hw].
    destruct (GyroFacts.gyro_after_lock fpow cfg st data now Hn') as [-> _].
    exact Hn.
  - pose proof (OnlineExtras.online_stamp cfg st data now s Ha Hn Hr) as T.
    split; [exact T|].
    apply OnlineFacts.online_rate_limited; [|rewrite T; exact Hw].
    destruct (OnlineFacts.online_after_lock cfg st data now Hn') as [-> _].
    exact Hn.
Qed.

(** X12 on [GyroMouseOnlineMode] with its default interval of 4 ms: a
    packet at clock 1000 is processed, and the packet that comes 1 ms later
    is dropped. *)
Lemma rate_limiter_window_opens_at_last_update_witness :
  let st1 := fst (GyroMouseOnlineMode.update_mems (online_config 8.0 50 50.0)
                    (online_locked 0.0) (gyro_packet 3.0 4.0) 1000.0) in
  GyroMouseOnlineMode.last_update_ts st1 = 1000.0 /\
  GyroMouseOnlineMode.update_mems (online_config 8.0 50 50.0) st1
    (gyro_packet 9.0 9.0) 1000.001 = (st1, Silent).
Proof.
  destruct (rate_limiter_window_opens_at_last_update pow_sample
              (gyro_packet 3.0 4.0) (gyro_packet 9.0 9.0) 1000.0 1000.001
              (mkPoint3D 3.0 0.0 4.0)) as (_ & _ & O).
  apply (O (online_config 8.0 50 50.0) (online_locked 0.0)).
  - reflexivity.
  - vm_compute. congruence.
  - vm_compute. reflexivity.
  - vm_compute. reflexivity.
Defined.

(** X13.  [GyroMouseOnlineMode] never re-centres.  Once the calibration is
    over, no sequence of packets changes the neutral or the accumulators;
    and [recenter_alpha], like the two EMG settings, is read by no step of
    [update_mems]: a controller configured with other values for them
    behaves the same. *)
Theorem online_neutral_is_final :
  forall (cfg : GyroMouseOnlineMode.GyroMouseOnlineConfig)
         (st : GyroMouseOnlineMode.state)
         (packets : list (list MEMSData * float)),
    (GyroMouseOnlineMode.neutral_samples cfg
     <= GyroMouseOnlineMode.accum_count st)%Z ->
    let st' := fst (run_mems (GyroMouseOnlineMode.update_mems cfg) st packets) in
    (GyroMouseOnlineMode.neutral_gx st' = GyroMouseOnlineMode.neutral_gx st /\
     GyroMouseOnlineMode.neutral_gz st' = GyroMouseOnlineMode.neutral_gz st /\
     GyroMouseOnlineMode.accum_gx st' = GyroMouseOnlineMode.accum_gx st /\
     GyroMouseOnlineMode.accum_gz st' = GyroMouseOnlineMode.accum_gz st /\
     GyroMouseOnlineMode.accum_count st' = GyroMouseOnlineMode.accum_count st) /\
    (forall r e a data now,
        GyroMouseOnlineMode.update_mems
          {| GyroMouseOnlineMode.sensitivity_x := GyroMouseOnlineMode.sensitivity_x cfg;
             GyroMouseOnlineMode.sensitivity_y := GyroMouseOnlineMode.sensitivity_y cfg;
             GyroMouseOnlineMode.neutral_samples :=
               GyroMouseOnlineMode.neutral_samples cfg;
             GyroMouseOnlineMode.update_interval_sec :=
               GyroMouseOnlineMode.update_interval_sec cfg;
             GyroMouseOnlineMode.deadzone_deg := GyroMouseOnlineMode.deadzone_deg cfg;
             GyroMouseOnlineMode.max_step_px := GyroMouseOnlineMode.max_step_px cfg;
             GyroMouseOnlineMode.smooth_alpha := GyroMouseOnlineMode.smooth_alpha cfg;
             GyroMouseOnlineMode.center_eps_deg :=
               GyroMouseOnlineMode.center_eps_deg cfg;
             GyroMouseOnlineMode.recenter_alpha := r;
             GyroMouseOnlineMode.still_eps_deg := GyroMouseOnlineMode.still_eps_deg cfg;
             GyroMouseOnlineMode.still_timeout_sec :=
               GyroMouseOnlineMode.still_timeout_sec cfg;
             GyroMouseOnlineMode.emg_threshold := e;
             GyroMouseOnlineMode.emg_smooth_alpha := a |} st data now
        = GyroMouseOnlineMode.update_mems cfg st data now).
Proof.
  intros cfg st packets H st'. subst st'. split; [|intros; reflexivity].
  revert st H. induction packets as [|[data now] rest IH]; intros st H;
    [repeat split; reflexivity|].
  rewrite (run_mems_cons (GyroMouseOnlineMode.update_mems cfg)). cbn [fst].
  destruct (OnlineFacts.online_after_lock cfg st data now H) as [C _].
  destruct (OnlineExtras.online_frozen cfg st data now H) as (F1 & F2 & F3 & F4).
  destruct (IH (fst (GyroMouseOnlineMode.update_mems cfg st data now)))
    as (I1 & I2 & I3 & I4 & I5); [rewrite C; exact H|].
  repeat split; congruence.
Qed.

(** X13 on a controller configured with [neutral_samples = 0]: it is never
    calibrated, and after a packet far from rest the neutral is still the
    0.0 of [__init__]. *)
Lemma online_neutral_is_final_witness :
  let r := run_mems (GyroMouseOnlineMode.update_mems (online_config 8.0 0 50.0))
             GyroMouseOnlineMode.init
             [(gyro_packet 30.0 40.0, 1000.0); (gyro_packet 31.0 41.0, 1000.1)] in
  is_lock_report (hd Silent (snd r)) = false /\
  GyroMouseOnlineMode.neutral_gx (fst r) = 0.0 /\
  GyroMouseOnlineMode.neutral_gz (fst r) = 0.0.
Proof.
  cbv zeta. split; [vm_compute; reflexivity|].
  destruct (online_neutral_is_final (online_config 8.0 0 50.0)
              GyroMouseOnlineMode.init
              [(gyro_packet 30.0 40.0, 1000.0); (gyro_packet 31.0 41.0, 1000.1)])
    as ((N1 & N2 & _) & _).
  - cbn. lia.
  - split; [exact N1 | exact N2].
Defined.

(** X14.  The axis dominance of [MemsMouseMode]: when the velocity of one
    axis exceeds 1.5 times the other's, the displacement emitted for the
    other axis is exactly zero (for finite sensitivities and a step limit
    that is not negative); [swap_axes] decides which screen axis that is. *)
Theorem dominant_axis_silences_other :
  forall (cfg : MemsMouseMode.MemsMouseConfig) (st st' : MemsMouseMode.state)
         (ax ay px py : float),
    is_finite (MemsMouseMode.sensitivity_x cfg) = true ->
    is_finite (MemsMouseMode.sensitivity_y cfg) = true ->
    (MemsMouseMode.max_step_px cfg <? 0) = false ->
    MemsMouseMode.project cfg st ax ay = (st', MoveRel px py) ->
    ((1.5 * abs (MemsMouseMode.vy_g st) <? abs (MemsMouseMode.vx_g st)) = true ->
     is_zero (if MemsMouseMode.swap_axes cfg then px else py) = true) /\
    ((1.5 * abs (MemsMouseMode.vy_g st) <? abs (MemsMouseMode.vx_g st)) = false ->
     (1.5 * abs (MemsMouseMode.vx_g st) <? abs (MemsMouseMode.vy_g st)) = true ->
     is_zero (if MemsMouseMode.swap_axes cfg then py else px) = true).
Proof.
  intros cfg st st' ax ay px py Hsx Hsy Hm.
  unfold MemsMouseMode.project, emit_move. cbv zeta beta.
  intro H. split.
  - intro D. rewrite D in H. revert H.
    branches; intro H; try discriminate H; injection H as _ <- <-;
      auto 8 with fzero.
  - intros D1 D2. rewrite D1, D2 in H. revert H.
    branches; intro H; try discriminate H; injection H as _ <- <-;
      auto 8 with fzero.
Qed.

(** X14 on the default configuration with a velocity of 0.05 g across and
    0.01 g along: the pointer moves 40 px to the right (the step limit) and
    not at all vertically. *)
Lemma dominant_axis_silences_other_witness :
  exists st' px py,
    MemsMouseMode.project MemsMouseMode.default_config
      (MemsMouseMode.set_velocity mems_locked 0.05 0.01) 0.05 0.01
    = (st', MoveRel px py) /\
    px = 40.0 /\ is_zero py = true.
Proof.
  pose (r := MemsMouseMode.project MemsMouseMode.default_config
               (MemsMouseMode.set_velocity mems_locked 0.05 0.01) 0.05 0.01).
  assert (E : r = (fst r, MoveRel 40.0 (-0.0))) by (vm_compute; reflexivity).
  exists (fst r), 40.0, (-0.0). split; [exact E|]. split; [reflexivity|].
  exact (proj1 (dominant_axis_silences_other MemsMouseMode.default_config
                  (MemsMouseMode.set_velocity mems_locked 0.05 0.01) (fst r)
                  0.05 0.01 40.0 (-0.0) eq_refl eq_refl eq_refl E) eq_refl).
Defined.

(** X18.  [MemsMouseMode] fed samples that have no gyroscope never moves
    the pointer.  Such a sample reads as rates of 0.0, the lock stores them
    as the gyroscope neutral, and from then on the distance to that neutral
    is 0, below any positive [gyro_neutral_eps] (6.0 by default): every call
    resets the velocity and returns.  This holds for a fresh controller
    with [neutral_samples >= 1], whatever the accelerations. *)
Theorem accelerometer_alone_never_moves :
  forall (fpow : float -> float -> option float)
         (cfg : MemsMouseMode.MemsMouseConfig)
         (packets : list (list MEMSData * float)),
    (1 <= MemsMouseMode.neutral_samples cfg)%Z ->
    (0 <? MemsMouseMode.gyro_neutral_eps cfg) = true ->
    Forall (fun p => Forall (fun m => Gyroscope m = None) (fst p)) packets ->
    Forall (fun o => o = Silent \/ o = NeutralCaptured)
           (snd (run_mems (MemsMouseMode.update_mems fpow cfg)
                   MemsMouseMode.init packets)).
Proof.
  intros fpow cfg packets HN He.
  assert (G : forall st,
             ((MemsMouseMode.accum_count st < MemsMouseMode.neutral_samples cfg)%Z \/
              (MemsMouseMode.neutral_gx st = Some 0.0 /\
               MemsMouseMode.neutral_gy st = Some 0.0 /\
               MemsMouseMode.neutral_gz st = Some 0.0)) ->
             Forall (fun p => Forall (fun m => Gyroscope m = None) (fst p)) packets ->
             Forall (fun o => o = Silent \/ o = NeutralCaptured)
                    (snd (run_mems (MemsMouseMode.update_mems fpow cfg) st packets))).
  { induction packets as [|[data now] rest IH]; intros st Hi Hp; [constructor|].
    inversion Hp as [|? ? Hd Hrest]; subst. cbn [fst] in Hd.
    rewrite (run_mems_cons (MemsMouseMode.update_mems fpow cfg)). cbn [snd].
    destruct (MemsGyroFacts.mems_step_without_gyroscope fpow cfg st data now He Hd Hi)
      as [Hi' Ho].
    constructor; [exact Ho | apply IH; assumption]. }
  apply G. left. cbn [MemsMouseMode.accum_count MemsMouseMode.init]. lia.
Qed.

(** X18 on the default configuration with a calibration of two samples: a
    third sample tilted by 0.5 g, which would move the pointer had the
    packets a gyroscope reading away from rest, moves nothing. *)
Lemma accelerometer_alone_never_moves_witness :
  snd (run_mems (MemsMouseMode.update_mems pow_sample (mems_config 2 0.06))
         MemsMouseMode.init
         [(accel_packet 0.0 0.0 1.0, 1000.0); (accel_packet 0.0 0.0 1.0, 1000.1);
          (accel_packet 0.5 0.0 1.0, 1000.2)])
    = [Silent; NeutralCaptured; Silent] /\
  Forall (fun o => o = Silent \/ o = NeutralCaptured)
         (snd (run_mems (MemsMouseMode.update_mems pow_sample (mems_config 2 0.06))
                 MemsMouseMode.init
                 [(accel_packet 0.0 0.0 1.0, 1000.0); (accel_packet 0.0 0.0 1.0, 1000.1);
                  (accel_packet 0.5 0.0 1.0, 1000.2)])).
Proof.
  split; [vm_compute; reflexivity|].
  apply accelerometer_alone_never_moves.
  - cbn. lia.
  - reflexivity.
  - repeat constructor.
Defined.

End ControllerExtras.

(** ** The dashboard *)

Module DashboardFacts.
Import CallibriDashboard.

Lemma dashboard_run_cons st c rest :
  run st (c :: rest) =
  (fst (run (fst (step st c)) rest),
   match snd (step st c) with
   | Some e => e :: snd (run (fst (step st c)) rest)
   | None => snd (run (fst (step st c)) rest)
   end).
Proof. reflexivity. Qed.

(** What [_on_mems] does to the controller and what it emits. *)
Lemma on_mems_controller st data now :
  mems_mouse (fst (on_mems st data now))
  = (if forwarded data
     then fst (GyroMouseOnlineMode.update_mems mouse_config (mems_mouse st) data now)
     else mems_mouse st) /\
  snd (on_mems st data now)
  = (if forwarded data
     then snd (GyroMouseOnlineMode.update_mems mouse_config (mems_mouse st) data now)
     else Silent) /\
  muscle_click (fst (on_mems st data now)) = muscle_click st /\
  muscle_click_config (fst (on_mems st data now)) = muscle_click_config st.
Proof.
  unfold on_mems, forwarded. destruct data as [|d0 rest]; [repeat split|].
  cbv zeta.
  destruct (Accelerometer (last rest d0)), (Gyroscope (last rest d0));
    repeat split.
Qed.




Lemma filter_samples packets :
  accepted_samples GyroMouseOnlineMode.accepted
    (filter (fun p => forwarded (fst p)) packets)
  = accepted_samples accepted packets.
Proof.
  induction packets as [|[data now] rest IH]; [reflexivity|].
  rewrite (samples_cons accepted). cbn [filter fst]. unfold accepted at 1.
  destruct (forwarded data) eqn:F.
  - rewrite (samples_cons GyroMouseOnlineMode.accepted), IH. reflexivity.
  - exact IH.
Qed.

(** The controller of a dashboard fed MEMS deliveries is the controller fed
    the deliveries the dashboard forwards. *)
Lemma run_forwarded packets :
  forall st,
    let rc := run_mems (GyroMouseOnlineMode.update_mems mouse_config) (mems_mouse st)
                (filter (fun p => forwarded (fst p)) packets) in
    mems_mouse (fst (run_mems on_mems st packets)) = fst rc /\
    lock_reports (snd (run_mems on_mems st packets)) = lock_reports (snd rc) /\
    (Forall (eq Silent) (snd rc) ->
     Forall (eq Silent) (snd (run_mems on_mems st packets))).
Proof.
  induction packets as [|[data now] rest IH]; intro st; cbv zeta.
  - repeat split. intros _. constructor.
  - rewrite (run_mems_cons on_mems). cbn [fst snd filter].
    destruct (on_mems_controller st data now) as (M & O & _ & _).
    destruct (IH (fst (on_mems st data now))) as (I1 & I2 & I3).
    rewrite lock_reports_cons, I1, I2, O, M.
    destruct (forwarded data).
    + rewrite (run_mems_cons (GyroMouseOnlineMode.update_mems mouse_config)).
      cbn [fst snd]. rewrite lock_reports_cons.
      repeat split. intro H. inversion H as [|? ? H1 H2]; subst.
      constructor; [exact H1|]. apply I3. rewrite M. exact H2.
    + cbn [is_lock_report]. repeat split. intro H.
      constructor; [reflexivity|]. apply I3. rewrite M. exact H.
Qed.

End DashboardFacts.


Module GestureFacts.
Import CallibriDashboard DashboardFacts.

Lemma classified_cons c rest :
  classified (c :: rest) =
  match c with
  | OnSignal (d0 :: ds) now =>
    match MuscleClick.Samples (last ds d0) with
    | [] => []
    | _ :: _ => [MuscleClick.Signal (d0 :: ds) now]
    end
  | _ => []
  end ++ classified rest.
Proof. reflexivity. Qed.

Lemma gestures_cons e es :
  gestures (e :: es) =
  match e with Gesture g => [g] | Pointer _ _ => [] end ++ gestures es.
Proof. reflexivity. Qed.

End GestureFacts.


Module DialogFacts.
Import ThresholdDialog.

Lemma session_amplitudes_cons p rest :
  session_amplitudes (p :: rest) =
  match fst (fst p) with
  | d :: ds => [MuscleClick.signal_max (d :: ds)]
  | [] => []
  end ++ session_amplitudes rest.
Proof. reflexivity. Qed.

(** The statistics after more deliveries, from statistics that are right
    for the history [h] so far. *)
Lemma deliveries_statistics deliveries :
  forall (d0 : ThresholdDialog) (h : list float),
    samples_count d0 = Z.of_nat (length h) ->
    emg_data d0 = lastn (max_points d0) h ->
    (0 <=? max_emg d0) = true ->
    Forall (fun a => (a <=? max_emg d0) = true) h ->
    (max_emg d0 = 0.0 \/ In (max_emg d0) h) ->
    let d := fold_left (fun d p => on_signal d (fst (fst p)) (snd (fst p)) (snd p))
                       deliveries d0 in
    let amps := h ++ session_amplitudes deliveries in
    max_points d = max_points d0 /\
    samples_count d = Z.of_nat (length amps) /\
    emg_data d = lastn (max_points d0) amps /\
    (0 <=? max_emg d) = true /\
    Forall (fun a => (a <=? max_emg d) = true) amps /\
    (max_emg d = 0.0 \/ In (max_emg d) amps).
Proof.
  induction deliveries as [|[[data c1] c2] rest IH]; intros d0 h Hc Hq H0 Hall Hin;
    cbv zeta.
  - cbn [fold_left session_amplitudes flat_map]. rewrite app_nil_r.
    repeat split; assumption.
  - cbn [fold_left fst snd]. rewrite session_amplitudes_cons. cbn [fst].
    destruct data as [|p ps].
    + cbn [on_signal app]. apply IH; assumption.
    + rewrite app_assoc.
      set (a := MuscleClick.signal_max (p :: ps)).
      assert (Na : is_nan a = false /\ (0 <=? a) = true).
      { unfold a. rewrite AmplitudeFacts.signal_max_scan.
        destruct (AmplitudeFacts.signal_scan_grows (p :: ps) 0.0 eq_refl) as [H _].
        split; [apply (leb_true_not_nan _ _ H) | exact H]. }
      destruct Na as [Na Pa].
      assert (Nm : is_nan (max_emg d0) = false) by apply (leb_true_not_nan _ _ H0).
      destruct (py_max2_ge (max_emg d0) a Nm) as [Nm' Lm].
      pose proof (py_max2_ge_r (max_emg d0) a Nm Na) as La.
      specialize (IH (on_signal d0 (p :: ps) c1 c2) (h ++ [a])).
      cbv zeta in IH.
      cbn [on_signal max_points samples_count emg_data max_emg] in IH.
      fold a in IH.
      apply IH; clear IH.
      * rewrite Hc, length_app. cbn [length]. lia.
      * rewrite Hq. apply deque_append_lastn.
      * eapply leb_trans; eassumption.
      * apply Forall_app. split.
        { revert Hall. apply Forall_impl. intros x Hx.
          eapply leb_trans; eassumption. }
        { constructor; [exact La | constructor]. }
      * unfold py_max2. destruct (max_emg d0 <? a).
        { right. apply in_or_app. right. left. reflexivity. }
        { destruct Hin as [Hin|Hin]; [left; exact Hin|].
          right. apply in_or_app. left. exact Hin. }
Qed.

End DialogFacts.


Module DashboardExtras.
Import CallibriDashboard DashboardFacts.


(** X16.  The calibration as the dashboard runs it (100 samples): the
    samples that count are those of the deliveries whose last sample has
    both an accelerometer and a gyroscope, with finite rates about X and Z.
    Until 100 of them have come every MEMS callback is silent; when exactly
    100 have come each neutral is their sum in arrival order over
    [float(100)]; and from then on the lock has been reported once. *)
Theorem dashboard_calibration :
  forall (saved : float * float * float) (packets : list (list MEMSData * float)),
    let acc := accepted_samples accepted packets in
    let r := run_mems on_mems (init saved) packets in
    ((Z.of_nat (length acc) < 100)%Z -> Forall (eq Silent) (snd r)) /\
    (Z.of_nat (length acc) = 100%Z ->
     GyroMouseOnlineMode.neutral_gx (mems_mouse (fst r))
       = fsum (map pt_X acc) / float_of_int 100 /\
     GyroMouseOnlineMode.neutral_gz (mems_mouse (fst r))
       = fsum (map pt_Z acc) / float_of_int 100) /\
    ((100 <= Z.of_nat (length acc))%Z -> lock_reports (snd r) = 1%nat).
Proof.
  intros saved packets acc r. subst acc r.
  destruct (run_forwarded packets (init saved)) as (M & L & S).
  rewrite <- filter_samples.
  assert (I : mems_mouse (init saved) = GyroMouseOnlineMode.init)
    by (destruct saved as [[? ?] ?]; reflexivity).
  rewrite I in *.
  split; [|split].
  - intro H. apply S.
    apply (run_warming _ _ _ GyroMouseOnlineMode.accum_count
             (OnlineFacts.online_rejected mouse_config)
             (OnlineFacts.online_calibrating mouse_config)).
    cbn [GyroMouseOnlineMode.accum_count GyroMouseOnlineMode.init
         GyroMouseOnlineMode.neutral_samples mouse_config]. lia.
  - intro H. rewrite M. unfold fsum. split.
    + apply (run_axis _ _ _ GyroMouseOnlineMode.accum_count
               (OnlineFacts.online_rejected mouse_config)
               (OnlineFacts.online_calibrating mouse_config)
               GyroMouseOnlineMode.accum_gx GyroMouseOnlineMode.neutral_gx pt_X
               (OnlineFacts.online_calibrating_gx mouse_config));
        cbn [GyroMouseOnlineMode.accum_count GyroMouseOnlineMode.init
             GyroMouseOnlineMode.neutral_samples mouse_config]; lia.
    + apply (run_axis _ _ _ GyroMouseOnlineMode.accum_count
               (OnlineFacts.online_rejected mouse_config)
               (OnlineFacts.online_calibrating mouse_config)
               GyroMouseOnlineMode.accum_gz GyroMouseOnlineMode.neutral_gz pt_Z
               (OnlineFacts.online_calibrating_gz mouse_config));
        cbn [GyroMouseOnlineMode.accum_count GyroMouseOnlineMode.init
             GyroMouseOnlineMode.neutral_samples mouse_config]; lia.
  - intro H. rewrite L.
    apply (run_reports_once _ _ _ GyroMouseOnlineMode.accum_count
             (OnlineFacts.online_rejected mouse_config)
             (OnlineFacts.online_calibrating mouse_config)
             (OnlineFacts.online_after_lock mouse_config));
      cbn [GyroMouseOnlineMode.accum_count GyroMouseOnlineMode.init
           GyroMouseOnlineMode.neutral_samples mouse_config]; lia.
Qed.

(** X16 on a hundred deliveries at rest with both sensors, followed by one
    that has the gyroscope only, which the dashboard does not forward: the
    neutrals are the means and the lock is reported once. *)
Lemma dashboard_calibration_witness :
  let both := [mkMEMSData (Some (mkPoint3D 0.0 0.0 1.0))
                          (Some (mkPoint3D 1.0 0.0 2.0))] in
  let packets := repeat (both, 1000.0) 100 ++ [(Examples.gyro_packet 9.0 9.0, 1001.0)] in
  let r := run_mems on_mems (init fallback_thresholds) packets in
  (GyroMouseOnlineMode.neutral_gx (mems_mouse (fst r)) = 1.0 /\
   GyroMouseOnlineMode.neutral_gz (mems_mouse (fst r)) = 2.0) /\
  lock_reports (snd r) = 1%nat.
Proof.
  cbv zeta.
  destruct (dashboard_calibration fallback_thresholds
              (repeat ([mkMEMSData (Some (mkPoint3D 0.0 0.0 1.0))
                                   (Some (mkPoint3D 1.0 0.0 2.0))], 1000.0) 100
               ++ [(Examples.gyro_packet 9.0 9.0, 1001.0)]))
    as (_ & Hmean & Hlock).
  split.
  - destruct Hmean as [Hx Hz]; [vm_compute; reflexivity|].
    rewrite Hx, Hz. split; vm_compute; reflexivity.
  - apply Hlock. vm_compute. congruence.
Defined.

(** X19.  Between two changes of the thresholds, the gestures of the
    dashboard are those of the classifier run on the signal deliveries whose
    last packet carries samples, in order, with the live configuration; the
    MEMS, quaternion and envelope callbacks in between play no part, and a
    delivery whose last packet is empty is not classified. *)
Theorem dashboard_gestures_are_classifier_runs :
  forall (st : CallibriDashboard.state) (cs : list CallibriDashboard.callback),
    forallb (fun c => negb (CallibriDashboard.is_thresholds c)) cs = true ->
    CallibriDashboard.gestures (snd (CallibriDashboard.run st cs))
    = map fst (snd (MuscleClick.run (CallibriDashboard.muscle_click_config st)
                      (CallibriDashboard.muscle_click st)
                      (CallibriDashboard.classified cs))).
Proof.
  intros st cs. revert st.
  induction cs as [|c rest IH]; intros st H; [reflexivity|].
  cbn [forallb] in H. apply andb_true_iff in H. destruct H as [Hc Hrest].
  rewrite DashboardFacts.dashboard_run_cons, GestureFacts.classified_cons. cbn [snd].
  destruct c as [data now| |data|data now|l r h]; try discriminate Hc;
    cbn [CallibriDashboard.step fst snd app].
  - destruct (DashboardFacts.on_mems_controller st data now) as (_ & _ & K & G).
    rewrite <- K, <- G.
    destruct (snd (CallibriDashboard.on_mems st data now));
      rewrite ?GestureFacts.gestures_cons; cbn [app]; apply IH; exact Hrest.
  - apply IH; exact Hrest.
  - assert (E : CallibriDashboard.muscle_click (CallibriDashboard.on_envelope st data)
                = CallibriDashboard.muscle_click st /\
                CallibriDashboard.muscle_click_config
                  (CallibriDashboard.on_envelope st data)
                = CallibriDashboard.muscle_click_config st).
    { unfold CallibriDashboard.on_envelope. destruct data; split; reflexivity. }
    destruct E as [K G]. rewrite <- K, <- G. apply IH; exact Hrest.
  - unfold CallibriDashboard.on_signal.
    destruct data as [|d0 ds]; [cbn [fst snd option_map app]; apply IH; exact Hrest|].
    destruct (MuscleClick.Samples (last ds d0)) as [|x xs];
      [cbn [fst snd option_map app]; apply IH; exact Hrest|].
    cbv zeta. cbn [fst snd app].
    rewrite MuscleClickFacts.run_cons. cbn [MuscleClick.step snd].
    set (u := MuscleClick.update_from_signal
                (CallibriDashboard.muscle_click_config st)
                (CallibriDashboard.muscle_click st) (d0 :: ds) now).
    specialize (IH {| CallibriDashboard.mems_mouse := CallibriDashboard.mems_mouse st;
                      CallibriDashboard.muscle_click := fst u;
                      CallibriDashboard.muscle_click_config :=
                        CallibriDashboard.muscle_click_config st;
                      CallibriDashboard.emg_env := CallibriDashboard.emg_env st;
                      CallibriDashboard.emg_sig :=
                        deque_append CallibriDashboard.max_points
                          (CallibriDashboard.emg_sig st)
                          (py_max (abs x) (map abs xs));
                      CallibriDashboard.acc_x := CallibriDashboard.acc_x st;
                      CallibriDashboard.acc_y := CallibriDashboard.acc_y st;
                      CallibriDashboard.acc_z := CallibriDashboard.acc_z st;
                      CallibriDashboard.gyr_x := CallibriDashboard.gyr_x st;
                      CallibriDashboard.gyr_y := CallibriDashboard.gyr_y st;
                      CallibriDashboard.gyr_z := CallibriDashboard.gyr_z st |} Hrest).
    cbn [CallibriDashboard.muscle_click CallibriDashboard.muscle_click_config] in IH.
    destruct (snd u) as [e|]; cbn [option_map map fst].
    + rewrite GestureFacts.gestures_cons. cbn [app]. rewrite IH. reflexivity.
    + exact IH.
Qed.

(** X19 on a dashboard without saved thresholds (left 550, right 220, hold
    825): of three signal deliveries the second ends with an empty packet
    and is not classified, though its first packet is above the hold
    threshold. *)
Lemma dashboard_gestures_are_classifier_runs_witness :
  let st := CallibriDashboard.init CallibriDashboard.fallback_thresholds in
  let cs := [CallibriDashboard.OnSignal [MuscleClick.mkSignal [900e-6]] 1000.0;
             CallibriDashboard.OnEnvelope [MuscleClick.mkEnvelope 9.0];
             CallibriDashboard.OnSignal
               [MuscleClick.mkSignal [900e-6]; MuscleClick.mkSignal []] 1001.0;
             CallibriDashboard.OnSignal [MuscleClick.mkSignal [600e-6]] 1002.0] in
  CallibriDashboard.gestures (snd (CallibriDashboard.run st cs))
    = [MuscleClick.DragStart; MuscleClick.RightClick] /\
  CallibriDashboard.gestures (snd (CallibriDashboard.run st cs))
    = map fst (snd (MuscleClick.run (CallibriDashboard.muscle_click_config st)
                      (CallibriDashboard.muscle_click st)
                      (CallibriDashboard.classified cs))).
Proof.
  cbv zeta. split; [vm_compute; reflexivity|].
  apply dashboard_gestures_are_classifier_runs. reflexivity.
Defined.

End DashboardExtras.

Module DialogExtras.
Import ThresholdDialog DialogFacts.

(** X17.  The statistics of a test session of the thresholds dialog, after
    any deliveries of the signal callback: [samples_count] is the number of
    deliveries that were not empty; the plotted queue holds the amplitudes
    of the last [max_points] of them, oldest first; and the displayed
    maximum is a number that no recorded amplitude exceeds, equal to 0.0 or
    to one of the amplitudes. *)
Theorem session_statistics :
  forall (dlg : ThresholdDialog)
         (deliveries : list (list MuscleClick.CallibriSignalData * float * float)),
    let d := session dlg deliveries in
    let amps := session_amplitudes deliveries in
    samples_count d = Z.of_nat (length amps) /\
    emg_data d = lastn (max_points dlg) amps /\
    is_nan (max_emg d) = false /\
    Forall (fun a => (a <=? max_emg d) = true) amps /\
    (max_emg d = 0.0 \/ In (max_emg d) amps).
Proof.
  intros dlg deliveries. cbv zeta. unfold session.
  destruct (deliveries_statistics deliveries (reset_data dlg) [])
    as (_ & C & Q & Hz & A & Hi);
    try reflexivity; [constructor | left; reflexivity |].
  cbn [app] in *. cbn [reset_data max_points] in Q.
  repeat split; try assumption.
  apply (leb_true_not_nan _ _ Hz).
Qed.

End DialogExtras.


(** ** Runs of deliveries that move nothing *)

Module PatternFacts.

(** One delivery of a burst: the jitter filter drops it after stamping the
    two clocks. *)
Lemma online_burst_step cfg st data now s :
  GyroMouseOnlineMode.accepted data = Some s ->
  (GyroMouseOnlineMode.neutral_samples cfg <= GyroMouseOnlineMode.accum_count st)%Z ->
  (now - GyroMouseOnlineMode.last_update_ts st
   <? GyroMouseOnlineMode.update_interval_sec cfg) = false ->
  (0 <? GyroMouseOnlineMode.last_gyro_time st) = true ->
  (now - GyroMouseOnlineMode.last_gyro_time st <? 0.01) = true ->
  ((5.0 <? abs (pt_X s - GyroMouseOnlineMode.last_gx st))
   || (5.0 <? abs (pt_Z s - GyroMouseOnlineMode.last_gz st))) = true ->
  GyroMouseOnlineMode.update_mems cfg st data now
  = (GyroMouseOnlineMode.set_last_gyro_time
       (GyroMouseOnlineMode.set_last_update_ts st now) now, Silent).
Proof.
  unfold GyroMouseOnlineMode.accepted, GyroMouseOnlineMode.update_mems.
  destruct data as [|d0 rest]; [discriminate|]. cbv zeta.
  destruct (Gyroscope (last rest d0)) as [gyr|]; [|discriminate].
  destruct (isfinite (pt_X gyr) && isfinite (pt_Z gyr)); [|discriminate].
  intros [= <-] Hn Hr H0 Hd Hj. apply Z.ltb_ge in Hn.
  rewrite Hn, Hr. cbn [negb].
  unfold GyroMouseOnlineMode.jitter_then_still.
  cbn [GyroMouseOnlineMode.last_gyro_time GyroMouseOnlineMode.last_gx
       GyroMouseOnlineMode.last_gz GyroMouseOnlineMode.set_last_update_ts].
  rewrite H0, Hd, Hj. reflexivity.
Qed.

(** One delivery of a slow drift, from rest: the stillness test stops it. *)
Lemma mems_drift_step fpow cfg st st0 data now acc :
  MemsMouseMode.accepted data = Some acc ->
  (MemsMouseMode.neutral_samples cfg <= MemsMouseMode.accum_count st)%Z ->
  MemsMouseMode.neutral_gx st = MemsMouseMode.neutral_gx st0 ->
  MemsMouseMode.neutral_gy st = MemsMouseMode.neutral_gy st0 ->
  MemsMouseMode.neutral_gz st = MemsMouseMode.neutral_gz st0 ->
  is_zero (MemsMouseMode.vx_g st) = true ->
  is_zero (MemsMouseMode.vy_g st) = true ->
  (now - MemsMouseMode.last_update_ts st
   <? MemsMouseMode.update_interval_sec cfg) = false ->
  (let '(gx, gy, gz) := gyro_reading data in
   MemsMouseMode.near_gyro_neutral cfg st0 gx gy gz) = false ->
  (abs (pt_X acc - MemsMouseMode.last_ax st) <? MemsMouseMode.still_eps_g cfg) = true ->
  (abs (pt_Y acc - MemsMouseMode.last_ay st) <? MemsMouseMode.still_eps_g cfg) = true ->
  exists v_x v_y,
    is_zero v_x = true /\ is_zero v_y = true /\
    MemsMouseMode.update_mems fpow cfg st data now
    = (MemsMouseMode.set_last_accel
         (MemsMouseMode.set_velocity (MemsMouseMode.set_last_update_ts st now) v_x v_y)
         (pt_X acc) (pt_Y acc), Silent).
Proof.
  unfold MemsMouseMode.accepted, MemsMouseMode.update_mems, gyro_reading.
  destruct data as [|d0 rest]; [discriminate|]. cbv zeta.
  destruct (Accelerometer (last rest d0)) as [a|]; [|discriminate].
  destruct (isfinite (pt_X a) && isfinite (pt_Y a) && isfinite (pt_Z a));
    [|discriminate].
  intros [= <-] Hn G1 G2 G3 Vx Vy Hr Hg Sx Sy. apply Z.ltb_ge in Hn.
  assert (Z3 : forall v, is_zero v = true ->
                 is_zero (if abs (v * 0.3) <? MemsMouseMode.deadzone_g cfg * 0.5
                          then 0.0 else v * 0.3) = true).
  { intros v Hv.
    destruct (abs (v * 0.3) <? MemsMouseMode.deadzone_g cfg * 0.5); [reflexivity|].
    apply mul_zero_l; [exact Hv | reflexivity]. }
  assert (N : forall gx gy gz,
             MemsMouseMode.near_gyro_neutral cfg st0 gx gy gz = false ->
             MemsMouseMode.near_gyro_neutral cfg
               (MemsMouseMode.set_last_update_ts st now) gx gy gz = false).
  { intros gx gy gz. unfold MemsMouseMode.near_gyro_neutral.
    cbn [MemsMouseMode.neutral_gx MemsMouseMode.neutral_gy MemsMouseMode.neutral_gz
         MemsMouseMode.set_last_update_ts].
    rewrite G1, G2, G3. auto. }
  assert (F : forall gx gy gz,
             MemsMouseMode.near_gyro_neutral cfg st0 gx gy gz = false ->
             exists v_x v_y,
               is_zero v_x = true /\ is_zero v_y = true /\
               (if MemsMouseMode.near_gyro_neutral cfg
                     (MemsMouseMode.set_last_update_ts st now) gx gy gz
                then (MemsMouseMode.set_last_accel
                        (MemsMouseMode.set_velocity
                           (MemsMouseMode.set_last_update_ts st now) 0.0 0.0)
                        (pt_X a) (pt_Y a), Silent)
                else MemsMouseMode.still_then_shape fpow cfg
                       (MemsMouseMode.set_last_update_ts st now) (pt_X a) (pt_Y a))
               = (MemsMouseMode.set_last_accel
                    (MemsMouseMode.set_velocity
                       (MemsMouseMode.set_last_update_ts st now) v_x v_y)
                    (pt_X a) (pt_Y a), Silent)).
  { intros gx gy gz Hnear. rewrite (N gx gy gz Hnear).
    unfold MemsMouseMode.still_then_shape. cbv zeta.
    cbn [MemsMouseMode.last_ax MemsMouseMode.last_ay MemsMouseMode.vx_g
         MemsMouseMode.vy_g MemsMouseMode.set_last_update_ts].
    rewrite Sx, Sy. cbn [andb].
    pose proof (Z3 _ Vx) as Zx. pose proof (Z3 _ Vy) as Zy.
    unfold is_zero in Zx, Zy. rewrite Zx, Zy. cbn [andb].
    eexists. eexists. split; [exact Zx|]. split; [exact Zy|]. reflexivity. }
  destruct (Gyroscope (last rest d0)) as [gyr|]; rewrite Hn, Hr; cbn [negb];
    apply F; exact Hg.
Qed.

(** One delivery of a steady reading: the stillness timeout stops it. *)
Lemma gyro_steady_step fpow cfg st data now s :
  GyroMouseMode.accepted data = Some s ->
  (GyroMouseMode.neutral_samples cfg <= GyroMouseMode.accum_count st)%Z ->
  (GyroMouseMode.still_since st =? 0) = false ->
  (now - GyroMouseMode.last_update_ts st
   <? GyroMouseMode.update_interval_sec cfg) = false ->
  (abs (pt_X s - GyroMouseMode.last_gx st) <? GyroMouseMode.still_eps_deg cfg) = true ->
  (abs (pt_Z s - GyroMouseMode.last_gz st) <? GyroMouseMode.still_eps_deg cfg) = true ->
  (GyroMouseMode.still_timeout_sec cfg <=? now - GyroMouseMode.still_since st) = true ->
  exists v_x v_y,
    GyroMouseMode.update_mems fpow cfg st data now
    = (GyroMouseMode.set_last_gyro
         (GyroMouseMode.set_velocity (GyroMouseMode.set_last_update_ts st now) v_x v_y)
         (pt_X s) (pt_Z s), Silent).
Proof.
  unfold GyroMouseMode.accepted, GyroMouseMode.update_mems.
  destruct data as [|d0 rest]; [discriminate|]. cbv zeta.
  destruct (Gyroscope (last rest d0)) as [gyr|]; [|discriminate].
  destruct (isfinite (pt_X gyr) && isfinite (pt_Z gyr)); [|discriminate].
  intros [= <-] Hn H0 Hr Sx Sz Ht. apply Z.ltb_ge in Hn.
  rewrite Hn, Hr. cbn [negb].
  unfold GyroMouseMode.still_then_center. cbv zeta.
  cbn [GyroMouseMode.last_gx GyroMouseMode.last_gz GyroMouseMode.still_since
       GyroMouseMode.set_last_update_ts].
  rewrite Sx, Sz, H0, Ht. cbn [andb].
  eexists. eexists. reflexivity.
Qed.

End PatternFacts.

Module PatternExtras.
Import Examples PatternFacts.

(** X20.  The jitter filter of [GyroMouseOnlineMode] can hold the pointer
    for as long as a fast motion lasts.  A dropped delivery refreshes the
    clock of the filter but not the rates it compares with, so when
    deliveries keep coming less than 10 ms apart, each more than 5 deg/s
    away from the last reading that was let through, all of them are
    dropped: nothing moves, and the velocity and the last reading stay as
    they were. *)
Theorem jitter_filter_holds_through_bursts :
  forall (cfg : GyroMouseOnlineMode.GyroMouseOnlineConfig)
         (st : GyroMouseOnlineMode.state)
         (packets : list (list MEMSData * float)),
    (GyroMouseOnlineMode.neutral_samples cfg
     <= GyroMouseOnlineMode.accum_count st)%Z ->
    GyroMouseOnlineMode.last_update_ts st = GyroMouseOnlineMode.last_gyro_time st ->
    burst cfg (GyroMouseOnlineMode.last_gx st) (GyroMouseOnlineMode.last_gz st)
      (GyroMouseOnlineMode.last_gyro_time st) packets = true ->
    let r := run_mems (GyroMouseOnlineMode.update_mems cfg) st packets in
    Forall (eq Silent) (snd r) /\
    GyroMouseOnlineMode.vx (fst r) = GyroMouseOnlineMode.vx st /\
    GyroMouseOnlineMode.vy (fst r) = GyroMouseOnlineMode.vy st /\
    GyroMouseOnlineMode.last_gx (fst r) = GyroMouseOnlineMode.last_gx st /\
    GyroMouseOnlineMode.last_gz (fst r) = GyroMouseOnlineMode.last_gz st.
Proof.
  intros cfg st packets. revert st.
  induction packets as [|[data now] rest IH]; intros st Hn Ht Hb; cbv zeta.
  - repeat split. constructor.
  - cbn [burst] in Hb.
    destruct (GyroMouseOnlineMode.accepted data) as [s|] eqn:A; [|discriminate Hb].
    repeat (apply andb_true_iff in Hb; destruct Hb as [Hb ?]).
    rewrite (run_mems_cons (GyroMouseOnlineMode.update_mems cfg)). cbn [fst snd].
    rewrite (online_burst_step cfg st data now s A Hn);
      [| rewrite Ht; apply negb_true_iff; assumption | assumption..].
    cbn [fst snd].
    destruct (IH (GyroMouseOnlineMode.set_last_gyro_time
                    (GyroMouseOnlineMode.set_last_update_ts st now) now))
      as (I1 & I2 & I3 & I4 & I5); try assumption; [reflexivity|].
    repeat split; try assumption. constructor; [reflexivity | exact I1].
Qed.

(** X20 on the online defaults after a reading at rest at clock 1000: two
    readings of 20 and 25 deg/s, 5 ms apart, move nothing. *)
Lemma jitter_filter_holds_through_bursts_witness :
  let st := fst (GyroMouseOnlineMode.update_mems (online_config 8.0 50 50.0)
                   (online_locked 0.0) (gyro_packet 0.0 0.0) 1000.0) in
  let r := run_mems (GyroMouseOnlineMode.update_mems (online_config 8.0 50 50.0)) st
             [(gyro_packet 20.0 0.0, 1000.005); (gyro_packet 25.0 0.0, 1000.010)] in
  Forall (eq Silent) (snd r) /\
  GyroMouseOnlineMode.vx (fst r) = GyroMouseOnlineMode.vx st /\
  GyroMouseOnlineMode.vy (fst r) = GyroMouseOnlineMode.vy st /\
  GyroMouseOnlineMode.last_gx (fst r) = GyroMouseOnlineMode.last_gx st /\
  GyroMouseOnlineMode.last_gz (fst r) = GyroMouseOnlineMode.last_gz st.
Proof.
  cbv zeta. apply jitter_filter_holds_through_bursts.
  - vm_compute. congruence.
  - vm_compute. reflexivity.
  - vm_compute. reflexivity.
Defined.

(** X21.  [MemsMouseMode] does not see a slow drift.  The stillness test
    compares a sample with the one before, not with the neutral: starting
    at rest (zero velocity), while each sample is within [still_eps_g] of
    the one before on both axes and the gyroscope is away from its neutral,
    every call is silent and the velocity stays zero, however far from the
    neutral the drift has taken the accelerations. *)
Theorem slow_drift_is_not_seen :
  forall (fpow : float -> float -> option float)
         (cfg : MemsMouseMode.MemsMouseConfig) (st : MemsMouseMode.state)
         (packets : list (list MEMSData * float)),
    (MemsMouseMode.neutral_samples cfg <= MemsMouseMode.accum_count st)%Z ->
    is_zero (MemsMouseMode.vx_g st) = true ->
    is_zero (MemsMouseMode.vy_g st) = true ->
    slow_drift cfg st (MemsMouseMode.last_ax st) (MemsMouseMode.last_ay st)
      (MemsMouseMode.last_update_ts st) packets = true ->
    let r := run_mems (MemsMouseMode.update_mems fpow cfg) st packets in
    Forall (eq Silent) (snd r) /\
    is_zero (MemsMouseMode.vx_g (fst r)) = true /\
    is_zero (MemsMouseMode.vy_g (fst r)) = true /\
    MemsMouseMode.neutral_x (fst r) = MemsMouseMode.neutral_x st /\
    MemsMouseMode.neutral_y (fst r) = MemsMouseMode.neutral_y st.
Proof.
  intros fpow cfg st packets Hn Vx Vy Hd.
  assert (G : forall st1,
             (MemsMouseMode.neutral_samples cfg <= MemsMouseMode.accum_count st1)%Z ->
             MemsMouseMode.neutral_gx st1 = MemsMouseMode.neutral_gx st ->
             MemsMouseMode.neutral_gy st1 = MemsMouseMode.neutral_gy st ->
             MemsMouseMode.neutral_gz st1 = MemsMouseMode.neutral_gz st ->
             is_zero (MemsMouseMode.vx_g st1) = true ->
             is_zero (MemsMouseMode.vy_g st1) = true ->
             slow_drift cfg st (MemsMouseMode.last_ax st1) (MemsMouseMode.last_ay st1)
               (MemsMouseMode.last_update_ts st1) packets = true ->
             let r := run_mems (MemsMouseMode.update_mems fpow cfg) st1 packets in
             Forall (eq Silent) (snd r) /\
             is_zero (MemsMouseMode.vx_g (fst r)) = true /\
             is_zero (MemsMouseMode.vy_g (fst r)) = true /\
             MemsMouseMode.neutral_x (fst r) = MemsMouseMode.neutral_x st1 /\
             MemsMouseMode.neutral_y (fst r) = MemsMouseMode.neutral_y st1);
    [|apply G; auto].
  clear Hn Vx Vy Hd.
  induction packets as [|[data now] rest IH];
    intros st1 Hn G1 G2 G3 Vx Vy Hd; cbv zeta.
  - repeat split; try assumption. constructor.
  - cbn [slow_drift] in Hd.
    destruct (MemsMouseMode.accepted data) as [acc|] eqn:A; [|discriminate Hd].
    destruct (gyro_reading data) as [[gx gy] gz] eqn:R.
    repeat (apply andb_true_iff in Hd; destruct Hd as [Hd ?]).
    rewrite (run_mems_cons (MemsMouseMode.update_mems fpow cfg)). cbn [fst snd].
    destruct (mems_drift_step fpow cfg st1 st data now acc A Hn G1 G2 G3 Vx Vy)
      as (v_x & v_y & Zx & Zy & E); try assumption.
    { apply negb_true_iff. assumption. }
    { rewrite R. apply negb_true_iff. assumption. }
    rewrite E. cbn [fst snd].
    destruct (IH (MemsMouseMode.set_last_accel
                    (MemsMouseMode.set_velocity
                       (MemsMouseMode.set_last_update_ts st1 now) v_x v_y)
                    (pt_X acc) (pt_Y acc)))
      as (I1 & I2 & I3 & I4 & I5); try assumption.
    repeat split; try assumption. constructor; [reflexivity | exact I1].
Qed.

(** X21 on the default configuration, calibrated at rest with a gyroscope
    neutral of 0: with the gyroscope reading 10 deg/s, three samples that
    creep by 0.003 g each, to 0.009 g in all, move nothing. *)
Lemma slow_drift_is_not_seen_witness :
  let moving ax := [mkMEMSData (Some (mkPoint3D ax 0.0 1.0))
                               (Some (mkPoint3D 10.0 0.0 0.0))] in
  let r := run_mems (MemsMouseMode.update_mems pow_sample MemsMouseMode.default_config)
             mems_locked
             [(moving 0.003, 1000.0); (moving 0.006, 1000.1); (moving 0.009, 1000.2)] in
  Forall (eq Silent) (snd r) /\
  is_zero (MemsMouseMode.vx_g (fst r)) = true /\
  is_zero (MemsMouseMode.vy_g (fst r)) = true /\
  MemsMouseMode.neutral_x (fst r) = MemsMouseMode.neutral_x mems_locked /\
  MemsMouseMode.neutral_y (fst r) = MemsMouseMode.neutral_y mems_locked.
Proof.
  cbv zeta. apply slow_drift_is_not_seen.
  - vm_compute. congruence.
  - reflexivity.
  - reflexivity.
  - vm_compute. reflexivity.
Defined.

(** X22.  The stillness timeout of [GyroMouseMode]: once the reading has
    been still since a clock [still_since], every delivery that comes
    [still_timeout_sec] or more after it, with rates within
    [still_eps_deg] of the delivery before, is silent, whatever the
    distance to the neutral; the neutral and [still_since] stay as they
    were. *)
Theorem steady_reading_stops_pointer :
  forall (fpow : float -> float -> option float)
         (cfg : GyroMouseMode.GyroMouseConfig) (st : GyroMouseMode.state)
         (packets : list (list MEMSData * float)),
    (GyroMouseMode.neutral_samples cfg <= GyroMouseMode.accum_count st)%Z ->
    (GyroMouseMode.still_since st =? 0) = false ->
    steady cfg (GyroMouseMode.still_since st) (GyroMouseMode.last_gx st)
      (GyroMouseMode.last_gz st) (GyroMouseMode.last_update_ts st) packets = true ->
    let r := run_mems (GyroMouseMode.update_mems fpow cfg) st packets in
    Forall (eq Silent) (snd r) /\
    GyroMouseMode.still_since (fst r) = GyroMouseMode.still_since st /\
    GyroMouseMode.neutral_gx (fst r) = GyroMouseMode.neutral_gx st /\
    GyroMouseMode.neutral_gz (fst r) = GyroMouseMode.neutral_gz st.
Proof.
  intros fpow cfg st packets. revert st.
  induction packets as [|[data now] rest IH]; intros st Hn H0 Hs; cbv zeta.
  - repeat split. constructor.
  - cbn [steady] in Hs.
    destruct (GyroMouseMode.accepted data) as [s|] eqn:A; [|discriminate Hs].
    repeat (apply andb_true_iff in Hs; destruct Hs as [Hs ?]).
    rewrite (run_mems_cons (GyroMouseMode.update_mems fpow cfg)). cbn [fst snd].
    destruct (gyro_steady_step fpow cfg st data now s A Hn H0)
      as (v_x & v_y & E); try assumption.
    { apply negb_true_iff. assumption. }
    rewrite E. cbn [fst snd].
    destruct (IH (GyroMouseMode.set_last_gyro
                    (GyroMouseMode.set_velocity
                       (GyroMouseMode.set_last_update_ts st now) v_x v_y)
                    (pt_X s) (pt_Z s)))
      as (I1 & I2 & I3 & I4); try assumption.
    repeat split; try assumption. constructor; [reflexivity | exact I1].
Qed.

(** X22 on a controller still since clock 999: two deliveries at a steady
    30 deg/s, more than 0.1 s later, move nothing. *)
Lemma steady_reading_stops_pointer_witness :
  let st := GyroMouseMode.set_last_gyro
              (GyroMouseMode.set_still_since gyro_locked 999.0) 30.0 0.0 in
  let r := run_mems (GyroMouseMode.update_mems pow_sample (gyro_config 50)) st
             [(gyro_packet 30.1 0.0, 1000.0); (gyro_packet 30.2 0.0, 1000.1)] in
  Forall (eq Silent) (snd r) /\
  GyroMouseMode.still_since (fst r) = GyroMouseMode.still_since st /\
  GyroMouseMode.neutral_gx (fst r) = GyroMouseMode.neutral_gx st /\
  GyroMouseMode.neutral_gz (fst r) = GyroMouseMode.neutral_gz st.
Proof.
  cbv zeta. apply steady_reading_stops_pointer.
  - vm_compute. congruence.
  - reflexivity.
  - vm_compute. reflexivity.
Defined.

End PatternExtras.
